(** * rpmconf: the configuration-variant reconciliation engine and the
      orphan scanner of [rpmconf/rpmconf.py], embedded in Rocq.

    The Python class [RpmConf] works on three pieces of outside state:
    the filesystem, the lines the administrator types on standard input,
    and what the program shows on the terminal.  The embedding threads a
    [world] (filesystem and terminal output) through a small state and
    exception monad; the unread input lines are passed explicitly, so
    that the two prompt loops recurse on them.

    External collaborators (the merge tools, [rpm -qf], the directory
    listings [os.walk] sees) are variables of the section [Engine].

    What the model leaves out: permissions on files (the program runs
    as root; a command that cannot be executed is in), hard links and
    symbolic links in the directory part of a path (two different path
    strings never name the same entry here, while the walk of the
    scanner, which follows links, can reach one file under two names:
    the claim on the confirmed deletion of orphans is stated so that it
    holds with such names too), what other
    processes do to the files while the program waits, a copy that fails
    after it has begun to write (what is proved of a failing
    [_overwrite] is about the source only), the text of the diffs, and
    the result cache of [filecmp] (it can only give a stale answer for a
    file that changed without its size or modification time changing).
    Input lines are byte strings; [upper] is [str.upper] on ASCII lines,
    and what is proved of a line that is no answer is stated for
    those. *)

From Stdlib Require Import ZArith String Ascii List Lia Bool.
From stdpp Require Import base option list gmap strings fin_maps.

Local Open Scope Z_scope.
Local Open Scope string_scope.

(** ** Strings: the few [str] and [os.path] operations the program uses *)

Definition nl : string := String "010" EmptyString.

(** [str.upper()] on ASCII text: the letters a to z are mapped, every
    other character is kept.  On a line with other characters
    [str.upper] does more (it maps U+0131 to I and U+017F to S); such
    lines are outside what [upper] models. *)
Definition upper_ascii (c : ascii) : ascii :=
  let n := nat_of_ascii c in
  if ((97 <=? n)%nat && (n <=? 122)%nat)%bool then ascii_of_nat (n - 32) else c.

Fixpoint upper (s : string) : string :=
  match s with
  | EmptyString => EmptyString
  | String c s' => String (upper_ascii c) (upper s')
  end.

(** [str.isascii()]: every character is below 128. *)
Fixpoint is_ascii (s : string) : bool :=
  match s with
  | EmptyString => true
  | String c s' => (nat_of_ascii c <? 128)%nat && is_ascii s'
  end.

(** Python's [x in [a, b, ...]] on strings. *)
Definition in_list (x : string) (l : list string) : bool :=
  existsb (String.eqb x) l.

(** [s + t] on strings *)
Notation "s +++ t" := (String.append s t) (at level 60, right associativity).

(** [str.rfind(c)]: the last index of [c], or -1. *)
Fixpoint rfind_from (c : ascii) (s : string) (i acc : Z) : Z :=
  match s with
  | EmptyString => acc
  | String a s' => rfind_from c s' (i + 1) (if Ascii.eqb a c then i else acc)
  end.

Definition rfind (c : ascii) (s : string) : Z := rfind_from c s 0 (-1).

(** [p[i:]] and [p[:i]] for [0 <= i]. *)
Definition slice_from (i : nat) (p : string) : string :=
  String.substring i (String.length p - i) p.
Definition slice_to (i : nat) (p : string) : string :=
  String.substring 0 i p.

(** The loop of [genericpath._splitext] that skips leading dots: is there
    an index in [i, i + k) whose character is not a dot? *)
Fixpoint has_non_dot (k i : nat) (p : string) : bool :=
  match k with
  | O => false
  | S k' =>
      match String.get i p with
      | Some c => if Ascii.eqb c "." then has_non_dot k' (S i) p else true
      | None => true
      end
  end.

(** [os.path.splitext(p)] (posixpath: sep is "/", extsep is "."). *)
Definition splitext (p : string) : string * string :=
  let sepIndex := rfind "/" p in
  let dotIndex := rfind "." p in
  if (dotIndex >? sepIndex) &&
     has_non_dot (Z.to_nat (dotIndex - (sepIndex + 1))) (Z.to_nat (sepIndex + 1)) p
  then (slice_to (Z.to_nat dotIndex) p, slice_from (Z.to_nat dotIndex) p)
  else (p, EmptyString).

Definition startswith_sep (p : string) : bool :=
  match p with String "/" _ => true | _ => false end.

Fixpoint endswith_sep (p : string) : bool :=
  match p with
  | EmptyString => false
  | String c EmptyString => Ascii.eqb c "/"
  | String _ p' => endswith_sep p'
  end.

(** [os.path.join(a, b)] *)
Definition path_join (a b : string) : string :=
  if startswith_sep b then b
  else if String.eqb a EmptyString || endswith_sep a then a +++ b
  else a +++ "/" +++ b.

(** [s.endswith(suffix)] *)
Definition endswith (s suffix : string) : bool :=
  String.eqb (slice_from (String.length s - String.length suffix) s) suffix.

(** [os.path.basename(p)] *)
Definition basename (p : string) : string :=
  slice_from (Z.to_nat (rfind "/" p + 1)) p.

(** [s.ljust(width)] *)
Fixpoint spaces (n : nat) : string :=
  match n with O => EmptyString | S n' => String " " (spaces n') end.
Definition ljust (s : string) (width : nat) : string :=
  s +++ spaces (width - String.length s).

(** ** The filesystem

    A path is a key; an entry is a regular file (its bytes and its
    modification time, the two things [filecmp] and [copy2] look at), a
    symbolic link or a directory.  Symbolic links are followed on the last
    component only, and their targets are read as absolute paths. *)

Inductive node : Type :=
  | Reg (data : string) (mtime : Z)
  | Lnk (target : string)
  | Dir.

#[global] Instance node_eq_dec : EqDecision node.
Proof. solve_decision. Defined.

(** What the program shows or triggers, in order. *)
Inductive event : Type :=
  | Print (s : string)                        (* print(s) *)
  | Ask (question : string)                   (* input(question) shows the question *)
  | LsOutput (selinux : bool) (a b : string)  (* the listing printed by _ls_conf_file *)
  | Pager (file1 file2 data1 data2 : string)  (* pydoc.pager of the diff of the two files *)
  | Stopped                                   (* os.kill(os.getpid(), SIGSTOP) *)
  | Spawned (argv : list string)              (* subprocess.check_call(argv) *)
  | Stderr (s : string)                       (* sys.stderr.write(s) *)
  | LogInfo (s : string)
  | LogError (s : string).

Record world : Type := World {
  fs : gmap string node;
  out : list event
}.

Definition set_fs (m : gmap string node) (w : world) : world :=
  {| fs := m; out := out w |}.
Definition add_out (e : event) (w : world) : world :=
  {| fs := fs w; out := (out w ++ [e])%list |}.

(** The exceptions that occur. *)
Inductive exn : Type :=
  | EOFError
  | FileNotFoundError
  | IsADirectoryError
  | FileExistsError
  | SameFileError
  | OSError (errno : string)   (* the other OSErrors: ELOOP, EINVAL *)
  | AttributeError
  | PermissionError
  | CalledProcessError
  | SystemExit (code : Z).

#[global] Instance exn_eq_dec : EqDecision exn.
Proof. solve_decision. Defined.

Inductive result (A : Type) : Type :=
  | Ok (a : A) (w : world)
  | Raise (e : exn) (w : world).
Arguments Ok {A} a w.
Arguments Raise {A} e w.

Definition world_of {A} (r : result A) : world :=
  match r with Ok _ w => w | Raise _ w => w end.

(** A computation: it reads and changes the world, and returns or raises. *)
Definition M (A : Type) : Type := world -> result A.

Definition ret {A} (a : A) : M A := fun w => Ok a w.
Definition bind {A B} (m : M A) (k : A -> M B) : M B :=
  fun w => match m w with
           | Ok a w' => k a w'
           | Raise e w' => Raise e w'
           end.
Definition raise {A} (e : exn) : M A := fun w => Raise e w.

(** [try: m except e: h] *)
Definition catch {A} (m : M A) (e : exn) (h : M A) : M A :=
  fun w => match m w with
           | Ok a w' => Ok a w'
           | Raise e' w' => if decide (e' = e) then h w' else Raise e' w'
           end.

Notation "'let*' x ':=' m 'in' k" := (bind m (fun x => k))
  (at level 10, x pattern, m at level 100, k at level 200, only parsing).
Notation "m >> k" := (bind m (fun _ => k))
  (at level 100, k at level 200, right associativity, only parsing).

Definition emit (e : event) : M unit := fun w => Ok tt (add_out e w).
Definition print (s : string) : M unit := emit (Print s).
Definition get_fs : M (gmap string node) := fun w => Ok (fs w) w.
Definition when (b : bool) (m : M unit) : M unit := if b then m else ret tt.

(** [for x in l: body x] *)
Fixpoint for_each {A} (l : list A) (body : A -> M unit) : M unit :=
  match l with
  | [] => ret tt
  | x :: l' => body x >> for_each l' body
  end.

(** ** Operating-system calls *)

(** Follow symbolic links, at most [n] of them. *)
Fixpoint follow (n : nat) (m : gmap string node) (p : string) : exn + (string * node) :=
  match m !! p with
  | None => inl FileNotFoundError
  | Some (Lnk t) =>
      match n with
      | O => inl (OSError "ELOOP")
      | S n' => follow n' m t
      end
  | Some nd => inr (p, nd)
  end.

Definition MAXSYMLINKS : nat := 40.

(** [os.stat(p)]: the entry [p] resolves to, with the path it lives at. *)
Definition stat (m : gmap string node) (p : string) : exn + (string * node) :=
  follow MAXSYMLINKS m p.

Definition os_stat (p : string) : M node :=
  fun w => match stat (fs w) p with
           | inl e => Raise e w
           | inr (_, nd) => Ok nd w
           end.

(** [os.access(p, os.F_OK)] *)
Definition os_access (m : gmap string node) (p : string) : bool :=
  match stat m p with inr _ => true | inl _ => false end.

(** [os.path.lexists(p)] *)
Definition lexists (m : gmap string node) (p : string) : bool :=
  match m !! p with Some _ => true | None => false end.

(** [os.path.islink(p)] *)
Definition islink (m : gmap string node) (p : string) : bool :=
  match m !! p with Some (Lnk _) => true | _ => false end.

(** [os.path.isdir(p)] *)
Definition isdir (m : gmap string node) (p : string) : bool :=
  match stat m p with inr (_, Dir) => true | _ => false end.

(** [os.unlink(p)] *)
Definition os_unlink (p : string) : M unit :=
  fun w => match fs w !! p with
           | None => Raise FileNotFoundError w
           | Some Dir => Raise IsADirectoryError w
           | Some _ => Ok tt (set_fs (delete p (fs w)) w)
           end.

(** [os.symlink(linkto, dst)] *)
Definition os_symlink (linkto dst : string) : M unit :=
  fun w => match fs w !! dst with
           | Some _ => Raise FileExistsError w
           | None => Ok tt (set_fs (<[dst := Lnk linkto]> (fs w)) w)
           end.

(** The contents of the regular file [p] resolves to. *)
Definition read_file (m : gmap string node) (p : string) : option string :=
  match stat m p with
  | inr (_, Reg d _) => Some d
  | _ => None
  end.

(** Where [open(p, 'wb')] writes: through the links, onto the last path
    of the chain when that one does not exist yet. *)
Fixpoint write_target (n : nat) (m : gmap string node) (p : string) : exn + string :=
  match m !! p with
  | Some (Lnk t) =>
      match n with
      | O => inl (OSError "ELOOP")
      | S n' => write_target n' m t
      end
  | Some Dir => inl IsADirectoryError
  | _ => inr p
  end.

(** [shutil.copy2(src, dst)] for a [src] that is not a symbolic link:
    into [dst/basename(src)] when [dst] is a directory; refuses to copy a
    file onto itself; bytes and modification time are carried over.  The
    failures are those of opening the two files; a write that fails
    after [dst] was opened (and truncated) is not in the model. *)
Definition shutil_copy2 (src dst : string) : M unit :=
  fun w =>
    let m := fs w in
    let dst := if isdir m dst then path_join dst (basename src) else dst in
    let samefile :=
      match stat m src, stat m dst with
      | inr (s, _), inr (d, _) => String.eqb s d
      | _, _ => false
      end in
    if samefile then Raise SameFileError w
    else
      match stat m src with
      | inr (_, Reg data mtime) =>
          match write_target MAXSYMLINKS m dst with
          | inr t => Ok tt (set_fs (<[t := Reg data mtime]> m) w)
          | inl e => Raise e w
          end
      | inr (_, _) => Raise IsADirectoryError w
      | inl e => Raise e w
      end.

(** [filecmp.cmp(f1, f2)] with its default [shallow=True]: files that are
    not both regular differ; equal signatures (size, modification time)
    are taken as equal without reading; otherwise sizes, then bytes, are
    compared. *)
Definition filecmp_cmp (f1 f2 : string) : M bool :=
  let* s1 := os_stat f1 in
  let* s2 := os_stat f2 in
  match s1, s2 with
  | Reg d1 t1, Reg d2 t2 =>
      if (String.length d1 =? String.length d2)%nat && (t1 =? t2)%Z then ret true
      else if negb (String.length d1 =? String.length d2)%nat then ret false
      else ret (String.eqb d1 d2)
  | _, _ => ret false
  end.

(** [os.readlink(p)] *)
Definition os_readlink (p : string) : M string :=
  fun w => match fs w !! p with
           | Some (Lnk t) => Ok t w
           | Some _ => Raise (OSError "EINVAL") w
           | None => Raise FileNotFoundError w
           end.

(** ** The package database and the run configuration *)

(** One entry of [rpm.fi(package)]: field 0 is the path, field 4 the flags. *)
Record rpm_file : Type := { fi_name : string; fi_flags : Z }.

(** A package header, as far as the program reads it: its files. *)
Definition hdr : Type := list rpm_file.

(** [rpm.RPMFILE_CONFIG], from the rpm bindings: bit 0 of the file flags. *)
Definition RPMFILE_CONFIG : Z := 1.

(** The instance variables of [RpmConf]; [packages] holds one match
    iterator per selector, each a sequence of headers. *)
Record RpmConf : Type := {
  packages : list (list hdr);
  clean : bool;
  debug : bool;
  selinux : bool;
  diff : bool;
  frontend : option string
}.

(** What running an external command does: the executable is missing,
    it is there but cannot be executed, or it exits with a status and
    leaves the filesystem in some state. *)
Inductive tool_result : Type :=
  | ToolMissing
  | ToolDenied
  | ToolExit (status : Z) (m : gmap string node).

(** A directory as [os.walk] lists it: its subdirectories (symbolic links
    to directories among them, as [followlinks=True] asks) with their own
    listings, and the names of its other entries. *)
#[warnings="-register-all"] Inductive dirtree : Type :=
  | DirTree (dirs : list (string * dirtree)) (files : list string).

(** ** The class [RpmConf] *)

Section Engine.

(** Running the command line [argv] on a filesystem. *)
Variable run_tool : list string -> gmap string node -> tool_result.
(** [os.environ.get('MERGE')] *)
Variable environ_MERGE : option string.
(** [rpm -qf path --qf '%{name}']: the standard output when the exit
    status is 0, [None] when it is not. *)
Variable rpm_qf : gmap string node -> string -> option string.
(** The listing [os.walk(top, followlinks=True)] unfolds from [top]. *)
Variable os_tree : gmap string node -> string -> dirtree.

(** [subprocess.check_call(argv)] *)
Definition check_call (argv : list string) : M unit :=
  fun w =>
    match run_tool argv (fs w) with
    | ToolMissing => Raise FileNotFoundError w
    | ToolDenied => Raise PermissionError w
    | ToolExit status m' =>
        let w' := add_out (Spawned argv) (set_fs m' w) in
        if (status =? 0)%Z then Ok tt w' else Raise CalledProcessError w'
    end.

(** [flush_input(question)]: [tcflush] drops what was typed before the
    question, so [inp] holds the lines typed after it; the question is
    shown and the next line is returned, upper case applied by the
    callers; at the end of the input [input] raises [EOFError].  The
    caller drops the line it was given from the unread input. *)
Definition flush_input (question : string) (inp : list string) : M string :=
  emit (Ask question) >>
  match inp with
  | [] => raise EOFError
  | line :: _ => ret line
  end.

Definition get_list_of_config (package : hdr) : list string :=
  map fi_name
    (List.filter (fun f => negb (Z.land (fi_flags f) RPMFILE_CONFIG =? 0)%Z) package).

(** [show_diff]: both files are stat'ed and read, and the unified diff
    of their lines goes to the pager (the diff text itself is not
    computed here; the event keeps the two contents). *)
Definition show_diff (file1 file2 : string) : M unit :=
  let* s1 := os_stat file1 in
  let* s2 := os_stat file2 in
  match s1, s2 with
  | Reg d1 _, Reg d2 _ => emit (Pager file1 file2 d1 d2)
  | _, _ => raise IsADirectoryError
  end.

Definition _show_cond_diff (file_ex file1 file2 : string) : M unit :=
  let* m := get_fs in
  if lexists m file_ex then show_diff file1 file2 else ret tt.

Definition _copy (src dst : string) : M unit :=
  let* m := get_fs in
  if islink m src then
    let* linkto := os_readlink src in
    catch (os_symlink linkto dst) FileExistsError
          (os_unlink dst >> os_symlink linkto dst)
  else shutil_copy2 src dst.

Definition _remove (self : RpmConf) (conf_file : string) : M unit :=
  if debug self then print ("rm " +++ conf_file)
  else os_unlink conf_file.

Definition _overwrite (self : RpmConf) (src dst : string) : M unit :=
  if debug self then print ("cp --no-dereference " +++ src +++ " " +++ dst)
  else _copy src dst >> _remove self src.

(** [ls -ltrd [--lcontext] conf_file other_file] through
    [subprocess.check_output]: a missing operand makes [ls] exit with a
    non-zero status, which [check_output] raises. *)
Definition _ls_conf_file (self : RpmConf) (conf_file other_file : string) : M unit :=
  print ("Configuration file '" +++ conf_file +++ "'") >>
  let* m := get_fs in
  if lexists m conf_file && lexists m other_file
  then emit (LsOutput (selinux self) conf_file other_file)
  else raise CalledProcessError.

Definition is_frontend (self : RpmConf) (name : string) : bool :=
  match frontend self with
  | Some f => String.eqb f name
  | None => false
  end.

Definition _merge_conf_files (self : RpmConf) (conf_file other_file : string) : M unit :=
  catch
    (if is_frontend self "vimdiff" || is_frontend self "gvimdiff"
        || is_frontend self "meld" then
       check_call ["/usr/bin/" +++ default EmptyString (frontend self);
                   conf_file; other_file]
     else if is_frontend self "diffuse" then
       catch (check_call ["/usr/bin/diffuse"; conf_file; other_file])
             CalledProcessError
             (print "Files not merged.")
     else if is_frontend self "kdiff3" then
       catch (check_call ["/usr/bin/kdiff3"; conf_file; other_file;
                          "-o"; conf_file] >>
              _remove self other_file >>
              _remove self (conf_file +++ ".orig"))
             CalledProcessError
             (print "Files not merged.")
     else if (is_frontend self "env" || bool_decide (frontend self = None))
             && bool_decide (environ_MERGE <> None) then
       let merge_tool := default EmptyString environ_MERGE in
       print ("'" +++ merge_tool +++ "'") >>
       check_call [merge_tool; conf_file; other_file]
     else
       emit (LogError "You did not selected any frontend for merge") >>
       raise (SystemExit 2))
    FileNotFoundError
    (emit (Stderr ("No such file or directory" +++ nl)) >>
     raise (SystemExit 4)).

Definition rpmnew_prompt : string :=
  " ==> Package distributor has shipped an updated version." +++ nl +++
  "   What would you like to do about it ?  Your options are:" +++ nl +++
  "    Y or I  : install the package maintainer's version" +++ nl +++
  "    N or O  : keep your currently-installed version" +++ nl +++
  "      D     : show the differences between the versions" +++ nl +++
  "      M     : merge configuration files" +++ nl +++
  "      Z     : background this process to examine the situation" +++ nl +++
  "      S     : skip this file" +++ nl +++
  " The default action is to keep your current version." +++ nl +++
  "*** aliases (Y/I/N/O/D/M/Z/S) [default=N] ? ".

Definition rpmsave_prompt : string :=
  " ==> Package distributor has shipped an updated version." +++ nl +++
  " ==> Maintainer forced upgrade. Your old version has been backed up." +++ nl +++
  "   What would you like to do about it?  Your options are:" +++ nl +++
  "    Y or I  : install (keep) the package maintainer's version" +++ nl +++
  "    N or O  : return back to your original file" +++ nl +++
  "      D     : show the differences between the versions" +++ nl +++
  "      M     : merge configuration files" +++ nl +++
  "      Z     : background this process to examine the situation" +++ nl +++
  "      S     : skip this file" +++ nl +++
  " The default action is to keep package maintainer's version." +++ nl +++
  "*** aliases (Y/I/N/O/M/D/Z/S) [default=Y] ? ".

(** [os.kill(os.getpid(), signal.SIGSTOP)]: the process stops and is
    resumed later; the program itself does nothing meanwhile. *)
Definition sigstop : M unit := emit Stopped.

(** The [while] loop of [_handle_rpmnew].  [option] starts empty, so the
    body runs at least once; each round reads one line, and the end of
    the input turns into [S], which ends the loop.  The result is the
    final [option] and the unread input. *)
Fixpoint rpmnew_loop (self : RpmConf) (conf_file other_file : string)
         (inp : list string) : M (string * list string) :=
  _ls_conf_file self conf_file other_file >>
  print rpmnew_prompt >>
  let* option := catch (let* line := flush_input "Your choice: " inp in
                        ret (upper line))
                       EOFError (ret "S") in
  let option := if String.eqb option EmptyString then "N" else option in
  when (String.eqb option "D") (show_diff conf_file other_file) >>
  when (String.eqb option "Z")
       (print "Run command 'fg' to continue" >> sigstop) >>
  when (String.eqb option "M") (_merge_conf_files self conf_file other_file) >>
  if in_list option ["Y"; "I"; "N"; "O"; "S"] then ret (option, tail inp)
  else
    match inp with
    | _ :: rest => rpmnew_loop self conf_file other_file rest
    | [] => ret (option, [])  (* not reached: the end of input gave S *)
    end.

(** [_handle_rpmnew].  Python returns nothing; the embedding returns the
    unread input and the [option] the loop ended with ([None] on the
    early return). *)
Definition _handle_rpmnew (self : RpmConf) (conf_file other_file : string)
           (inp : list string) : M (option string * list string) :=
  let* same := filecmp_cmp conf_file other_file in
  if same then
    _remove self other_file >> ret (None, inp)
  else
    let* (option, inp') := rpmnew_loop self conf_file other_file inp in
    when (in_list option ["N"; "O"]) (_remove self other_file) >>
    when (in_list option ["Y"; "I"]) (_overwrite self other_file conf_file) >>
    ret (Some option, inp').

Fixpoint rpmsave_loop (self : RpmConf) (conf_file other_file : string)
         (inp : list string) : M (string * list string) :=
  _ls_conf_file self conf_file other_file >>
  print rpmsave_prompt >>
  let* option := catch (let* line := flush_input "Your choice: " inp in
                        ret (upper line))
                       EOFError (ret "S") in
  let option := if String.eqb option EmptyString then "Y" else option in
  when (String.eqb option "D") (show_diff other_file conf_file) >>
  when (String.eqb option "Z")
       (print "Run command 'fg' to continue" >> sigstop) >>
  when (String.eqb option "M") (_merge_conf_files self conf_file other_file) >>
  if in_list option ["Y"; "I"; "N"; "O"; "S"] then ret (option, tail inp)
  else
    match inp with
    | _ :: rest => rpmsave_loop self conf_file other_file rest
    | [] => ret (option, [])  (* not reached: the end of input gave S *)
    end.

Definition _handle_rpmsave (self : RpmConf) (conf_file other_file : string)
           (inp : list string) : M (option string * list string) :=
  let* same := filecmp_cmp conf_file other_file in
  if same then
    _remove self other_file >> ret (None, inp)
  else
    let* (option, inp') := rpmsave_loop self conf_file other_file inp in
    when (in_list option ["Y"; "I"]) (_remove self other_file) >>
    when (in_list option ["N"; "O"]) (_overwrite self other_file conf_file) >>
    ret (Some option, inp').


(** The body of the loop of [_handle_package] for one configuration
    file; the three suffixes are looked for one after the other, each
    when its turn comes. *)
Definition handle_conf_file (self : RpmConf) (conf_file : string)
           (inp : list string) : M (list string) :=
  if diff self then
    let conf_rpmnew := conf_file +++ ".rpmnew" in
    let conf_rpmsave := conf_file +++ ".rpmsave" in
    let conf_rpmorig := conf_file +++ ".rpmorig" in
    _show_cond_diff conf_rpmnew conf_file conf_rpmnew >>
    _show_cond_diff conf_rpmsave conf_rpmsave conf_file >>
    _show_cond_diff conf_rpmorig conf_rpmorig conf_file >>
    ret inp
  else
    let tmp := fun a b : string => a +++ "." +++ b in
    let* m := get_fs in
    let* inp :=
      if os_access m (tmp conf_file "rpmnew") then
        let* r := _handle_rpmnew self conf_file (tmp conf_file "rpmnew") inp in
        ret (snd r)
      else ret inp in
    let* m := get_fs in
    let* inp :=
      if os_access m (tmp conf_file "rpmsave") then
        let* r := _handle_rpmsave self conf_file (tmp conf_file "rpmsave") inp in
        ret (snd r)
      else ret inp in
    let* m := get_fs in
    if os_access m (tmp conf_file "rpmorig") then
      let* r := _handle_rpmsave self conf_file (tmp conf_file "rpmorig") inp in
      ret (snd r)
    else ret inp.

(** [for x in l: body x], for a body that reads input. *)
Fixpoint for_each_reading {A} (l : list A)
         (body : A -> list string -> M (list string))
         (inp : list string) : M (list string) :=
  match l with
  | [] => ret inp
  | x :: l' => let* inp' := body x inp in for_each_reading l' body inp'
  end.

Definition _handle_package (self : RpmConf) (package : hdr)
           (inp : list string) : M (list string) :=
  for_each_reading (get_list_of_config package) (handle_conf_file self) inp.

(** ** The orphan scanner *)

(** Truth value of a string or [None]. *)
Definition truthy (o : option string) : bool :=
  match o with
  | Some s => negb (String.eqb s EmptyString)
  | None => false
  end.

Definition _clean_orphan_file (m : gmap string node) (rpmnew_rpmsave : string)
  : (option string * string * string) * option string :=
  let rpmnew_rpmsave_orig := fst (splitext rpmnew_rpmsave) in
  match rpm_qf m rpmnew_rpmsave_orig with
  | Some package_merge =>
      ((Some package_merge, rpmnew_rpmsave_orig, rpmnew_rpmsave), None)
  | None =>
      ((None, rpmnew_rpmsave_orig, rpmnew_rpmsave), Some rpmnew_rpmsave)
  end.

(** [os.walk(top, followlinks=True)], top down: the triples it yields,
    given for each yielded [root] which of its [dirs] the loop body
    leaves in place ([keep root name]) before the walk goes on. *)
Fixpoint os_walk (keep : string -> string -> bool) (top : string) (t : dirtree)
  : list (string * list string * list string) :=
  match t with
  | DirTree dirs files =>
      (top, map fst dirs, files) ::
      (fix subdirs (ds : list (string * dirtree)) :=
         match ds with
         | [] => []
         | (name, t') :: ds' =>
             ((if keep top name then os_walk keep (path_join top name) t' else [])
              ++ subdirs ds')%list
         end) dirs
  end.

(** [dirs[:] = [d for d in dirs if d != "mock"]] when [root] is
    [/var/lib]: skip [/var/lib/mock]. *)
Definition keep_dir (root name : string) : bool :=
  if String.eqb root "/var/lib" then negb (String.eqb name "mock") else true.

Definition orphan_lists : Type :=
  list (option string * string * string) * list string.

(** The body of [for name in files]. *)
Definition scan_name (m : gmap string node) (root : string)
           (acc : orphan_lists) (name : string) : orphan_lists :=
  let '(files_merge, files_delete) := acc in
  let l_name := path_join root name in
  if in_list (snd (splitext l_name)) [".rpmnew"; ".rpmsave"] then
    let '(file_merge, file_delete) := _clean_orphan_file m l_name in
    let files_merge :=
      if truthy (fst (fst file_merge)) then (files_merge ++ [file_merge])%list
      else files_merge in
    let files_delete :=
      match file_delete with
      | Some f => if truthy file_delete then (files_delete ++ [f])%list else files_delete
      | None => files_delete
      end in
    (files_merge, files_delete)
  else acc.

(** The body of [for root, dirs, files in os.walk(...)]. *)
Definition scan_dir (m : gmap string node) (acc : orphan_lists)
           (triple : string * list string * list string) : orphan_lists :=
  let '(root, _, files) := triple in
  fold_left (scan_name m root) files acc.

(** The body of [for topdir in ["/etc", "/var", "/usr"]]. *)
Definition scan_topdir (acc : orphan_lists) (topdir : string) : M orphan_lists :=
  emit (LogInfo ("Seaching through: " +++ topdir)) >>
  let* m := get_fs in
  ret (fold_left (scan_dir m) (os_walk keep_dir topdir (os_tree m topdir)) acc).

(** The [while answer not in ["Y", "N", ""]] loop; [EOFError] is not
    caught here.  The result is the answer and the unread input. *)
Fixpoint ask_delete (inp : list string) : M (string * list string) :=
  let* line := flush_input "Delete these files (Y/n): " inp in
  let answer := upper line in
  if in_list answer ["Y"; "N"; EmptyString] then ret (answer, tail inp)
  else
    match inp with
    | _ :: rest => ask_delete rest
    | [] => ret (answer, [])  (* not reached: flush_input raised *)
    end.

Definition print_merge (entry : option string * string * string) : M unit :=
  let '(package_merge, _, rpmnew_rpmsave) := entry in
  match package_merge with
  | Some name => print (ljust name 20 +++ ": " +++ rpmnew_rpmsave)
  | None => raise AttributeError
  end.

(** The loop [for topdir in ["/etc", "/var", "/usr"]], from the two
    empty lists: the lists [files_merge] and [files_delete] it builds. *)
Definition scan_topdirs : M orphan_lists :=
  let* acc := scan_topdir ([], []) "/etc" in
  let* acc := scan_topdir acc "/var" in
  scan_topdir acc "/usr".

Definition _clean_orphan (self : RpmConf) (inp : list string) : M (list string) :=
  let* acc := scan_topdirs in
  let '(files_merge, files_delete) := acc in
  when (negb (bool_decide (files_merge = [])))
       (print "These files need merging - you may want to run 'rpmconf -a':" >>
        for_each files_merge print_merge >>
        print ("Skipping files above." +++ nl)) >>
  if negb (bool_decide (files_delete = [])) then
    print "Orphaned .rpmnew and .rpmsave files:" >>
    for_each files_delete print >>
    let* (answer, inp') := ask_delete inp in
    when (in_list answer ["Y"; EmptyString])
         (for_each files_delete (_remove self)) >>
    ret inp'
  else
    print "No orphaned .rpmnew and .rpmsave files found." >>
    ret inp.

(** [run]: every header of every selected package, then the orphans. *)
Definition run (self : RpmConf) (inp : list string) : M (list string) :=
  let* inp :=
    for_each_reading (packages self)
      (fun pkg => for_each_reading pkg (_handle_package self)) inp in
  if clean self then _clean_orphan self inp else ret inp.

(** ** Notions the properties are stated with *)

Definition is_ask (e : event) : bool :=
  match e with Ask _ => true | _ => false end.

(** Output of the pager. *)
Definition is_pager (e : event) : Prop :=
  match e with Pager _ _ _ _ => True | _ => False end.

(** How many times the program asked for input. *)
Definition asked (evs : list event) : nat := length (List.filter is_ask evs).

(** A computation that leaves the filesystem alone, however it ends. *)
Definition keeps_fs {A} (m : M A) : Prop :=
  forall w, fs (world_of (m w)) = fs w.

(** *** The prompt loop, once for both templates

    [rpmnew_loop] and [rpmsave_loop] differ in the text shown, in the
    option an empty line stands for and in the direction of the diff. *)
Fixpoint choice_loop (prompt dflt : string) (differ : M unit)
         (self : RpmConf) (conf_file other_file : string)
         (inp : list string) : M (string * list string) :=
  _ls_conf_file self conf_file other_file >>
  print prompt >>
  let* option := catch (let* line := flush_input "Your choice: " inp in
                        ret (upper line))
                       EOFError (ret "S") in
  let option := if String.eqb option EmptyString then dflt else option in
  when (String.eqb option "D") differ >>
  when (String.eqb option "Z")
       (print "Run command 'fg' to continue" >> sigstop) >>
  when (String.eqb option "M")
       (_merge_conf_files self conf_file other_file) >>
  if in_list option ["Y"; "I"; "N"; "O"; "S"] then ret (option, tail inp)
  else
    match inp with
    | _ :: rest => choice_loop prompt dflt differ self conf_file other_file rest
    | [] => ret (option, [])
    end.

(** The world once the listing, the menu and the question are on the
    terminal. *)
Definition shown (self : RpmConf) (prompt conf other : string) (w : world) : world :=
  add_out (Ask "Your choice: ")
    (add_out (Print prompt)
       (add_out (LsOutput (selinux self) conf other)
          (add_out (Print ("Configuration file '" +++ conf +++ "'")) w))).

(** The external commands leave the filesystem as they found it. *)
Definition tools_read_only : Prop :=
  forall argv m status m', run_tool argv m = ToolExit status m' -> m' = m.

(** The lines a handler has read: the input without what it left
    unread. *)
Definition consumed (inp inp' : list string) : list string :=
  take (length inp - length inp') inp.

(** A line that does not ask for a merge. *)
Definition no_merge (line : string) : Prop := upper line <> "M".

(** The world after [_remove self p]. *)
Definition after_remove (self : RpmConf) (p : string) (w : world) : world :=
  if debug self then add_out (Print ("rm " +++ p)) w
  else set_fs (delete p (fs w)) w.

(** The paths the walk of the three top directories comes across, in
    order: every name of every [files] list, joined to its [root]. *)
Definition walked (m : gmap string node) (topdir : string) : list string :=
  flat_map (fun triple : string * list string * list string =>
              map (path_join (fst (fst triple))) (snd triple))
           (os_walk keep_dir topdir (os_tree m topdir)).

(** All of them, for the three top directories. *)
Definition found (m : gmap string node) : list string :=
  (walked m "/etc" ++ walked m "/var" ++ walked m "/usr")%list.

(** The test of the scan: the extension is [.rpmnew] or [.rpmsave]. *)
Definition tagged (l_name : string) : bool :=
  in_list (snd (splitext l_name)) [".rpmnew"; ".rpmsave"].

(** What one tagged path adds to [files_merge] and to [files_delete]. *)
Definition merge_entry (m : gmap string node) (l_name : string)
  : list (option string * string * string) :=
  match rpm_qf m (fst (splitext l_name)) with
  | Some name =>
      if String.eqb name EmptyString then []
      else [(Some name, fst (splitext l_name), l_name)]
  | None => []
  end.

Definition delete_entry (m : gmap string node) (l_name : string) : list string :=
  match rpm_qf m (fst (splitext l_name)) with
  | Some _ => []
  | None => [l_name]
  end.

(** The two lists for a sequence of paths. *)
Definition classify (m : gmap string node) (ls : list string) : orphan_lists :=
  (flat_map (merge_entry m) (List.filter tagged ls),
   flat_map (delete_entry m) (List.filter tagged ls)).

(** The two lists of the whole scan. *)
Definition scan_all (m : gmap string node) : orphan_lists := classify m (found m).

(** Both lists extended at once. *)
Definition lists_app (a b : orphan_lists) : orphan_lists :=
  ((fst a ++ fst b)%list, (snd a ++ snd b)%list).

(** The world once the three [Seaching through] lines are logged. *)
Definition logged (w : world) : world :=
  add_out (LogInfo "Seaching through: /usr")
    (add_out (LogInfo "Seaching through: /var")
       (add_out (LogInfo "Seaching through: /etc") w)).

(** What [_clean_orphan] does with the two lists. *)
Definition orphan_report (self : RpmConf) (acc : orphan_lists)
           (inp : list string) : M (list string) :=
  let '(files_merge, files_delete) := acc in
  when (negb (bool_decide (files_merge = [])))
       (print "These files need merging - you may want to run 'rpmconf -a':" >>
        for_each files_merge print_merge >>
        print ("Skipping files above." +++ nl)) >>
  if negb (bool_decide (files_delete = [])) then
    print "Orphaned .rpmnew and .rpmsave files:" >>
    for_each files_delete print >>
    let* (answer, inp') := ask_delete inp in
    when (in_list answer ["Y"; EmptyString])
         (for_each files_delete (_remove self)) >>
    ret inp'
  else
    print "No orphaned .rpmnew and .rpmsave files found." >>
    ret inp.

(** The first line that is an answer (Y, N or nothing, in any case), and
    the input after it. *)
Fixpoint first_answer (inp : list string) : option (string * list string) :=
  match inp with
  | [] => None
  | line :: rest =>
      if in_list (upper line) ["Y"; "N"; EmptyString] then Some (upper line, rest)
      else first_answer rest
  end.

(** The filesystem without the paths [ps]. *)
Definition delete_all (ps : list string) (m : gmap string node) : gmap string node :=
  fold_left (fun m p => delete p m) ps m.

(** The configuration files of the run, in the order they are handled. *)
Definition all_confs (self : RpmConf) : list string :=
  flat_map get_list_of_config (concat (packages self)).

(** The world after the events [evs] have been shown. *)
Definition add_outs (evs : list event) (w : world) : world :=
  {| fs := fs w; out := (out w ++ evs)%list |}.

(** The line of the report for one entry of [files_merge]. *)
Definition merge_line (entry : option string * string * string) : event :=
  Print (ljust (default EmptyString (fst (fst entry))) 20 +++ ": " +++ snd entry).

(** The report of [_clean_orphan] for the two lists. *)
Definition report_lines (acc : orphan_lists) : list event :=
  ((match fst acc with
    | [] => []
    | _ :: _ =>
        Print "These files need merging - you may want to run 'rpmconf -a':"
        :: map merge_line (fst acc) ++ [Print ("Skipping files above." +++ nl)]
    end) ++
   (match snd acc with
    | [] => [Print "No orphaned .rpmnew and .rpmsave files found."]
    | _ :: _ => Print "Orphaned .rpmnew and .rpmsave files:" :: map Print (snd acc)
    end))%list.

(** How many times the confirmation is asked for: once for every line up
    to the first answer, once more when the input ends before one. *)
Fixpoint questions (inp : list string) : nat :=
  match inp with
  | [] => 1
  | line :: rest =>
      if in_list (upper line) ["Y"; "N"; EmptyString] then 1
      else S (questions rest)
  end.

(** *** The directories of the walk

    A name as a directory listing gives it: not empty, no separator. *)
Fixpoint has_sep (s : string) : bool :=
  match s with
  | EmptyString => false
  | String c s' => Ascii.eqb c "/" || has_sep s'
  end.

Definition plain_name (n : string) : bool :=
  negb (String.eqb n EmptyString) && negb (has_sep n).

(** A listing whose directories all have such names. *)
Fixpoint plain_tree (t : dirtree) : bool :=
  match t with
  | DirTree dirs _ =>
      (fix all (ds : list (string * dirtree)) : bool :=
         match ds with
         | [] => true
         | (name, t') :: ds' => plain_name name && plain_tree t' && all ds'
         end) dirs
  end.

(** [p] is the directory [d] or a path below it. *)
Definition below (d p : string) : Prop :=
  p = d \/ exists rest, p = d +++ "/" +++ rest.

(** What holds of every directory the walk enters from [/var]. *)
Definition outside_mock (top : string) : Prop :=
  top <> EmptyString /\ endswith_sep top = false /\ ~ below "/var/lib/mock" top.

(** What holds of every directory the walk enters from [/etc] and
    [/usr]: the path starts otherwise than [/v]. *)
Definition not_var (top : string) : Prop :=
  exists c s, top = String "/" (String c s) /\ c <> "v"%char.

(** What the scanner shows after the report: the question, once per
    line read up to the first answer, and in dry-run mode the [rm] lines
    of an affirmative answer. *)
Definition confirmation (self : RpmConf) (inp : list string)
           (files_delete : list string) : list event :=
  match files_delete with
  | [] => []
  | _ :: _ =>
      (replicate (questions inp) (Ask "Delete these files (Y/n): ") ++
       match first_answer inp with
       | Some (answer, _) =>
           if in_list answer ["Y"; EmptyString] && debug self
           then map (fun p => Print ("rm " +++ p)) files_delete
           else []
       | None => []
       end)%list
  end.

End Engine.

(** ** Example data: tools, configurations and small filesystems *)

(** No external command is installed. *)
Definition no_tool (argv : list string) (m : gmap string node) : tool_result :=
  ToolMissing.

Definition no_owner (m : gmap string node) (p : string) : option string := None.

Definition empty_tree (m : gmap string node) (top : string) : dirtree :=
  DirTree [] [].

Definition cfg_plain : RpmConf :=
  {| packages := []; clean := false; debug := false; selinux := false;
     diff := false; frontend := None |}.

Definition cfg_dry : RpmConf :=
  {| packages := []; clean := false; debug := true; selinux := false;
     diff := false; frontend := None |}.

(** [/etc/foo.conf] and an identical [/etc/foo.conf.rpmnew]. *)
Definition w_same : world :=
  {| fs := <["/etc/foo.conf" := Reg "a=1" 10]>
             (<["/etc/foo.conf.rpmnew" := Reg "a=1" 20]> ∅);
     out := [] |}.

(** A merge tool that writes its result over its first file argument. *)
Definition merging_tool (argv : list string) (m : gmap string node) : tool_result :=
  match argv with
  | _ :: conf :: _ => ToolExit 0 (<[conf := Reg "merged" 30]> m)
  | _ => ToolMissing
  end.

(** A tool that only shows the files. *)
Definition viewer_tool (argv : list string) (m : gmap string node) : tool_result :=
  ToolExit 0 m.

Definition foo_hdr : hdr := [ {| fi_name := "/etc/foo.conf"; fi_flags := 1 |} ].

Definition cfg_vimdiff : RpmConf :=
  {| packages := [[foo_hdr]]; clean := false; debug := false; selinux := false;
     diff := false; frontend := Some "vimdiff" |}.

Definition cfg_dry_kdiff3 : RpmConf :=
  {| packages := [[foo_hdr]]; clean := false; debug := true; selinux := false;
     diff := false; frontend := Some "kdiff3" |}.

(** One package with two configuration files. *)
Definition cfg_two : RpmConf :=
  {| packages := [[ [ {| fi_name := "/etc/a.conf"; fi_flags := 1 |};
                      {| fi_name := "/etc/b.conf"; fi_flags := 17 |};
                      {| fi_name := "/usr/bin/b"; fi_flags := 0 |} ] ]];
     clean := false; debug := false; selinux := false;
     diff := false; frontend := None |}.

(** [/etc/a.conf] is gone while its [.rpmnew] is there; [/etc/b.conf]
    has an identical [.rpmnew]. *)
Definition w_vanished : world :=
  {| fs := <["/etc/a.conf.rpmnew" := Reg "a" 1]>
             (<["/etc/b.conf" := Reg "b" 2]>
                (<["/etc/b.conf.rpmnew" := Reg "b" 3]> ∅));
     out := [] |}.

(** [/etc] with a variant nobody owns, a variant of a file of [bar-pkg]
    and a pristine original. *)
Definition w_orphans : world :=
  {| fs := <["/etc" := Dir]>
             (<["/etc/foo.conf.rpmnew" := Reg "foo" 1]>
                (<["/etc/bar.conf" := Reg "bar" 2]>
                   (<["/etc/bar.conf.rpmsave" := Reg "old bar" 3]>
                      (<["/etc/old.conf.rpmorig" := Reg "old" 4]> ∅))));
     out := [] |}.

Definition orphan_tree (m : gmap string node) (top : string) : dirtree :=
  if String.eqb top "/etc" then
    DirTree [] ["foo.conf.rpmnew"; "bar.conf"; "bar.conf.rpmsave"; "old.conf.rpmorig"]
  else DirTree [] [].

Definition bar_owner (m : gmap string node) (p : string) : option string :=
  if String.eqb p "/etc/bar.conf" then Some "bar-pkg" else None.

Definition cfg_clean : RpmConf :=
  {| packages := []; clean := true; debug := false; selinux := false;
     diff := false; frontend := None |}.

Definition cfg_clean_dry : RpmConf :=
  {| packages := []; clean := true; debug := true; selinux := false;
     diff := false; frontend := None |}.

(** Only a pristine original next to [/etc/old.conf]. *)
Definition w_rpmorig : world :=
  {| fs := <["/etc/old.conf" := Reg "new" 5]>
             (<["/etc/old.conf.rpmorig" := Reg "old" 4]> ∅);
     out := [] |}.

(** [/etc/foo.conf] and a different [/etc/foo.conf.rpmnew]. *)
Definition w_diff : world :=
  {| fs := <["/etc/foo.conf" := Reg "a=1" 10]>
             (<["/etc/foo.conf.rpmnew" := Reg "a=2" 20]> ∅);
     out := [] |}.

(** [/etc/foo.conf] and a [.rpmnew] of the same size and the same
    modification time, with other bytes. *)
Definition w_same_stamp : world :=
  {| fs := <["/etc/foo.conf" := Reg "a=1" 10]>
             (<["/etc/foo.conf.rpmnew" := Reg "a=2" 10]> ∅);
     out := [] |}.

(** A variant that is a symbolic link to a file that is not there, and a
    directory. *)
Definition w_link : world :=
  {| fs := <["/etc/foo.conf" := Reg "a=1" 10]>
             (<["/etc/foo.conf.rpmnew" := Lnk "/usr/share/foo/foo.conf"]>
                (<["/etc/foo.d" := Dir]> ∅));
     out := [] |}.

(** A base file that is a symbolic link to a regular file. *)
Definition w_linked_base : world :=
  {| fs := <["/etc/foo.conf" := Lnk "/usr/share/foo/foo.conf"]>
             (<["/usr/share/foo/foo.conf" := Reg "a=1" 10]>
                (<["/etc/foo.conf.rpmnew" := Reg "a=2" 20]> ∅));
     out := [] |}.

(** [/etc/foo.conf] without any variant. *)
Definition w_settled : world :=
  {| fs := <["/etc/foo.conf" := Reg "a=1" 10]> ∅; out := [] |}.

(** [/etc/foo.conf] with its three variants. *)
Definition w_three : world :=
  {| fs := <["/etc/foo.conf" := Reg "a=1" 10]>
             (<["/etc/foo.conf.rpmnew" := Reg "a=2" 20]>
                (<["/etc/foo.conf.rpmsave" := Reg "a=0" 5]>
                   (<["/etc/foo.conf.rpmorig" := Reg "a=" 1]> ∅)));
     out := [] |}.

(** Only a variant nobody owns; the listing of [orphan_tree] names more. *)
Definition w_stale : world :=
  {| fs := <["/etc/foo.conf.rpmnew" := Reg "foo" 1]> ∅; out := [] |}.

Definition cfg_diff : RpmConf :=
  {| packages := [[foo_hdr]]; clean := false; debug := false; selinux := false;
     diff := true; frontend := None |}.

Definition cfg_kdiff3 : RpmConf :=
  {| packages := [[foo_hdr]]; clean := false; debug := false; selinux := false;
     diff := false; frontend := Some "kdiff3" |}.

Definition cfg_emacs : RpmConf :=
  {| packages := [[foo_hdr]]; clean := false; debug := false; selinux := false;
     diff := false; frontend := Some "emacs" |}.

(** A tool that gives up with status 1. *)
Definition failing_tool (argv : list string) (m : gmap string node) : tool_result :=
  ToolExit 1 m.

(** A merge tool that writes its result over its first file argument and
    keeps the former contents in a backup next to it. *)
Definition kdiff3_tool (argv : list string) (m : gmap string node) : tool_result :=
  match argv with
  | _ :: conf :: _ =>
      ToolExit 0 (<[conf +++ ".orig" := Reg "a=1" 10]> (<[conf := Reg "merged" 30]> m))
  | _ => ToolMissing
  end.

(** A tree with a [mock] directory below [lib]. *)
Definition mock_tree : dirtree :=
  DirTree [("lib", DirTree [("mock", DirTree [] ["x.rpmnew"]);
                            ("rpm", DirTree [] ["y.rpmsave"])] [])] [].

(** The new variant of [/etc/foo.conf] is a directory. *)
Definition w_dir_variant : world :=
  {| fs := <["/etc/foo.conf" := Reg "a=1" 10]>
             (<["/etc/foo.conf.rpmnew" := Dir]> ∅);
     out := [] |}.

(** A tool that removes its second file argument. *)
Definition removing_tool (argv : list string) (m : gmap string node) : tool_result :=
  match argv with
  | _ :: _ :: other :: _ => ToolExit 0 (delete other m)
  | _ => ToolMissing
  end.

(** Every command is there and none can be executed. *)
Definition denied_tool (argv : list string) (m : gmap string node) : tool_result :=
  ToolDenied.

Arguments check_call run_tool argv w : simpl never.

(** ** Facts about paths *)

Lemma rfind_from_app c a b : forall i acc,
  rfind_from c (a +++ b) i acc
  = rfind_from c b (i + Z.of_nat (String.length a)) (rfind_from c a i acc).
Proof.
  induction a as [|x a IH]; intros i acc.
  - cbn. f_equal. lia.
  - change (String x a +++ b) with (String x (a +++ b)).
    cbn [rfind_from String.length]. rewrite IH. f_equal. lia.
Qed.
Lemma substring_skip a b n :
  String.substring (String.length a) n (a +++ b) = String.substring 0 n b.
Proof. induction a as [|x a IH]; [reflexivity|exact IH]. Qed.

Lemma substring_all b : String.substring 0 (String.length b) b = b.
Proof.
  induction b as [|x b IH]; [reflexivity|].
  cbn [String.length String.substring]. now rewrite IH.
Qed.

Lemma length_append a b :
  String.length (a +++ b) = (String.length a + String.length b)%nat.
Proof.
  induction a as [|x a IH]; [reflexivity|].
  change (String x a +++ b) with (String x (a +++ b)).
  cbn [String.length]. now rewrite IH.
Qed.

Lemma slice_from_append a b : slice_from (String.length a) (a +++ b) = b.
Proof.
  unfold slice_from. rewrite substring_skip, length_append.
  replace (String.length a + String.length b - String.length a)%nat
    with (String.length b) by lia.
  apply substring_all.
Qed.
(** The extension of a path that ends in [.rpmorig]: that suffix, or
    nothing when the name proper is empty or all dots. *)
Lemma splitext_rpmorig base :
  snd (splitext (base +++ ".rpmorig")) = ".rpmorig" \/
  snd (splitext (base +++ ".rpmorig")) = EmptyString.
Proof.
  unfold splitext.
  assert (Hdot : rfind "." (base +++ ".rpmorig") = Z.of_nat (String.length base)).
  { unfold rfind. rewrite rfind_from_app. cbn. lia. }
  rewrite Hdot.
  match goal with |- context [if ?c then _ else _] => destruct c end.
  - left. cbn [snd]. rewrite Nat2Z.id. apply slice_from_append.
  - now right.
Qed.

(** ** Laws of the monad *)

Lemma bind_ok {A B} (m : M A) (k : A -> M B) w a w1 :
  m w = Ok a w1 -> bind m k w = k a w1.
Proof. intros H. unfold bind. now rewrite H. Qed.

Lemma bind_raise {A B} (m : M A) (k : A -> M B) w e w1 :
  m w = Raise e w1 -> bind m k w = Raise e w1.
Proof. intros H. unfold bind. now rewrite H. Qed.

Lemma bind_ok_inv {A B} (m : M A) (k : A -> M B) w b w' :
  bind m k w = Ok b w' -> exists a w1, m w = Ok a w1 /\ k a w1 = Ok b w'.
Proof.
  unfold bind. destruct (m w) as [a w1|e w1]; [|discriminate].
  intros H. now exists a, w1.
Qed.

Lemma catch_ok_inv {A} (m : M A) e (h : M A) w a w' :
  catch m e h w = Ok a w' ->
  m w = Ok a w' \/ exists w1, m w = Raise e w1 /\ h w1 = Ok a w'.
Proof.
  unfold catch. destruct (m w) as [a1 w1|e1 w1].
  - intros [= -> ->]. now left.
  - destruct (decide (e1 = e)) as [->|]; [|discriminate].
    intros H. right. now exists w1.
Qed.

(** ** Facts about the filesystem calls *)

Lemma read_file_stat m p d :
  read_file m p = Some d -> exists q t, stat m p = inr (q, Reg d t).
Proof.
  unfold read_file. destruct (stat m p) as [e|[q [d' t| |]]]; try discriminate.
  intros [= ->]. now exists q, t.
Qed.

(** A path that can be read is an entry that [os.unlink] accepts. *)
Lemma read_file_lookup m p d :
  read_file m p = Some d -> exists nd, m !! p = Some nd /\ nd <> Dir.
Proof.
  unfold read_file, stat, MAXSYMLINKS. cbn [follow].
  destruct (m !! p) as [[d' t|t|]|]; try discriminate; intros _; eauto.
Qed.

Lemma stat_lookup m p r : stat m p = inr r -> is_Some (m !! p).
Proof.
  unfold stat, MAXSYMLINKS. cbn [follow].
  destruct (m !! p); [eauto|discriminate].
Qed.

Lemma os_stat_ok p w nd w' :
  os_stat p w = Ok nd w' -> w' = w /\ exists q, stat (fs w) p = inr (q, nd).
Proof.
  unfold os_stat. destruct (stat (fs w) p) as [e|[q nd']]; [discriminate|].
  intros [= -> ->]. eauto.
Qed.

Lemma os_unlink_ok p w w' :
  os_unlink p w = Ok tt w' -> w' = set_fs (delete p (fs w)) w.
Proof.
  unfold os_unlink. destruct (fs w !! p) as [[| |]|]; congruence.
Qed.

Lemma os_unlink_present p w nd :
  fs w !! p = Some nd -> nd <> Dir ->
  os_unlink p w = Ok tt (set_fs (delete p (fs w)) w).
Proof.
  intros H Hd. unfold os_unlink. rewrite H. now destruct nd.
Qed.

(** [filecmp.cmp] never changes the world, and a result means that both
    paths could be stat'ed. *)
Lemma filecmp_cmp_ok f1 f2 w b w' :
  filecmp_cmp f1 f2 w = Ok b w' ->
  w' = w /\ is_Some (fs w !! f1) /\ is_Some (fs w !! f2).
Proof.
  unfold filecmp_cmp. intros H.
  apply bind_ok_inv in H as (s1 & w1 & H1 & H).
  apply os_stat_ok in H1 as [-> [q1 H1]].
  apply bind_ok_inv in H as (s2 & w2 & H2 & H).
  apply os_stat_ok in H2 as [-> [q2 H2]].
  split; [|split; eapply stat_lookup; eauto].
  destruct s1, s2; unfold ret in H; try congruence.
  repeat match type of H with context [if ?c then _ else _] => destruct c end;
    congruence.
Qed.

Lemma filecmp_cmp_identical f1 f2 d w :
  read_file (fs w) f1 = Some d -> read_file (fs w) f2 = Some d ->
  filecmp_cmp f1 f2 w = Ok true w.
Proof.
  intros H1 H2.
  apply read_file_stat in H1 as (q1 & t1 & H1).
  apply read_file_stat in H2 as (q2 & t2 & H2).
  unfold filecmp_cmp, bind, os_stat. rewrite H1, H2.
  rewrite Nat.eqb_refl. cbn [negb andb].
  destruct (t1 =? t2)%Z; unfold ret; [reflexivity|].
  now rewrite String.eqb_refl.
Qed.

Lemma os_access_absent m p : m !! p = None -> os_access m p = false.
Proof.
  intros H. unfold os_access, stat, MAXSYMLINKS. cbn [follow]. now rewrite H.
Qed.

(** ** Computations that leave the filesystem alone *)

Lemma keeps_fs_ok {A} (m : M A) w a w' :
  keeps_fs m -> m w = Ok a w' -> fs w' = fs w.
Proof. intros H E. specialize (H w). now rewrite E in H. Qed.

Lemma keeps_ret {A} (a : A) : keeps_fs (ret a).
Proof. now intros w. Qed.

Lemma keeps_raise {A} e : keeps_fs (@raise A e).
Proof. now intros w. Qed.

Lemma keeps_emit e : keeps_fs (emit e).
Proof. now intros w. Qed.

Lemma print_ok s w : print s w = Ok tt (add_out (Print s) w).
Proof. reflexivity. Qed.

Lemma keeps_print s : keeps_fs (print s).
Proof. now intros w. Qed.

Lemma keeps_get_fs : keeps_fs get_fs.
Proof. now intros w. Qed.

Lemma keeps_bind {A B} (m : M A) (k : A -> M B) :
  keeps_fs m -> (forall a, keeps_fs (k a)) -> keeps_fs (bind m k).
Proof.
  intros Hm Hk w. unfold bind. specialize (Hm w).
  destruct (m w) as [a w1|e w1]; cbn in *; [|done].
  now rewrite Hk.
Qed.

Lemma keeps_catch {A} (m : M A) e (h : M A) :
  keeps_fs m -> keeps_fs h -> keeps_fs (catch m e h).
Proof.
  intros Hm Hh w. unfold catch. specialize (Hm w).
  destruct (m w) as [a w1|e1 w1]; cbn in *; [done|].
  destruct (decide (e1 = e)); [now rewrite Hh|done].
Qed.

Lemma keeps_when b m : keeps_fs m -> keeps_fs (when b m).
Proof. destruct b; [done|]. intros _. apply keeps_ret. Qed.

Lemma keeps_for_each {A} (l : list A) (body : A -> M unit) :
  (forall x, keeps_fs (body x)) -> keeps_fs (for_each l body).
Proof.
  intros Hb. induction l as [|x l IH]; cbn [for_each].
  - apply keeps_ret.
  - apply keeps_bind; [apply Hb|]. intros _. apply IH.
Qed.

Lemma keeps_os_stat p : keeps_fs (os_stat p).
Proof. intros w. unfold os_stat. now destruct (stat (fs w) p) as [|[]]. Qed.

Lemma keeps_filecmp_cmp f1 f2 : keeps_fs (filecmp_cmp f1 f2).
Proof.
  unfold filecmp_cmp.
  apply keeps_bind; [apply keeps_os_stat|]. intros s1.
  apply keeps_bind; [apply keeps_os_stat|]. intros s2.
  destruct s1, s2; try apply keeps_ret.
  repeat match goal with |- context [if ?c then _ else _] => destruct c end;
    apply keeps_ret.
Qed.

Create HintDb keeps.
#[global] Hint Resolve keeps_ret keeps_raise keeps_emit keeps_print keeps_get_fs
  keeps_os_stat keeps_filecmp_cmp : keeps.

(** One round of bookkeeping: split a [bind] or [catch], or close a leaf. *)
Ltac keeps_step :=
  first
    [ assumption
    | solve [auto with keeps]
    | lazymatch goal with
      | |- keeps_fs (bind _ _) => apply keeps_bind; [|intros ?]
      | |- keeps_fs (catch _ _ _) => apply keeps_catch
      | |- keeps_fs (when _ _) => apply keeps_when
      | |- keeps_fs (for_each _ _) => apply keeps_for_each; intros ?
      | |- keeps_fs (if ?c then _ else _) => destruct c
      end ].
Ltac keeps := repeat keeps_step.

(** ** Properties of the reconciliation engine *)

Section EngineProperties.

Variable run_tool : list string -> gmap string node -> tool_result.
Variable environ_MERGE : option string.
Variable rpm_qf : gmap string node -> string -> option string.
Variable os_tree : gmap string node -> string -> dirtree.

Local Abbreviation handle_rpmnew := (_handle_rpmnew run_tool environ_MERGE).
Local Abbreviation handle_rpmsave := (_handle_rpmsave run_tool environ_MERGE).
Local Abbreviation choice_loop := (choice_loop run_tool environ_MERGE).
Local Abbreviation tools_read_only := (tools_read_only run_tool).
Local Abbreviation walked := (walked os_tree).
Local Abbreviation found := (found os_tree).
Local Abbreviation merge_entry := (merge_entry rpm_qf).
Local Abbreviation delete_entry := (delete_entry rpm_qf).
Local Abbreviation classify := (classify rpm_qf).
Local Abbreviation scan_all := (scan_all rpm_qf os_tree).

(** [_remove], by mode. *)
Lemma remove_dry self p w :
  debug self = true -> _remove self p w = Ok tt (add_out (Print ("rm " +++ p)) w).
Proof. intros H. unfold _remove. now rewrite H. Qed.

Lemma remove_plain self p w :
  debug self = false -> _remove self p w = os_unlink p w.
Proof. intros H. unfold _remove. now rewrite H. Qed.

Lemma remove_plain_ok self p w w' :
  debug self = false -> _remove self p w = Ok tt w' ->
  w' = set_fs (delete p (fs w)) w.
Proof. intros H. rewrite remove_plain by done. apply os_unlink_ok. Qed.

Lemma rpmnew_loop_choice self conf other inp :
  rpmnew_loop run_tool environ_MERGE self conf other inp
  = choice_loop rpmnew_prompt "N" (show_diff conf other) self conf other inp.
Proof.
  induction inp as [|l rest IH]; cbn [rpmnew_loop choice_loop]; [reflexivity|].
  now rewrite IH.
Qed.

Lemma rpmsave_loop_choice self conf other inp :
  rpmsave_loop run_tool environ_MERGE self conf other inp
  = choice_loop rpmsave_prompt "Y" (show_diff other conf) self conf other inp.
Proof.
  induction inp as [|l rest IH]; cbn [rpmsave_loop choice_loop]; [reflexivity|].
  now rewrite IH.
Qed.

Lemma ls_conf_file_present self conf other w :
  is_Some (fs w !! conf) -> is_Some (fs w !! other) ->
  _ls_conf_file self conf other w
  = Ok tt (add_out (LsOutput (selinux self) conf other)
             (add_out (Print ("Configuration file '" +++ conf +++ "'")) w)).
Proof.
  intros [a Ha] [b Hb]. unfold _ls_conf_file, bind, print, emit, get_fs, lexists.
  cbn [fs add_out]. now rewrite Ha, Hb.
Qed.

Lemma ls_conf_file_ok self conf other w u w' :
  _ls_conf_file self conf other w = Ok u w' ->
  is_Some (fs w !! conf) /\ is_Some (fs w !! other).
Proof.
  unfold _ls_conf_file, bind, print, emit, get_fs, lexists. cbn [fs add_out].
  destruct (fs w !! conf), (fs w !! other); cbn; try discriminate. eauto.
Qed.

Lemma keeps_ls_conf_file self conf other : keeps_fs (_ls_conf_file self conf other).
Proof.
  unfold _ls_conf_file. keeps.
Qed.

Lemma keeps_flush_input q inp : keeps_fs (flush_input q inp).
Proof. unfold flush_input. keeps. destruct inp; keeps. Qed.

Lemma keeps_show_diff f1 f2 : keeps_fs (show_diff f1 f2).
Proof.
  unfold show_diff. keeps.
  match goal with a : node, b : node |- _ => destruct a, b end; keeps.
Qed.

Hint Resolve keeps_ls_conf_file keeps_flush_input keeps_show_diff : keeps.

(** The choice read at the prompt, before the default is put in. *)
Lemma read_choice_ok inp w o w' :
  catch (let* line := flush_input "Your choice: " inp in ret (upper line))
        EOFError (ret "S") w = Ok o w' ->
  w' = add_out (Ask "Your choice: ") w /\
  o = match inp with [] => "S" | l :: _ => upper l end.
Proof.
  destruct inp as [|l rest]; cbn; intros [= <- <-]; auto.
Qed.

(** The loop ends on one of the five final options, and it gives back
    no more input than it got. *)
Lemma choice_loop_final prompt dflt differ self conf other inp :
  forall w o inp' w',
    choice_loop prompt dflt differ self conf other inp w = Ok (o, inp') w' ->
    in_list o ["Y"; "I"; "N"; "O"; "S"] = true /\
    (length inp' <= length (tail inp))%nat.
Proof.
  induction inp as [|l rest IH]; intros w o inp' w' H; cbn [choice_loop] in H.
  - apply bind_ok_inv in H as (? & w1 & _ & H).
    apply bind_ok_inv in H as (? & w2 & _ & H).
    apply bind_ok_inv in H as (o1 & w3 & Hc & H).
    apply read_choice_ok in Hc as [-> ->]. cbn in H.
    injection H as <- <- <-. cbn. auto.
  - apply bind_ok_inv in H as (? & w1 & _ & H).
    apply bind_ok_inv in H as (? & w2 & _ & H).
    apply bind_ok_inv in H as (o1 & w3 & Hc & H).
    apply bind_ok_inv in H as (? & w4 & _ & H).
    apply bind_ok_inv in H as (? & w5 & _ & H).
    apply bind_ok_inv in H as (? & w6 & _ & H).
    match type of H with context [if ?c then _ else _] => destruct c eqn:Hfin end.
    + injection H as <- <- <-. cbn [tail length]. split; [exact Hfin|lia].
    + apply IH in H as [? Hle]. cbn [tail]. split; [done|].
      etransitivity; [exact Hle|]. destruct rest; cbn; lia.
Qed.

(** *** Dry-run mode and tools that only read *)

Lemma keeps_check_call argv :
  tools_read_only -> keeps_fs (check_call run_tool argv).
Proof.
  intros Hro w. unfold check_call.
  destruct (run_tool argv (fs w)) as [| |status m'] eqn:E; [done|done|].
  apply Hro in E as ->. now destruct (status =? 0)%Z.
Qed.

Lemma keeps_remove_dry self p : debug self = true -> keeps_fs (_remove self p).
Proof. intros H. unfold _remove. rewrite H. keeps. Qed.

Lemma keeps_overwrite_dry self src dst :
  debug self = true -> keeps_fs (_overwrite self src dst).
Proof. intros H. unfold _overwrite. rewrite H. keeps. Qed.

Lemma keeps_merge_conf_files_dry self conf other :
  debug self = true -> tools_read_only ->
  keeps_fs (_merge_conf_files run_tool environ_MERGE self conf other).
Proof.
  intros Hd Hro. unfold _merge_conf_files.
  apply keeps_catch; [|keeps].
  repeat match goal with |- context [if ?c then _ else _] => destruct c end;
    keeps; auto using keeps_check_call, keeps_remove_dry.
Qed.

Lemma keeps_choice_loop prompt dflt differ self conf other inp :
  keeps_fs differ ->
  keeps_fs (_merge_conf_files run_tool environ_MERGE self conf other) ->
  keeps_fs (choice_loop prompt dflt differ self conf other inp).
Proof.
  intros Hdiff Hmerge. induction inp as [|l rest IH]; cbn [choice_loop]; keeps.
Qed.

Lemma choice_loop_unmerged prompt dflt differ self conf other inp :
  keeps_fs differ -> dflt <> "M" ->
  forall w o inp' w',
    choice_loop prompt dflt differ self conf other inp w = Ok (o, inp') w' ->
    Forall no_merge (consumed inp inp') ->
    fs w' = fs w.
Proof.
  intros Hdiff Hdflt.
  induction inp as [|l rest IH]; intros w o inp' w' H Hnm.
  - cbn [choice_loop] in H.
    apply bind_ok_inv in H as (? & w1 & H1 & H).
    apply (keeps_fs_ok _ _ _ _ (keeps_ls_conf_file _ _ _)) in H1.
    apply bind_ok_inv in H as (? & w2 & H2 & H).
    apply (keeps_fs_ok _ _ _ _ (keeps_print _)) in H2.
    apply bind_ok_inv in H as (o1 & w3 & Hc & H).
    apply read_choice_ok in Hc as [-> ->]. cbn in H.
    injection H as <- <- <-. cbn [fs add_out]. congruence.
  - pose proof (choice_loop_final _ _ _ _ _ _ _ _ _ _ _ H) as [_ Hlen].
    change (tail (l :: rest)) with rest in Hlen.
    cbn [choice_loop] in H.
    apply bind_ok_inv in H as (? & w1 & H1 & H).
    apply (keeps_fs_ok _ _ _ _ (keeps_ls_conf_file _ _ _)) in H1.
    apply bind_ok_inv in H as (? & w2 & H2 & H).
    apply (keeps_fs_ok _ _ _ _ (keeps_print _)) in H2.
    apply bind_ok_inv in H as (o1 & w3 & Hc & H).
    apply read_choice_ok in Hc as [-> ->].
    apply bind_ok_inv in H as (? & w4 & H4 & H).
    apply (keeps_fs_ok (when _ differ)) in H4; [|keeps].
    apply bind_ok_inv in H as (? & w5 & H5 & H).
    apply (keeps_fs_ok (when _ _)) in H5; [|keeps].
    apply bind_ok_inv in H as (? & w6 & H6 & H).
    assert (Hl : no_merge l).
    { unfold consumed in Hnm. cbn [length] in *.
      replace (S (length rest) - length inp')%nat
        with (S (length rest - length inp')) in Hnm by lia.
      cbn [take] in Hnm. now inversion Hnm. }
    assert (E6 : fs w6 = fs w5).
    { revert H6. unfold no_merge in Hl.
      destruct (String.eqb (upper l) EmptyString) eqn:Ee.
      - destruct (String.eqb dflt "M") eqn:Em.
        + apply String.eqb_eq in Em. contradiction.
        + unfold when, ret. congruence.
      - destruct (String.eqb (upper l) "M") eqn:Em.
        + apply String.eqb_eq in Em. contradiction.
        + unfold when, ret. congruence. }
    assert (E : fs w6 = fs w).
    { rewrite E6, H5, H4. cbn [fs add_out]. now rewrite H2, H1. }
    match type of H with context [if ?c then _ else _] => destruct c eqn:Hfin end.
    + injection H as <- <- <-. exact E.
    + apply IH in H; [congruence|].
      unfold consumed in *. cbn [length] in Hnm.
      replace (S (length rest) - length inp')%nat
        with (S (length rest - length inp')) in Hnm by lia.
      cbn [take] in Hnm. now inversion Hnm.
Qed.

(** At the end of the input both templates take [S]. *)
Lemma choice_loop_eof prompt dflt differ self conf other w :
  is_Some (fs w !! conf) -> is_Some (fs w !! other) ->
  choice_loop prompt dflt differ self conf other [] w
  = Ok ("S", []) (shown self prompt conf other w).
Proof.
  intros Hc Ho. cbn [choice_loop].
  rewrite (bind_ok _ _ _ _ _ (ls_conf_file_present self _ _ _ Hc Ho)).
  reflexivity.
Qed.

(** A first line that names a final option ends the loop at once. *)
Lemma choice_loop_first prompt dflt differ self conf other l inp w :
  is_Some (fs w !! conf) -> is_Some (fs w !! other) ->
  let o := if String.eqb (upper l) EmptyString then dflt else upper l in
  in_list o ["Y"; "I"; "N"; "O"; "S"] = true ->
  choice_loop prompt dflt differ self conf other (l :: inp) w
  = Ok (o, inp) (shown self prompt conf other w).
Proof.
  intros Hc Ho o Hfin. cbn [choice_loop].
  rewrite (bind_ok _ _ _ _ _ (ls_conf_file_present self _ _ _ Hc Ho)).
  unfold bind at 1. unfold print at 1, emit at 1.
  unfold bind at 1. cbn [catch bind flush_input emit raise ret].
  fold o.
  assert (Hd : String.eqb o "D" = false).
  { destruct (String.eqb o "D") eqn:E; [|done].
    apply String.eqb_eq in E. rewrite E in Hfin. discriminate. }
  assert (Hz : String.eqb o "Z" = false).
  { destruct (String.eqb o "Z") eqn:E; [|done].
    apply String.eqb_eq in E. rewrite E in Hfin. discriminate. }
  assert (Hm : String.eqb o "M" = false).
  { destruct (String.eqb o "M") eqn:E; [|done].
    apply String.eqb_eq in E. rewrite E in Hfin. discriminate. }
  rewrite Hd, Hz, Hm. cbn [when ret]. rewrite Hfin. reflexivity.
Qed.

(** C1, as amended.  A pair whose two files have the same bytes is
    resolved before any prompt, by [_remove] on the variant: both
    handlers return at once, nothing is asked, the base entry is as it
    was; outside dry-run mode the variant is gone and nothing at all is
    shown, in dry-run mode the filesystem is as it was and the only
    output is the [rm] line. *)
Theorem identical_pair_auto_resolved self conf other d inp w :
  conf <> other ->
  read_file (fs w) conf = Some d ->
  read_file (fs w) other = Some d ->
  exists w',
    handle_rpmnew self conf other inp w = Ok (None, inp) w' /\
    handle_rpmsave self conf other inp w = Ok (None, inp) w' /\
    asked (out w') = asked (out w) /\
    fs w' !! conf = fs w !! conf /\
    (debug self = false -> fs w' !! other = None /\ out w' = out w) /\
    (debug self = true ->
     fs w' = fs w /\ out w' = (out w ++ [Print ("rm " +++ other)])%list).
Proof.
  intros Hne Hc Ho.
  pose proof (filecmp_cmp_identical _ _ _ _ Hc Ho) as Hcmp.
  destruct (read_file_lookup _ _ _ Ho) as (nd & Hnd & Hdir).
  unfold _handle_rpmnew, _handle_rpmsave.
  rewrite !(bind_ok _ _ _ _ _ Hcmp). cbn iota.
  destruct (debug self) eqn:Hdbg.
  - exists (add_out (Print ("rm " +++ other)) w).
    rewrite !(bind_ok _ _ _ _ _ (remove_dry _ _ _ Hdbg)).
    unfold ret, add_out, asked; cbn [fs out].
    rewrite List.filter_app, length_app. cbn.
    repeat split; try done; lia.
  - exists (set_fs (delete other (fs w)) w).
    assert (Hrm : _remove self other w = Ok tt (set_fs (delete other (fs w)) w)).
    { rewrite remove_plain by done. eapply os_unlink_present; eauto. }
    rewrite !(bind_ok _ _ _ _ _ Hrm).
    unfold ret, set_fs; cbn [fs out].
    repeat split; try done.
    + now rewrite lookup_delete_ne.
    + now rewrite lookup_delete_eq.
Qed.

(** *** What a handler that returns has done *)

Lemma handle_rpmnew_inv self conf other inp w o inp' w' :
  handle_rpmnew self conf other inp w = Ok (o, inp') w' ->
  is_Some (fs w !! conf) /\ is_Some (fs w !! other) /\
  ((o = None /\ inp' = inp /\ _remove self other w = Ok tt w') \/
   (exists opt w1 w2,
      o = Some opt /\
      choice_loop rpmnew_prompt "N" (show_diff conf other) self conf other inp w
      = Ok (opt, inp') w1 /\
      when (in_list opt ["N"; "O"]) (_remove self other) w1 = Ok tt w2 /\
      when (in_list opt ["Y"; "I"]) (_overwrite self other conf) w2 = Ok tt w')).
Proof.
  unfold _handle_rpmnew. intros H.
  apply bind_ok_inv in H as (same & w0 & Hcmp & H).
  apply filecmp_cmp_ok in Hcmp as (-> & Hc & Ho).
  split; [done|]. split; [done|].
  destruct same.
  - apply bind_ok_inv in H as ([] & w1 & Hrm & H).
    injection H as <- <- <-. now left.
  - rewrite rpmnew_loop_choice in H.
    apply bind_ok_inv in H as ([opt inp1] & w1 & Hloop & H).
    apply bind_ok_inv in H as ([] & w2 & Hrm & H).
    apply bind_ok_inv in H as ([] & w3 & Hov & H).
    injection H as <- <- <-. right. now exists opt, w1, w2.
Qed.

Lemma handle_rpmsave_inv self conf other inp w o inp' w' :
  handle_rpmsave self conf other inp w = Ok (o, inp') w' ->
  is_Some (fs w !! conf) /\ is_Some (fs w !! other) /\
  ((o = None /\ inp' = inp /\ _remove self other w = Ok tt w') \/
   (exists opt w1 w2,
      o = Some opt /\
      choice_loop rpmsave_prompt "Y" (show_diff other conf) self conf other inp w
      = Ok (opt, inp') w1 /\
      when (in_list opt ["Y"; "I"]) (_remove self other) w1 = Ok tt w2 /\
      when (in_list opt ["N"; "O"]) (_overwrite self other conf) w2 = Ok tt w')).
Proof.
  unfold _handle_rpmsave. intros H.
  apply bind_ok_inv in H as (same & w0 & Hcmp & H).
  apply filecmp_cmp_ok in Hcmp as (-> & Hc & Ho).
  split; [done|]. split; [done|].
  destruct same.
  - apply bind_ok_inv in H as ([] & w1 & Hrm & H).
    injection H as <- <- <-. now left.
  - rewrite rpmsave_loop_choice in H.
    apply bind_ok_inv in H as ([opt inp1] & w1 & Hloop & H).
    apply bind_ok_inv in H as ([] & w2 & Hrm & H).
    apply bind_ok_inv in H as ([] & w3 & Hov & H).
    injection H as <- <- <-. right. now exists opt, w1, w2.
Qed.

Lemma remove_plain_absent self p w w' :
  debug self = false -> _remove self p w = Ok tt w' -> fs w' !! p = None.
Proof.
  intros Hd H. apply remove_plain_ok in H as ->; [|done].
  cbn [fs set_fs]. apply lookup_delete_eq.
Qed.

Lemma overwrite_plain_absent self src dst w w' :
  debug self = false -> _overwrite self src dst w = Ok tt w' -> fs w' !! src = None.
Proof.
  intros Hd H. unfold _overwrite in H. rewrite Hd in H.
  apply bind_ok_inv in H as (? & w1 & _ & H).
  eapply remove_plain_absent; eauto.
Qed.

(** The two [if option in ...] after the loop: once one of them has run
    outside dry-run mode, the variant is gone. *)
Lemma actions_absent self conf other (b1 b2 : bool) w1 w2 w' :
  debug self = false ->
  when b1 (_remove self other) w1 = Ok tt w2 ->
  when b2 (_overwrite self other conf) w2 = Ok tt w' ->
  b1 || b2 = true ->
  fs w' !! other = None.
Proof.
  intros Hd H1 H2 Hb. destruct b2; cbn [when] in H2.
  - eapply overwrite_plain_absent; eauto.
  - injection H2 as <-. destruct b1; [|discriminate].
    eapply remove_plain_absent; eauto.
Qed.

Lemma final_option_cases o :
  in_list o ["Y"; "I"; "N"; "O"; "S"] = true ->
  o = "Y" \/ o = "I" \/ o = "N" \/ o = "O" \/ o = "S".
Proof.
  unfold in_list. cbn [existsb]. rewrite !orb_true_iff, !String.eqb_eq.
  intros [?|[?|[?|[?|[?|?]]]]]; auto 6; discriminate.
Qed.

(** C3.  Outside dry-run mode, a resolution that returns with anything
    but [S] (the early return for identical files, or one of Y, I, N, O)
    leaves no entry at the variant path, and the existence check the
    package walker makes for that path fails. *)
Theorem resolved_variant_absent self conf other inp w o inp' w' :
  debug self = false ->
  handle_rpmnew self conf other inp w = Ok (o, inp') w' \/
  handle_rpmsave self conf other inp w = Ok (o, inp') w' ->
  o <> Some "S" ->
  fs w' !! other = None /\ os_access (fs w') other = false.
Proof.
  intros Hd H HS.
  assert (Habs : fs w' !! other = None).
  { destruct H as [H|H];
      [apply handle_rpmnew_inv in H | apply handle_rpmsave_inv in H];
      destruct H as (_ & _ & [(-> & _ & Hrm)|(opt & w1 & w2 & -> & Hloop & H1 & H2)]);
      try (eapply remove_plain_absent; eassumption);
      apply choice_loop_final in Hloop as [Hfin _];
      apply final_option_cases in Hfin as [->|[->|[->|[->| ->]]]];
      try congruence;
      (eapply actions_absent; [exact Hd|exact H1|exact H2|reflexivity]). }
  split; [exact Habs|]. now apply os_access_absent.
Qed.


Lemma remove_after self p w nd :
  fs w !! p = Some nd -> nd <> Dir ->
  _remove self p w = Ok tt (after_remove self p w).
Proof.
  intros H Hd. unfold _remove, after_remove. destruct (debug self); [done|].
  eapply os_unlink_present; eauto.
Qed.

Lemma bind_congr {A B} (m1 m2 : M A) (k1 k2 : A -> M B) w :
  m1 w = m2 w -> (forall a w', k1 a w' = k2 a w') -> bind m1 k1 w = bind m2 k2 w.
Proof.
  intros Hm Hk. unfold bind. rewrite Hm. destruct (m2 w); [apply Hk|reflexivity].
Qed.

Lemma read_choice_cons l inp w :
  catch (let* line := flush_input "Your choice: " (l :: inp) in ret (upper line))
        EOFError (ret "S") w
  = Ok (upper l) (add_out (Ask "Your choice: ") w).
Proof. reflexivity. Qed.

(** An empty line is the default of the template, whatever follows. *)
Lemma choice_loop_empty_line prompt dflt differ self conf other inp w :
  upper dflt = dflt -> dflt <> EmptyString ->
  choice_loop prompt dflt differ self conf other (EmptyString :: inp) w
  = choice_loop prompt dflt differ self conf other (dflt :: inp) w.
Proof.
  intros Hup Hne. cbn [choice_loop].
  apply bind_congr; [reflexivity|intros [] w1].
  apply bind_congr; [reflexivity|intros [] w2].
  rewrite (bind_ok _ _ _ _ _ (read_choice_cons EmptyString inp w2)).
  rewrite (bind_ok _ _ _ _ _ (read_choice_cons dflt inp w2)).
  cbn [upper]. rewrite Hup.
  assert (E : String.eqb dflt EmptyString = false) by now apply String.eqb_neq.
  rewrite E. reflexivity.
Qed.

(** C2, as amended.  An empty line at the prompt is read as the default
    of the template: [N] for a new variant, [Y] for a saved one.  At a
    prompt (the two files differ and the variant is not a directory) the
    handler then applies [_remove] to the variant and copies nothing: the
    base entry is as it was, and outside dry-run mode the variant is gone
    (in dry-run mode the filesystem is as it was and the [rm] line is
    shown instead). *)
Theorem empty_input_selects_default self conf other :
  (forall inp w,
     rpmnew_loop run_tool environ_MERGE self conf other (EmptyString :: inp) w
     = rpmnew_loop run_tool environ_MERGE self conf other ("N" :: inp) w) /\
  (forall inp w,
     rpmsave_loop run_tool environ_MERGE self conf other (EmptyString :: inp) w
     = rpmsave_loop run_tool environ_MERGE self conf other ("Y" :: inp) w) /\
  (forall inp w,
     conf <> other ->
     filecmp_cmp conf other w = Ok false w ->
     fs w !! other <> Some Dir ->
     handle_rpmnew self conf other (EmptyString :: inp) w
     = Ok (Some "N", inp)
          (after_remove self other (shown self rpmnew_prompt conf other w)) /\
     handle_rpmsave self conf other (EmptyString :: inp) w
     = Ok (Some "Y", inp)
          (after_remove self other (shown self rpmsave_prompt conf other w)) /\
     (forall prompt,
        let w' := after_remove self other (shown self prompt conf other w) in
        fs w' !! conf = fs w !! conf /\
        (debug self = false ->
         fs w' = delete other (fs w) /\ fs w' !! other = None) /\
        (debug self = true -> fs w' = fs w))).
Proof.
  split; [|split].
  - intros inp w. rewrite !rpmnew_loop_choice.
    now apply choice_loop_empty_line.
  - intros inp w. rewrite !rpmsave_loop_choice.
    now apply choice_loop_empty_line.
  - intros inp w Hne Hcmp Hdir.
    destruct (filecmp_cmp_ok _ _ _ _ _ Hcmp) as (_ & Hc & Ho).
    assert (Hnd : exists nd, fs w !! other = Some nd /\ nd <> Dir).
    { destruct Ho as [nd Hnd]. exists nd. split; [done|]. congruence. }
    destruct Hnd as (nd & Hnd & Hnd').
    split; [|split].
    + unfold _handle_rpmnew. rewrite (bind_ok _ _ _ _ _ Hcmp). cbn iota.
      rewrite rpmnew_loop_choice.
      rewrite (bind_ok _ _ _ _ _
                 (choice_loop_first rpmnew_prompt "N" _ self conf other
                    EmptyString inp w Hc Ho eq_refl)).
      cbn [upper String.eqb Ascii.eqb Bool.eqb in_list existsb orb andb when].
      rewrite (bind_ok _ _ _ _ _
                 (remove_after self other (shown self rpmnew_prompt conf other w)
                    nd Hnd Hnd')).
      reflexivity.
    + unfold _handle_rpmsave. rewrite (bind_ok _ _ _ _ _ Hcmp). cbn iota.
      rewrite rpmsave_loop_choice.
      rewrite (bind_ok _ _ _ _ _
                 (choice_loop_first rpmsave_prompt "Y" _ self conf other
                    EmptyString inp w Hc Ho eq_refl)).
      cbn [upper String.eqb Ascii.eqb Bool.eqb in_list existsb orb andb when].
      rewrite (bind_ok _ _ _ _ _
                 (remove_after self other (shown self rpmsave_prompt conf other w)
                    nd Hnd Hnd')).
      reflexivity.
    + intros prompt w'. subst w'. unfold after_remove.
      destruct (debug self); cbn [fs add_out set_fs shown].
      * repeat split; try done.
      * repeat split; try done.
        -- now rewrite lookup_delete_ne.
        -- now rewrite lookup_delete_eq.
Qed.

(** ** Properties of the orphan scanner *)

Lemma tagged_nonempty l : tagged l = true -> l <> EmptyString.
Proof. intros H ->. discriminate. Qed.

Lemma scan_name_classify m root acc name :
  scan_name rpm_qf m root acc name
  = lists_app acc (classify m [path_join root name]).
Proof.
  unfold scan_name, classify, lists_app. destruct acc as [fm fd].
  cbn [List.filter fst snd]. fold (tagged (path_join root name)).
  destruct (tagged (path_join root name)) eqn:Ht.
  - cbn [flat_map]. rewrite !app_nil_r.
    unfold _clean_orphan_file, merge_entry, delete_entry.
    destruct (rpm_qf m (fst (splitext (path_join root name)))) as [name'|].
    + cbn [fst snd truthy]. rewrite app_nil_r.
      destruct (String.eqb name' EmptyString); cbn [negb]; [|reflexivity].
      now rewrite app_nil_r.
    + cbn [fst snd truthy]. rewrite app_nil_r.
      apply tagged_nonempty in Ht. apply String.eqb_neq in Ht. now rewrite Ht.
  - cbn [flat_map]. now rewrite !app_nil_r.
Qed.

Lemma classify_app m l1 l2 :
  classify m (l1 ++ l2) = lists_app (classify m l1) (classify m l2).
Proof.
  unfold classify, lists_app. cbn [fst snd].
  now rewrite List.filter_app, !flat_map_app.
Qed.

Lemma lists_app_assoc a b c : lists_app (lists_app a b) c = lists_app a (lists_app b c).
Proof. unfold lists_app. cbn [fst snd]. now rewrite <- !app_assoc. Qed.

Lemma scan_names_classify m root names : forall acc,
  fold_left (scan_name rpm_qf m root) names acc
  = lists_app acc (classify m (map (path_join root) names)).
Proof.
  induction names as [|name names IH]; intros acc; cbn [fold_left map].
  - unfold lists_app, classify. cbn. rewrite !app_nil_r. now destruct acc.
  - rewrite IH, scan_name_classify, lists_app_assoc.
    now rewrite <- classify_app.
Qed.

Lemma scan_dirs_classify m triples : forall acc,
  fold_left (scan_dir rpm_qf m) triples acc
  = lists_app acc
      (classify m
         (flat_map (fun triple : string * list string * list string =>
                      map (path_join (fst (fst triple))) (snd triple)) triples)).
Proof.
  induction triples as [|[[root dirs] files] triples IH]; intros acc;
    cbn [fold_left flat_map].
  - unfold lists_app, classify. cbn. rewrite !app_nil_r. now destruct acc.
  - rewrite IH. unfold scan_dir. rewrite scan_names_classify.
    rewrite lists_app_assoc, <- classify_app. reflexivity.
Qed.

(** The three rounds of the outer loop compute [scan_all]. *)
Lemma scan_topdirs_scan_all {A} (k : orphan_lists -> M A) w :
  (let* acc := scan_topdir rpm_qf os_tree ([], []) "/etc" in
   let* acc := scan_topdir rpm_qf os_tree acc "/var" in
   let* acc := scan_topdir rpm_qf os_tree acc "/usr" in
   k acc) w
  = k (scan_all (fs w)) (logged w).
Proof.
  unfold scan_topdir, bind, emit, get_fs, ret. cbn [fs add_out].
  rewrite !scan_dirs_classify. fold (walked (fs w) "/etc").
  fold (walked (fs w) "/var"). fold (walked (fs w) "/usr").
  rewrite !lists_app_assoc, <- !classify_app.
  unfold lists_app. cbn [fst snd app]. unfold scan_all, found, logged.
  now destruct (classify (fs w) _).
Qed.

Lemma clean_orphan_report self inp w :
  _clean_orphan rpm_qf os_tree self inp w
  = orphan_report self (scan_all (fs w)) inp (logged w).
Proof.
  exact (scan_topdirs_scan_all (fun acc => orphan_report self acc inp) w).
Qed.

Lemma in_classify_delete m ls l :
  In l (snd (classify m ls)) <->
  In l ls /\ tagged l = true /\ rpm_qf m (fst (splitext l)) = None.
Proof.
  unfold classify. cbn [snd]. rewrite in_flat_map. split.
  - intros (x & Hx & Hl). apply filter_In in Hx as [Hin Ht].
    unfold delete_entry in Hl.
    destruct (rpm_qf m (fst (splitext x))) eqn:E; [destruct Hl|].
    destruct Hl as [<-|[]]. auto.
  - intros (Hin & Ht & E). exists l. split; [now apply filter_In|].
    unfold delete_entry. rewrite E. now left.
Qed.

Lemma in_classify_merge m ls e :
  In e (fst (classify m ls)) <->
  exists l name,
    In l ls /\ tagged l = true /\ rpm_qf m (fst (splitext l)) = Some name /\
    name <> EmptyString /\ e = (Some name, fst (splitext l), l).
Proof.
  unfold classify. cbn [fst]. rewrite in_flat_map. split.
  - intros (x & Hx & He). apply filter_In in Hx as [Hin Ht].
    unfold merge_entry in He.
    destruct (rpm_qf m (fst (splitext x))) as [name|] eqn:E; [|destruct He].
    destruct (String.eqb name EmptyString) eqn:En; [destruct He|].
    destruct He as [<-|[]]. apply String.eqb_neq in En.
    exists x, name. auto.
  - intros (l & name & Hin & Ht & E & Hn & ->). exists l.
    split; [now apply filter_In|].
    unfold merge_entry. rewrite E. apply String.eqb_neq in Hn. rewrite Hn.
    now left.
Qed.

(** *** Asking once for the whole batch *)

Lemma add_outs_nil w : add_outs [] w = w.
Proof. unfold add_outs. rewrite app_nil_r. now destruct w. Qed.

Lemma add_outs_cons e evs w : add_outs (e :: evs) w = add_outs evs (add_out e w).
Proof. unfold add_outs, add_out. cbn [fs out]. now rewrite <- app_assoc. Qed.

Lemma add_outs_app evs1 evs2 w :
  add_outs (evs1 ++ evs2) w = add_outs evs2 (add_outs evs1 w).
Proof. unfold add_outs. cbn [fs out]. now rewrite app_assoc. Qed.

Lemma ask_delete_first_answer inp : forall w,
  ask_delete inp w
  = let w' := add_outs (replicate (questions inp) (Ask "Delete these files (Y/n): ")) w in
    match first_answer inp with
    | Some r => Ok r w'
    | None => Raise EOFError w'
    end.
Proof.
  induction inp as [|l rest IH]; intros w; cbn [ask_delete first_answer questions].
  - cbn [replicate]. rewrite add_outs_cons, add_outs_nil. reflexivity.
  - unfold bind at 1. cbn [flush_input bind emit ret].
    destruct (in_list (upper l) ["Y"; "N"; EmptyString]).
    + cbn [replicate]. rewrite add_outs_cons, add_outs_nil. reflexivity.
    + rewrite IH. cbn [replicate]. now rewrite add_outs_cons.
Qed.

Lemma keeps_ask_delete inp : keeps_fs (ask_delete inp).
Proof.
  intros w. rewrite ask_delete_first_answer. cbn zeta.
  now destruct (first_answer inp).
Qed.

Lemma keeps_print_merge entry : keeps_fs (print_merge entry).
Proof. destruct entry as [[[name|] orig] l]; cbn [print_merge]; keeps. Qed.

Hint Resolve keeps_ask_delete keeps_print_merge : keeps.

(** The report of the entries of [files_merge] goes through: each has a
    package name. *)
Lemma print_merge_all m ls w :
  for_each (fst (classify m ls)) print_merge w
  = Ok tt (add_outs (map merge_line (fst (classify m ls))) w).
Proof.
  assert (H : forall es : list (option string * string * string),
             (forall e, In e es -> exists n, fst (fst e) = Some n) ->
             forall w, for_each es print_merge w = Ok tt (add_outs (map merge_line es) w)).
  { induction es as [|e es IH]; intros Hes w0; cbn [for_each map].
    - now rewrite add_outs_nil.
    - destruct (Hes e (or_introl eq_refl)) as [n Hn].
      destruct e as [[o orig] l]. cbn in Hn. subst o.
      unfold bind at 1. cbn [print_merge print emit].
      rewrite (IH (fun e He => Hes e (or_intror He))).
      now rewrite add_outs_cons. }
  apply H. intros e He.
  apply in_classify_merge in He as (l & name & _ & _ & _ & _ & ->). now exists name.
Qed.

Lemma print_all ps : forall w,
  for_each ps print w = Ok tt (add_outs (map Print ps) w).
Proof.
  induction ps as [|p ps IH]; intros w; cbn [for_each map].
  - now rewrite add_outs_nil.
  - rewrite (bind_ok _ _ _ _ _ (print_ok _ _)), IH. now rewrite add_outs_cons.
Qed.

Lemma first_answer_valid inp a rest :
  first_answer inp = Some (a, rest) -> a = "Y" \/ a = "N" \/ a = EmptyString.
Proof.
  induction inp as [|l inp IH]; cbn [first_answer]; [discriminate|].
  destruct (in_list (upper l) ["Y"; "N"; EmptyString]) eqn:E; [|exact IH].
  intros [= <- <-]. unfold in_list in E. cbn [existsb] in E.
  rewrite !orb_true_iff, !String.eqb_eq in E.
  destruct E as [?|[?|[?|?]]]; auto; discriminate.
Qed.

(** [_clean_orphan] from the lists on: the report is printed, and then
    either there is nothing to delete, or the question is asked and the
    answer decides. *)
Lemma orphan_report_answer self m ls inp w :
  orphan_report self (classify m ls) inp w
  = let w0 := add_outs (report_lines (classify m ls)) w in
    match snd (classify m ls) with
    | [] => Ok inp w0
    | _ :: _ =>
        let w1 := add_outs (replicate (questions inp)
                              (Ask "Delete these files (Y/n): ")) w0 in
        match first_answer inp with
        | None => Raise EOFError w1
        | Some (answer, rest) =>
            (when (in_list answer ["Y"; EmptyString])
                  (for_each (snd (classify m ls)) (_remove self)) >>
             ret rest) w1
        end
    end.
Proof.
  unfold orphan_report, report_lines.
  pose proof (print_merge_all m ls) as Hpm.
  destruct (classify m ls) as [fm fd]. cbn [fst snd] in *.
  assert (Hrep :
            when (negb (bool_decide (fm = [])))
              (print "These files need merging - you may want to run 'rpmconf -a':" >>
               for_each fm print_merge >>
               print ("Skipping files above." +++ nl)) w
            = Ok tt (add_outs
                       (match fm with
                        | [] => []
                        | _ :: _ =>
                            Print "These files need merging - you may want to run 'rpmconf -a':"
                            :: map merge_line fm ++ [Print ("Skipping files above." +++ nl)]
                        end) w)).
  { destruct fm as [|e fm].
    - cbn. now rewrite add_outs_nil.
    - replace (negb (bool_decide (e :: fm = []))) with true
        by (symmetry; apply negb_true_iff, bool_decide_eq_false; discriminate).
      cbn [when]. rewrite (bind_ok _ _ _ _ _ (print_ok _ _)).
      rewrite (bind_ok _ _ _ _ _ (Hpm _)). rewrite print_ok.
      rewrite add_outs_cons, add_outs_app, add_outs_cons, add_outs_nil. reflexivity. }
  rewrite (bind_ok _ _ _ _ _ Hrep). cbn zeta. rewrite add_outs_app.
  destruct fd as [|p fd].
  - cbn. rewrite add_outs_cons, add_outs_nil. reflexivity.
  - replace (negb (bool_decide (p :: fd = []))) with true
      by (symmetry; apply negb_true_iff, bool_decide_eq_false; discriminate).
    rewrite (bind_ok _ _ _ _ _ (print_ok _ _)).
    rewrite (bind_ok _ _ _ _ _ (print_all _ _)).
    unfold bind at 1. rewrite ask_delete_first_answer. cbn zeta.
    rewrite (add_outs_cons (Print "Orphaned .rpmnew and .rpmsave files:")).
    destruct (first_answer inp) as [[a rest]|]; reflexivity.
Qed.

(** *** Deleting the batch *)

Lemma delete_all_in ps : forall m p, In p ps -> delete_all ps m !! p = None.
Proof.
  induction ps as [|q ps IH]; intros m p; [intros []|].
  cbn [delete_all fold_left]. fold (delete_all ps (delete q m)).
  destruct (in_dec string_dec p ps) as [Hin|Hnin].
  - intros _. now apply IH.
  - intros [->|?]; [|contradiction].
    clear IH. revert m. induction ps as [|r ps IH]; intros m.
    + cbn. apply lookup_delete_eq.
    + cbn [delete_all fold_left]. fold (delete_all ps (delete r (delete p m))).
      rewrite delete_delete. apply IH. intros ?. apply Hnin. now right.
Qed.

Lemma delete_all_notin ps : forall m p, ~ In p ps -> delete_all ps m !! p = m !! p.
Proof.
  induction ps as [|q ps IH]; intros m p Hp; [reflexivity|].
  cbn [delete_all fold_left]. fold (delete_all ps (delete q m)).
  rewrite IH by (intros ?; apply Hp; now right).
  apply lookup_delete_ne. intros ->. apply Hp. now left.
Qed.

(** Distinct entries that are not directories are all unlinked. *)
Lemma remove_all_plain self ps : forall w,
  debug self = false -> NoDup ps ->
  (forall p, In p ps -> exists nd, fs w !! p = Some nd /\ nd <> Dir) ->
  for_each ps (_remove self) w = Ok tt (set_fs (delete_all ps (fs w)) w).
Proof.
  induction ps as [|p ps IH]; intros w Hd Hnd Hps; cbn [for_each].
  - unfold ret, set_fs. cbn. now destruct w.
  - destruct (Hps p (or_introl eq_refl)) as (nd & Hp & Hdir).
    rewrite (bind_ok _ _ _ _ _ (remove_after self p w nd Hp Hdir)).
    unfold after_remove. rewrite Hd.
    apply NoDup_cons in Hnd as [Hnin Hnd].
    rewrite IH; [reflexivity|done|done|].
    intros q Hq. cbn [fs set_fs].
    destruct (Hps q (or_intror Hq)) as (nd' & Hq' & Hdir').
    exists nd'. split; [|done]. rewrite lookup_delete_ne; [done|].
    intros ->. now apply Hnin, list_elem_of_In.
Qed.

(** Whatever happens, only the listed paths are touched. *)
Lemma remove_all_elsewhere self ps p : forall w,
  ~ In p ps -> fs (world_of (for_each ps (_remove self) w)) !! p = fs w !! p.
Proof.
  induction ps as [|q ps IH]; intros w Hp; cbn [for_each]; [reflexivity|].
  assert (Hq : q <> p) by (intros ->; apply Hp; now left).
  unfold bind. unfold _remove at 1.
  destruct (debug self).
  - cbn [print emit]. rewrite IH by (intros ?; apply Hp; now right). reflexivity.
  - unfold os_unlink. destruct (fs w !! q) as [[| |]|]; try reflexivity;
      (rewrite IH by (intros ?; apply Hp; now right));
      cbn [fs set_fs]; now apply lookup_delete_ne.
Qed.

Lemma remove_all_dry self ps :
  debug self = true -> keeps_fs (for_each ps (_remove self)).
Proof. intros Hd. apply keeps_for_each. intros p. now apply keeps_remove_dry. Qed.

Lemma remove_all_plain_ok self ps : forall w w',
  debug self = false ->
  for_each ps (_remove self) w = Ok tt w' ->
  w' = set_fs (delete_all ps (fs w)) w.
Proof.
  induction ps as [|p ps IH]; intros w w' Hd H; cbn [for_each] in H.
  - injection H as <-. unfold set_fs. cbn. now destruct w.
  - apply bind_ok_inv in H as ([] & w1 & H1 & H).
    apply remove_plain_ok in H1 as ->; [|done].
    apply IH in H as ->; [|done]. reflexivity.
Qed.

Lemma asked_app evs1 evs2 : asked (evs1 ++ evs2) = (asked evs1 + asked evs2)%nat.
Proof. unfold asked. now rewrite List.filter_app, length_app. Qed.

Lemma asked_prints {A} (f : A -> string) l : asked (map (fun x => Print (f x)) l) = 0%nat.
Proof. induction l as [|x l IH]; [reflexivity|exact IH]. Qed.

Lemma asked_questions k q : asked (replicate k (Ask q)) = k.
Proof. induction k as [|k IH]; [reflexivity|]. unfold asked in *. cbn. now rewrite IH. Qed.

Lemma asked_report acc : asked (report_lines acc) = 0%nat.
Proof.
  unfold report_lines. rewrite asked_app.
  destruct acc as [[|e fm] [|p fd]]; cbn [fst snd]; rewrite ?asked_app;
    unfold merge_line;
    change (asked (Print ?s :: ?l)) with (asked l);
    rewrite ?asked_app, ?(asked_prints _ _); try reflexivity;
    rewrite ?(asked_prints (fun x => x)); reflexivity.
Qed.

Lemma remove_all_dry_ok self ps : forall w,
  debug self = true ->
  exists w', for_each ps (_remove self) w = Ok tt w' /\ fs w' = fs w.
Proof.
  induction ps as [|p ps IH]; intros w Hd; cbn [for_each]; [now exists w|].
  rewrite (bind_ok _ _ _ _ _ (remove_dry self p w Hd)).
  destruct (IH (add_out (Print ("rm " +++ p)) w) Hd) as (w' & E & Ef).
  now exists w'.
Qed.

(** Deleting asks nothing. *)
Lemma remove_all_asked self ps : forall w,
  asked (out (world_of (for_each ps (_remove self) w))) = asked (out w).
Proof.
  induction ps as [|p ps IH]; intros w; cbn [for_each]; [reflexivity|].
  unfold bind. unfold _remove at 1. destruct (debug self).
  - cbn [print emit]. rewrite IH. cbn [out add_out]. rewrite asked_app. cbn. lia.
  - unfold os_unlink. destruct (fs w !! p) as [[| |]|]; try reflexivity;
      now rewrite IH.
Qed.

(** C7, as amended.  The scanner acts on the batch of delete candidates
    (the second of the two lists its loops build) only on one answer for
    all of them.  Without candidates nothing is
    asked and the run returns after the report.  With candidates the
    question is asked once per line read, up to the first line that is
    Y, N or empty, however many candidates there are.  Unless that answer
    is Y or empty (on N, and when the input ends first) the filesystem is
    as it was.  On Y or on an empty line the run is the loop that applies
    [_remove] to the candidates, one after the other in the order of the
    list, and stops at the first one that raises: in dry-run mode that
    loop returns and changes nothing; outside dry-run mode a run that
    returns has unlinked every candidate. *)
Theorem orphan_deletion_confirmed self inp w :
  let del := snd (scan_all (fs w)) in
  let r := _clean_orphan rpm_qf os_tree self inp w in
  scan_topdirs rpm_qf os_tree w = Ok (scan_all (fs w)) (logged w) /\
  (del = [] ->
   r = Ok inp (add_outs (report_lines (scan_all (fs w))) (logged w)) /\
   asked (out (world_of r)) = asked (out w)) /\
  (del <> [] -> asked (out (world_of r)) = (asked (out w) + questions inp)%nat) /\
  ((forall rest, first_answer inp <> Some ("Y", rest)) ->
   (forall rest, first_answer inp <> Some (EmptyString, rest)) ->
   fs (world_of r) = fs w) /\
  (forall rest, first_answer inp = Some ("N", rest) ->
   del <> [] -> exists w', r = Ok rest w' /\ fs w' = fs w) /\
  (forall answer rest,
     first_answer inp = Some (answer, rest) ->
     answer = "Y" \/ answer = EmptyString ->
     del <> [] ->
     r = (for_each del (_remove self) >> ret rest)
           (add_outs (replicate (questions inp) (Ask "Delete these files (Y/n): "))
              (add_outs (report_lines (scan_all (fs w))) (logged w))) /\
     (debug self = true -> exists w', r = Ok rest w' /\ fs w' = fs w) /\
     (debug self = false ->
      forall rest' w',
        r = Ok rest' w' ->
        rest' = rest /\ (forall p, In p del -> fs w' !! p = None))).
Proof.
  intros del r.
  split; [exact (scan_topdirs_scan_all (fun acc => ret acc) w)|].
  subst del r. rewrite clean_orphan_report. unfold scan_all.
  rewrite orphan_report_answer. cbn zeta.
  set (acc := classify (fs w) (found (fs w))).
  set (w0 := add_outs (report_lines acc) (logged w)).
  set (w1 := add_outs (replicate (questions inp) (Ask "Delete these files (Y/n): ")) w0).
  assert (Ea0 : asked (out w0) = asked (out w)).
  { unfold w0, add_outs, logged, add_out. cbn [out fs].
    rewrite !asked_app, asked_report. cbn. lia. }
  assert (Ea1 : asked (out w1) = (asked (out w) + questions inp)%nat).
  { unfold w1, add_outs. cbn [out]. rewrite asked_app, asked_questions. lia. }
  destruct (snd acc) as [|p del] eqn:Hdel.
  { split; [intros _; split; [reflexivity|exact Ea0]|].
    split; [intros Hne; now destruct Hne|].
    split; [intros _ _; reflexivity|].
    split; [intros rest _ Hne; now destruct Hne|].
    intros a rest _ _ Hne. now destruct Hne. }
  split; [discriminate|]. split; [|split; [|split]].
  - intros _. destruct (first_answer inp) as [[a rest]|]; [|exact Ea1].
    destruct (in_list a ["Y"; EmptyString]); cbn [when]; [|exact Ea1].
    pose proof (remove_all_asked self (p :: del) w1) as Hk. unfold bind.
    destruct (for_each (p :: del) (_remove self) w1); cbn in *; congruence.
  - intros HY HE.
    destruct (first_answer inp) as [[a rest]|] eqn:Ha; [|reflexivity].
    destruct (first_answer_valid _ _ _ Ha) as [->|[->| ->]].
    + now destruct (HY rest).
    + reflexivity.
    + now destruct (HE rest).
  - intros rest -> _. now exists w1.
  - intros a rest -> Ha _.
    assert (Hin : in_list a ["Y"; EmptyString] = true) by now destruct Ha as [->| ->].
    rewrite Hin. cbn [when]. split; [reflexivity|]. split.
    + intros Hd.
      destruct (remove_all_dry_ok self (p :: del) w1 Hd) as (w2 & E & Ef).
      rewrite (bind_ok _ _ _ _ _ E). exists w2. split; [reflexivity|exact Ef].
    + intros Hd rest' w' H.
      apply bind_ok_inv in H as ([] & w2 & H2 & H). injection H as <- <-.
      apply remove_all_plain_ok in H2 as ->; [|done].
      split; [reflexivity|]. cbn [fs set_fs].
      intros q Hq. now apply delete_all_in.
Qed.

(** The defect behind C4: with candidates to ask about and an input
    that ends before any answer, [_clean_orphan] raises [EOFError]. *)
Lemma clean_orphan_eof self inp w :
  snd (scan_all (fs w)) <> [] -> first_answer inp = None ->
  exists w', _clean_orphan rpm_qf os_tree self inp w = Raise EOFError w'.
Proof.
  intros Hdel Ha. rewrite clean_orphan_report. unfold scan_all in *.
  rewrite orphan_report_answer. cbn zeta.
  destruct (snd (classify (fs w) (found (fs w)))); [done|].
  rewrite Ha. eexists. reflexivity.
Qed.

(** Paths outside [files_delete] are never touched by the scanner. *)
Lemma clean_orphan_elsewhere self inp w p :
  ~ In p (snd (scan_all (fs w))) ->
  fs (world_of (_clean_orphan rpm_qf os_tree self inp w)) !! p = fs w !! p.
Proof.
  intros Hp. rewrite clean_orphan_report. unfold scan_all in *.
  rewrite orphan_report_answer. cbn zeta.
  destruct (snd (classify (fs w) (found (fs w)))) as [|q del]; [reflexivity|].
  destruct (first_answer inp) as [[a rest]|]; [|reflexivity].
  destruct (in_list a ["Y"; EmptyString]); cbn [when]; [|reflexivity].
  match goal with |- context [bind (for_each _ _) _ ?w1] =>
    pose proof (remove_all_elsewhere self (q :: del) p w1 Hp) as H;
    unfold bind; destruct (for_each (q :: del) (_remove self) w1) end;
    cbn in *; exact H.
Qed.

(** What the scanner shows starts with the log lines and the report of
    the two lists. *)
Lemma clean_orphan_shows self inp w :
  exists rest,
    out (world_of (_clean_orphan rpm_qf os_tree self inp w))
    = (out (logged w) ++ report_lines (scan_all (fs w)) ++ rest)%list.
Proof.
  rewrite clean_orphan_report. unfold scan_all.
  rewrite orphan_report_answer. cbn zeta.
  set (acc := classify (fs w) (found (fs w))).
  assert (Hext : forall ps w1, exists rest,
             out (world_of (for_each ps (_remove self) w1)) = (out w1 ++ rest)%list).
  { induction ps as [|q ps IH]; intros w1; cbn [for_each].
    - exists []. cbn. now rewrite app_nil_r.
    - unfold bind. destruct (_remove self q w1) as [[] w2|e w2] eqn:E.
      + destruct (IH w2) as [rest Hrest]. rewrite Hrest.
        unfold _remove in E. destruct (debug self).
        * injection E as <-. cbn [out add_out]. rewrite <- app_assoc. eauto.
        * apply os_unlink_ok in E as ->. cbn [out set_fs]. eauto.
      + exists []. cbn [world_of]. rewrite app_nil_r.
        unfold _remove in E. destruct (debug self); [discriminate|].
        unfold os_unlink in E. destruct (fs w1 !! q) as [[| |]|]; now inversion E. }
  destruct (snd acc) as [|q del].
  - exists []. cbn [world_of out add_outs]. now rewrite app_nil_r.
  - destruct (first_answer inp) as [[a rest]|].
    + destruct (in_list a ["Y"; EmptyString]); cbn [when].
      * match goal with |- context [bind (for_each ?ps _) _ ?w1] =>
          destruct (Hext ps w1) as [tl Htl];
          unfold bind; destruct (for_each ps (_remove self) w1) end;
          cbn [world_of ret] in *; rewrite Htl; cbn [out add_outs];
          rewrite <- !app_assoc; eauto.
      * cbn [world_of bind ret out add_outs]. rewrite <- !app_assoc. eauto.
    + cbn [world_of out add_outs]. rewrite <- !app_assoc. eauto.
Qed.

(** ** Properties of the package walker and of [run] *)

Lemma for_each_reading_app {A} (body : A -> list string -> M (list string)) l1 l2 :
  forall inp w,
    for_each_reading (l1 ++ l2) body inp w
    = (let* inp1 := for_each_reading l1 body inp in
       for_each_reading l2 body inp1) w.
Proof.
  induction l1 as [|x l1 IH]; intros inp w; cbn [for_each_reading app].
  - reflexivity.
  - unfold bind at 1 2 3. destruct (body x inp w) as [inp1 w1|e w1]; [|reflexivity].
    apply IH.
Qed.

Lemma for_each_reading_concat {A} (body : A -> list string -> M (list string)) ls :
  forall inp w,
    for_each_reading ls (fun l => for_each_reading l body) inp w
    = for_each_reading (concat ls) body inp w.
Proof.
  induction ls as [|l ls IH]; intros inp w; cbn [for_each_reading concat].
  - reflexivity.
  - rewrite for_each_reading_app. apply bind_congr; [reflexivity|]. apply IH.
Qed.

Lemma for_each_reading_flat_map {A B} (f : A -> list B)
      (body : B -> list string -> M (list string)) l :
  forall inp w,
    for_each_reading l (fun x => for_each_reading (f x) body) inp w
    = for_each_reading (flat_map f l) body inp w.
Proof.
  induction l as [|x l IH]; intros inp w; cbn [for_each_reading flat_map].
  - reflexivity.
  - rewrite for_each_reading_app. apply bind_congr; [reflexivity|]. apply IH.
Qed.

Local Abbreviation run_it := (run run_tool environ_MERGE rpm_qf os_tree).
Local Abbreviation conf_file_step := (handle_conf_file run_tool environ_MERGE).

(** [run] handles the configuration files one after the other, then
    looks for orphans when asked to. *)
Lemma run_all_confs self inp w :
  run_it self inp w
  = (let* inp1 := for_each_reading (all_confs self) (conf_file_step self) inp in
     if clean self then _clean_orphan rpm_qf os_tree self inp1 else ret inp1) w.
Proof.
  unfold run. apply bind_congr; [|reflexivity].
  rewrite for_each_reading_concat. unfold all_confs.
  rewrite <- for_each_reading_flat_map. reflexivity.
Qed.

(** An exception that leaves the handling of one configuration file
    leaves [run]: the loops of [run] and [_handle_package] have no
    handler. *)
Lemma run_aborts_at self pre c post inp w inp1 w1 e w2 :
  all_confs self = (pre ++ c :: post)%list ->
  for_each_reading pre (conf_file_step self) inp w = Ok inp1 w1 ->
  conf_file_step self c inp1 w1 = Raise e w2 ->
  run_it self inp w = Raise e w2.
Proof.
  intros Hall Hpre Hc. rewrite run_all_confs, Hall.
  apply bind_raise. rewrite for_each_reading_app.
  rewrite (bind_ok _ _ _ _ _ Hpre). cbn [for_each_reading].
  now apply bind_raise.
Qed.

(** *** Dry-run mode *)

Lemma keeps_handle_rpmnew_dry self conf other inp :
  debug self = true -> tools_read_only ->
  keeps_fs (handle_rpmnew self conf other inp).
Proof.
  intros Hd Hro. unfold _handle_rpmnew. apply keeps_bind; [keeps|]. intros same.
  destruct same; [keeps; now apply keeps_remove_dry|].
  rewrite rpmnew_loop_choice. apply keeps_bind.
  - apply keeps_choice_loop; [keeps|now apply keeps_merge_conf_files_dry].
  - intros [option inp']. keeps;
      auto using keeps_remove_dry, keeps_overwrite_dry.
Qed.

Lemma keeps_handle_rpmsave_dry self conf other inp :
  debug self = true -> tools_read_only ->
  keeps_fs (handle_rpmsave self conf other inp).
Proof.
  intros Hd Hro. unfold _handle_rpmsave. apply keeps_bind; [keeps|]. intros same.
  destruct same; [keeps; now apply keeps_remove_dry|].
  rewrite rpmsave_loop_choice. apply keeps_bind.
  - apply keeps_choice_loop; [keeps|now apply keeps_merge_conf_files_dry].
  - intros [option inp']. keeps;
      auto using keeps_remove_dry, keeps_overwrite_dry.
Qed.

Lemma keeps_show_cond_diff file_ex f1 f2 : keeps_fs (_show_cond_diff file_ex f1 f2).
Proof.
  unfold _show_cond_diff. keeps.
Qed.

Lemma keeps_handle_conf_file_dry self conf inp :
  debug self = true -> tools_read_only ->
  keeps_fs (conf_file_step self conf inp).
Proof.
  intros Hd Hro. unfold handle_conf_file.
  destruct (diff self).
  - keeps; apply keeps_show_cond_diff.
  - keeps; auto using keeps_handle_rpmnew_dry, keeps_handle_rpmsave_dry.
Qed.

Lemma keeps_for_each_reading {A} (body : A -> list string -> M (list string)) l :
  (forall x inp, keeps_fs (body x inp)) ->
  forall inp, keeps_fs (for_each_reading l body inp).
Proof.
  intros Hb. induction l as [|x l IH]; intros inp; cbn [for_each_reading].
  - keeps.
  - apply keeps_bind; [apply Hb|]. intros inp'. apply IH.
Qed.

Lemma keeps_clean_orphan_dry self inp :
  debug self = true -> keeps_fs (_clean_orphan rpm_qf os_tree self inp).
Proof.
  intros Hd w. rewrite clean_orphan_report. unfold scan_all.
  rewrite orphan_report_answer. cbn zeta.
  destruct (snd (classify (fs w) (found (fs w)))) as [|p del]; [reflexivity|].
  destruct (first_answer inp) as [[a rest]|]; [|reflexivity].
  match goal with |- context [bind ?m ?k ?w1] =>
    change (fs w) with (fs w1);
    apply (keeps_bind m k); [|intros; keeps] end.
  apply keeps_when. now apply remove_all_dry.
Qed.

(** C6, as amended.  In dry-run mode [_remove] and [_overwrite] print the
    command and do nothing else, and nothing the program does itself
    changes the filesystem: whenever the external merge tools leave the
    filesystem alone, it is after the run, however the run ends, what
    it was before. *)
Theorem dry_run_keeps_filesystem self :
  debug self = true ->
  (forall p w, _remove self p w = Ok tt (add_out (Print ("rm " +++ p)) w)) /\
  (forall src dst w,
     _overwrite self src dst w
     = Ok tt (add_out (Print ("cp --no-dereference " +++ src +++ " " +++ dst)) w)) /\
  (tools_read_only -> forall inp w, fs (world_of (run_it self inp w)) = fs w).
Proof.
  intros Hd. split; [|split].
  - intros p w. now apply remove_dry.
  - intros src dst w. unfold _overwrite. now rewrite Hd.
  - intros Hro inp. unfold run. apply keeps_bind.
    + apply keeps_for_each_reading. intros pkg inp0.
      apply keeps_for_each_reading. intros package inp1.
      unfold _handle_package. apply keeps_for_each_reading. intros conf inp2.
      now apply keeps_handle_conf_file_dry.
    + intros inp1. destruct (clean self); [|keeps].
      now apply keeps_clean_orphan_dry.
Qed.

(** ** Further properties of the file operations *)

Lemma stat_regular m p d t : m !! p = Some (Reg d t) -> stat m p = inr (p, Reg d t).
Proof. intros H. unfold stat, MAXSYMLINKS. cbn [follow]. now rewrite H. Qed.

Lemma filecmp_cmp_regular f1 f2 w d1 t1 d2 t2 :
  fs w !! f1 = Some (Reg d1 t1) -> fs w !! f2 = Some (Reg d2 t2) ->
  filecmp_cmp f1 f2 w
  = Ok (if (String.length d1 =? String.length d2)%nat && (t1 =? t2)%Z then true
        else if negb (String.length d1 =? String.length d2)%nat then false
        else String.eqb d1 d2) w.
Proof.
  intros H1 H2. unfold filecmp_cmp, bind, os_stat.
  rewrite (stat_regular _ _ _ _ H1), (stat_regular _ _ _ _ H2).
  repeat match goal with |- context [if ?c then _ else _] => destruct c end;
    reflexivity.
Qed.

(** X1.  [filecmp.cmp] is called with its default [shallow=True]: two
    regular files of the same size and the same modification time count
    as identical whatever their bytes, and both handlers then apply
    [_remove] to the variant without asking. *)
Theorem same_size_and_time_auto_resolved self conf other d1 d2 t inp w :
  fs w !! conf = Some (Reg d1 t) ->
  fs w !! other = Some (Reg d2 t) ->
  String.length d1 = String.length d2 ->
  handle_rpmnew self conf other inp w = Ok (None, inp) (after_remove self other w) /\
  handle_rpmsave self conf other inp w = Ok (None, inp) (after_remove self other w).
Proof.
  intros Hc Ho Hlen.
  assert (Hcmp : filecmp_cmp conf other w = Ok true w).
  { rewrite (filecmp_cmp_regular _ _ _ _ _ _ _ Hc Ho).
    rewrite Hlen, Nat.eqb_refl, Z.eqb_refl. reflexivity. }
  assert (Hrm : _remove self other w = Ok tt (after_remove self other w))
    by (eapply remove_after; [exact Ho|discriminate]).
  unfold _handle_rpmnew, _handle_rpmsave.
  rewrite !(bind_ok _ _ _ _ _ Hcmp). cbn iota.
  rewrite !(bind_ok _ _ _ _ _ Hrm). split; reflexivity.
Qed.

Lemma shutil_copy2_regular src dst w d t d' t' :
  src <> dst ->
  fs w !! src = Some (Reg d t) ->
  fs w !! dst = Some (Reg d' t') ->
  shutil_copy2 src dst w = Ok tt (set_fs (<[dst := Reg d t]> (fs w)) w).
Proof.
  intros Hne Hs Hd. unfold shutil_copy2, isdir. cbv zeta.
  rewrite (stat_regular _ _ _ _ Hd). cbv iota beta.
  rewrite (stat_regular _ _ _ _ Hd), (stat_regular _ _ _ _ Hs).
  apply String.eqb_neq in Hne. rewrite Hne.
  unfold MAXSYMLINKS. cbn [write_target]. now rewrite Hd.
Qed.

Lemma overwrite_regular self src dst w d t d' t' :
  debug self = false -> src <> dst ->
  fs w !! src = Some (Reg d t) ->
  fs w !! dst = Some (Reg d' t') ->
  _overwrite self src dst w
  = Ok tt (set_fs (delete src (<[dst := Reg d t]> (fs w))) w).
Proof.
  intros Hdbg Hne Hs Hd. unfold _overwrite. rewrite Hdbg.
  assert (Hcp : _copy src dst w = Ok tt (set_fs (<[dst := Reg d t]> (fs w)) w)).
  { unfold _copy, bind, get_fs, islink. rewrite Hs.
    eapply shutil_copy2_regular; eauto. }
  rewrite (bind_ok _ _ _ _ _ Hcp). rewrite remove_plain by done.
  rewrite (os_unlink_present src _ (Reg d t)); [reflexivity| |discriminate].
  cbn [fs set_fs]. rewrite lookup_insert_ne by congruence. exact Hs.
Qed.

(** X2.  Adopting the variant of a pair of regular files outside
    dry-run mode ([Y] or [I] at the prompt for a new variant, [N] or [O]
    at the one for a saved variant): the base takes the bytes and the
    modification time of the variant, the variant is gone, and no other
    path changes. *)
Theorem adopt_variant_regular self conf other line inp w d1 t1 d2 t2 :
  debug self = false ->
  conf <> other ->
  fs w !! conf = Some (Reg d1 t1) ->
  fs w !! other = Some (Reg d2 t2) ->
  filecmp_cmp conf other w = Ok false w ->
  let adopted prompt :=
    set_fs (delete other (<[conf := Reg d2 t2]> (fs w)))
      (shown self prompt conf other w) in
  (upper line = "Y" \/ upper line = "I" ->
   handle_rpmnew self conf other (line :: inp) w
   = Ok (Some (upper line), inp) (adopted rpmnew_prompt)) /\
  (upper line = "N" \/ upper line = "O" ->
   handle_rpmsave self conf other (line :: inp) w
   = Ok (Some (upper line), inp) (adopted rpmsave_prompt)).
Proof.
  intros Hdbg Hne Hc Ho Hcmp adopted.
  assert (Hic : is_Some (fs w !! conf)) by eauto.
  assert (Hio : is_Some (fs w !! other)) by eauto.
  assert (Hne' : other <> conf) by congruence.
  split; intros Hline.
  - unfold _handle_rpmnew. rewrite (bind_ok _ _ _ _ _ Hcmp). cbn iota.
    rewrite rpmnew_loop_choice.
    assert (Hl := choice_loop_first rpmnew_prompt "N" (show_diff conf other)
                    self conf other line inp w Hic Hio).
    cbn zeta in Hl.
    assert (E : (if String.eqb (upper line) EmptyString then "N" else upper line)
                = upper line) by (destruct Hline as [-> | ->]; reflexivity).
    rewrite E in Hl.
    rewrite (bind_ok _ _ _ _ _ (Hl ltac:(destruct Hline as [-> | ->]; reflexivity))).
    replace (in_list (upper line) ["N"; "O"]) with false
      by (destruct Hline as [-> | ->]; reflexivity).
    replace (in_list (upper line) ["Y"; "I"]) with true
      by (destruct Hline as [-> | ->]; reflexivity).
    cbn [when]. unfold bind at 1. cbn [ret].
    rewrite (bind_ok _ _ _ _ _
               (overwrite_regular self other conf
                  (shown self rpmnew_prompt conf other w) d2 t2 d1 t1
                  Hdbg Hne' Ho Hc)).
    reflexivity.
  - unfold _handle_rpmsave. rewrite (bind_ok _ _ _ _ _ Hcmp). cbn iota.
    rewrite rpmsave_loop_choice.
    assert (Hl := choice_loop_first rpmsave_prompt "Y" (show_diff other conf)
                    self conf other line inp w Hic Hio).
    cbn zeta in Hl.
    assert (E : (if String.eqb (upper line) EmptyString then "Y" else upper line)
                = upper line) by (destruct Hline as [-> | ->]; reflexivity).
    rewrite E in Hl.
    rewrite (bind_ok _ _ _ _ _ (Hl ltac:(destruct Hline as [-> | ->]; reflexivity))).
    replace (in_list (upper line) ["Y"; "I"]) with false
      by (destruct Hline as [-> | ->]; reflexivity).
    replace (in_list (upper line) ["N"; "O"]) with true
      by (destruct Hline as [-> | ->]; reflexivity).
    cbn [when]. unfold bind at 1. cbn [ret].
    rewrite (bind_ok _ _ _ _ _
               (overwrite_regular self other conf
                  (shown self rpmsave_prompt conf other w) d2 t2 d1 t1
                  Hdbg Hne' Ho Hc)).
    reflexivity.
Qed.

(** X3.  [_copy] of a symbolic link makes the destination a symbolic
    link with the same target, in place of whatever entry was there, and
    changes nothing else; only a directory at the destination makes it
    fail, with [IsADirectoryError] and nothing changed. *)
Theorem copy_symlink_replaces src dst target w :
  fs w !! src = Some (Lnk target) ->
  (fs w !! dst <> Some Dir ->
   _copy src dst w = Ok tt (set_fs (<[dst := Lnk target]> (fs w)) w)) /\
  (fs w !! dst = Some Dir ->
   _copy src dst w = Raise IsADirectoryError w).
Proof.
  intros Hs.
  assert (Hrl : os_readlink src w = Ok target w)
    by (unfold os_readlink; now rewrite Hs).
  split; intros Hd.
  - unfold _copy, bind at 1, get_fs, islink. rewrite Hs.
    rewrite (bind_ok _ _ _ _ _ Hrl).
    unfold catch, os_symlink.
    destruct (fs w !! dst) as [nd|] eqn:E; [|reflexivity].
    cbn. unfold bind, os_unlink. rewrite E.
    destruct nd; try congruence;
      cbn [fs set_fs]; rewrite lookup_delete_eq; unfold set_fs; cbn [fs out];
      now rewrite insert_delete_eq.
  - unfold _copy, bind at 1, get_fs, islink. rewrite Hs.
    rewrite (bind_ok _ _ _ _ _ Hrl).
    unfold catch, os_symlink. rewrite Hd. cbn.
    unfold bind, os_unlink. now rewrite Hd.
Qed.

Lemma copy_raise src dst w e w' : _copy src dst w = Raise e w' -> w' = w.
Proof.
  unfold _copy, bind at 1, get_fs.
  destruct (islink (fs w) src).
  - unfold bind, os_readlink.
    destruct (fs w !! src) as [[| |]|]; try (intros [= _ <-]; reflexivity).
    unfold catch, os_symlink.
    destruct (fs w !! dst) as [nd|] eqn:E; [|discriminate].
    cbn. unfold os_unlink. rewrite E.
    destruct nd; try (intros [= _ <-]; reflexivity);
      cbn [fs set_fs]; rewrite lookup_delete_eq; discriminate.
  - unfold shutil_copy2. cbn zeta.
    repeat match goal with
           | |- context [if ?c then _ else _] => destruct c
           | |- context [match ?x with _ => _ end] => destruct x
           end; try discriminate; intros [= _ <-]; reflexivity.
Qed.

Lemma copy_ok_source src dst w w' :
  _copy src dst w = Ok tt w' ->
  exists nd, fs w' !! src = Some nd /\ nd <> Dir.
Proof.
  unfold _copy, bind at 1, get_fs, islink.
  destruct (fs w !! src) as [[d t|target|]|] eqn:Hs.
  - unfold shutil_copy2. cbn zeta. rewrite !(stat_regular _ _ _ _ Hs).
    destruct (match stat (fs w) _ with inr (d0, _) => String.eqb src d0 | _ => false end);
      [discriminate|].
    destruct (write_target _ _ _) as [e|tgt]; [discriminate|].
    intros [= <-]. cbn [fs set_fs].
    destruct (decide (tgt = src)) as [->|Hne].
    + rewrite lookup_insert_eq. eexists. split; [reflexivity|discriminate].
    + rewrite lookup_insert_ne by done. rewrite Hs.
      eexists. split; [reflexivity|discriminate].
  - unfold bind, os_readlink. rewrite Hs.
    unfold catch, os_symlink.
    assert (Hins : forall m : gmap string node,
               m !! src = Some (Lnk target) \/ dst = src ->
               exists nd, <[dst := Lnk target]> m !! src = Some nd /\ nd <> Dir).
    { intros m [Hm|Heq].
      - destruct (decide (dst = src)) as [->|Hne].
        + rewrite lookup_insert_eq. eexists. split; [reflexivity|discriminate].
        + rewrite lookup_insert_ne by done. rewrite Hm.
          eexists. split; [reflexivity|discriminate].
      - subst dst. rewrite lookup_insert_eq.
        eexists. split; [reflexivity|discriminate]. }
    destruct (fs w !! dst) as [nd|] eqn:E.
    + cbn. unfold os_unlink. rewrite E.
      destruct nd; try discriminate;
        cbn [fs set_fs]; rewrite lookup_delete_eq; intros [= <-]; cbn [fs set_fs];
        apply Hins;
        (destruct (decide (dst = src)) as [->|Hne]; [now right|left];
         now rewrite lookup_delete_ne).
    + intros [= <-]. cbn [fs set_fs]. apply Hins. now left.
  - unfold shutil_copy2. cbn zeta.
    assert (Hst : stat (fs w) src = inr (src, Dir))
      by (unfold stat, MAXSYMLINKS; cbn [follow]; now rewrite Hs).
    rewrite !Hst.
    repeat match goal with
           | |- context [if ?c then _ else _] => destruct c
           end; discriminate.
  - unfold shutil_copy2. cbn zeta.
    assert (Hst : stat (fs w) src = inl FileNotFoundError)
      by (unfold stat, MAXSYMLINKS; cbn [follow]; now rewrite Hs).
    rewrite !Hst. discriminate.
Qed.


(** ** Further properties of the package walker *)

Lemma handle_conf_file_no_variant self conf inp w :
  diff self = false ->
  os_access (fs w) (conf +++ ".rpmnew") = false ->
  os_access (fs w) (conf +++ ".rpmsave") = false ->
  os_access (fs w) (conf +++ ".rpmorig") = false ->
  conf_file_step self conf inp w = Ok inp w.
Proof.
  intros Hdiff Hnew Hsave Horig. unfold handle_conf_file. rewrite Hdiff.
  unfold bind at 1. cbn [get_fs].
  change (conf +++ "." +++ "rpmnew") with (conf +++ ".rpmnew"). rewrite Hnew.
  unfold bind at 1. cbn [ret]. unfold bind at 1. cbn [get_fs].
  change (conf +++ "." +++ "rpmsave") with (conf +++ ".rpmsave"). rewrite Hsave.
  unfold bind at 1. cbn [ret]. unfold bind at 1. cbn [get_fs].
  change (conf +++ "." +++ "rpmorig") with (conf +++ ".rpmorig"). rewrite Horig.
  reflexivity.
Qed.

(** X5.  Without [--clean] and outside diff mode, a run over packages
    none of whose configuration files has a variant that [os.access]
    finds does nothing at all: nothing is shown, no input is read, the
    filesystem is untouched. *)
Theorem run_without_variants self inp w :
  diff self = false ->
  clean self = false ->
  (forall conf, In conf (all_confs self) ->
     os_access (fs w) (conf +++ ".rpmnew") = false /\
     os_access (fs w) (conf +++ ".rpmsave") = false /\
     os_access (fs w) (conf +++ ".rpmorig") = false) ->
  run_it self inp w = Ok inp w.
Proof.
  intros Hdiff Hclean Hnone. rewrite run_all_confs. rewrite Hclean.
  assert (H : for_each_reading (all_confs self) (conf_file_step self) inp w = Ok inp w).
  { revert Hnone. generalize (all_confs self). intros l.
    induction l as [|c l IH]; intros Hnone; cbn [for_each_reading]; [reflexivity|].
    destruct (Hnone c (or_introl eq_refl)) as (Hn & Hs & Ho).
    rewrite (bind_ok _ _ _ _ _ (handle_conf_file_no_variant self c inp w Hdiff Hn Hs Ho)).
    apply IH. intros c' Hc'. apply Hnone. now right. }
  now rewrite (bind_ok _ _ _ _ _ H).
Qed.

Lemma land_config_odd x : negb (Z.land x RPMFILE_CONFIG =? 0)%Z = Z.odd x.
Proof.
  unfold RPMFILE_CONFIG. change 1%Z with (Z.ones 1).
  rewrite Z.land_ones by lia. change (2 ^ 1)%Z with 2%Z.
  rewrite Zmod_odd. now destruct (Z.odd x).
Qed.

(** X6.  [get_list_of_config] keeps, in the order of the package, the
    paths of exactly the files whose flags have the configuration bit
    (bit 0) set, whatever the other bits are. *)
Theorem get_list_of_config_bit0 (package : hdr) :
  get_list_of_config package
  = map fi_name (List.filter (fun f => Z.testbit (fi_flags f) 0) package) /\
  (forall p, In p (get_list_of_config package) <->
             exists f, In f package /\ fi_name f = p /\ Z.odd (fi_flags f) = true).
Proof.
  assert (E : get_list_of_config package
              = map fi_name (List.filter (fun f => Z.odd (fi_flags f)) package)).
  { unfold get_list_of_config. f_equal. apply List.filter_ext.
    intros f. apply land_config_odd. }
  split.
  - rewrite E. reflexivity.
  - intros p. rewrite E, in_map_iff. split.
    + intros (f & Hn & Hf). apply filter_In in Hf as [Hin Hodd]. eauto.
    + intros (f & Hin & Hn & Hodd). exists f. split; [done|]. now apply filter_In.
Qed.

(** The events [_show_cond_diff] can add: none, or one pager event. *)
Lemma show_cond_diff_cases file_ex f1 f2 w :
  match _show_cond_diff file_ex f1 f2 w with
  | Ok _ w' => w' = w \/ exists d1 d2, w' = add_out (Pager f1 f2 d1 d2) w
  | Raise _ w' => w' = w
  end.
Proof.
  unfold _show_cond_diff, bind at 1, get_fs.
  destruct (lexists (fs w) file_ex); [|now left].
  unfold show_diff, bind, os_stat.
  destruct (stat (fs w) f1) as [e|[q1 [d1 t1| |]]]; try reflexivity;
    destruct (stat (fs w) f2) as [e|[q2 [d2 t2| |]]]; try reflexivity.
  right. now exists d1, d2.
Qed.

Lemma diff_step_pagers self conf inp w :
  diff self = true ->
  exists evs,
    Forall is_pager evs /\
    world_of (conf_file_step self conf inp w) = add_outs evs w /\
    (forall inp' w', conf_file_step self conf inp w = Ok inp' w' -> inp' = inp).
Proof.
  intros Hdiff. unfold handle_conf_file. rewrite Hdiff. cbv zeta.
  assert (Hstep : forall file_ex f1 f2 w0 (k : M (list string)),
             (forall w1, exists evs, Forall is_pager evs /\
                world_of (k w1) = add_outs evs w1 /\
                (forall inp' w', k w1 = Ok inp' w' -> inp' = inp)) ->
             exists evs, Forall is_pager evs /\
               world_of ((_show_cond_diff file_ex f1 f2 >> k) w0) = add_outs evs w0 /\
               (forall inp' w', (_show_cond_diff file_ex f1 f2 >> k) w0 = Ok inp' w'
                                -> inp' = inp)).
  { intros file_ex f1 f2 w0 k Hk. unfold bind.
    pose proof (show_cond_diff_cases file_ex f1 f2 w0) as Hc.
    destruct (_show_cond_diff file_ex f1 f2 w0) as [[] w1|e w1].
    - destruct (Hk w1) as (evs & Hev & Hw & Hin).
      destruct Hc as [->|(d1 & d2 & ->)].
      + exists evs. auto.
      + exists (Pager f1 f2 d1 d2 :: evs). split; [constructor; [exact I|done]|].
        split; [now rewrite add_outs_cons|exact Hin].
    - subst w1. exists []. split; [constructor|].
      split; [now rewrite add_outs_nil|discriminate]. }
  apply Hstep. intros w1. apply Hstep. intros w2. apply Hstep. intros w3.
  exists []. split; [constructor|]. split; [now rewrite add_outs_nil|].
  intros inp' w' [= <- _]. reflexivity.
Qed.

Lemma asked_pagers evs : Forall is_pager evs -> asked evs = 0%nat.
Proof.
  induction 1 as [|e evs He _ IH]; [reflexivity|].
  destruct e; try destruct He. exact IH.
Qed.

(** X7.  Diff mode only reports: a run in diff mode without [--clean]
    leaves the filesystem as it was however it ends, shows nothing but
    pager output, asks nothing, and reads no input. *)
Theorem diff_mode_read_only self inp w :
  diff self = true ->
  clean self = false ->
  let r := run_it self inp w in
  fs (world_of r) = fs w /\
  (exists evs, Forall is_pager evs /\ out (world_of r) = (out w ++ evs)%list) /\
  asked (out (world_of r)) = asked (out w) /\
  (forall inp' w', r = Ok inp' w' -> inp' = inp).
Proof.
  intros Hdiff Hclean r. subst r. rewrite run_all_confs. rewrite Hclean.
  assert (H : forall l w0, exists evs,
             Forall is_pager evs /\
             world_of (for_each_reading l (conf_file_step self) inp w0) = add_outs evs w0 /\
             (forall inp' w', for_each_reading l (conf_file_step self) inp w0 = Ok inp' w'
                              -> inp' = inp)).
  { induction l as [|c l IH]; intros w0; cbn [for_each_reading].
    - exists []. split; [constructor|]. split; [now rewrite add_outs_nil|].
      now intros inp' w' [= <- _].
    - destruct (diff_step_pagers self c inp w0 Hdiff) as (evs1 & Hev1 & Hw1 & Hin1).
      unfold bind. destruct (conf_file_step self c inp w0) as [inp1 w1|e w1] eqn:E.
      + rewrite (Hin1 _ _ eq_refl). cbn [world_of] in Hw1. subst w1.
        destruct (IH (add_outs evs1 w0)) as (evs2 & Hev2 & Hw2 & Hin2).
        exists (evs1 ++ evs2)%list. split; [now apply Forall_app|].
        split; [now rewrite add_outs_app|exact Hin2].
      + exists evs1. split; [done|]. split; [exact Hw1|discriminate]. }
  destruct (H (all_confs self) w) as (evs & Hev & Hw & Hin).
  assert (Hrun : world_of
                   ((let* inp1 := for_each_reading (all_confs self)
                                    (conf_file_step self) inp in ret inp1) w)
                 = add_outs evs w /\
                 (forall inp' w',
                    (let* inp1 := for_each_reading (all_confs self)
                                    (conf_file_step self) inp in ret inp1) w
                    = Ok inp' w' -> inp' = inp)).
  { unfold bind. destruct (for_each_reading _ _ inp w) as [inp1 w1|e w1].
    - split; [exact Hw|]. intros inp' w' [= <- _]. now apply (Hin _ w1).
    - split; [exact Hw|discriminate]. }
  destruct Hrun as [Hw' Hin']. rewrite Hw'. cbn [fs out add_outs].
  split; [reflexivity|]. split; [now exists evs|].
  split; [|exact Hin'].
  rewrite asked_app, (asked_pagers _ Hev). lia.
Qed.

(** X8.  In diff mode, for a configuration file that has all three
    variants as regular files, three diffs are shown and nothing else
    happens: base against new variant, then saved variant against base,
    then pristine original against base. *)
Theorem diff_mode_shows_three self conf inp w dc tc dn tn ds ts do_ to_ :
  diff self = true ->
  fs w !! conf = Some (Reg dc tc) ->
  fs w !! (conf +++ ".rpmnew") = Some (Reg dn tn) ->
  fs w !! (conf +++ ".rpmsave") = Some (Reg ds ts) ->
  fs w !! (conf +++ ".rpmorig") = Some (Reg do_ to_) ->
  conf_file_step self conf inp w
  = Ok inp
      (add_outs [Pager conf (conf +++ ".rpmnew") dc dn;
                 Pager (conf +++ ".rpmsave") conf ds dc;
                 Pager (conf +++ ".rpmorig") conf do_ dc] w).
Proof.
  intros Hdiff Hc Hn Hs Ho. unfold handle_conf_file. rewrite Hdiff. cbv zeta.
  assert (Hshow : forall file_ex f1 f2 w0 d1 t1 d2 t2 nd,
             fs w0 !! file_ex = Some nd ->
             fs w0 !! f1 = Some (Reg d1 t1) -> fs w0 !! f2 = Some (Reg d2 t2) ->
             _show_cond_diff file_ex f1 f2 w0 = Ok tt (add_out (Pager f1 f2 d1 d2) w0)).
  { intros file_ex f1 f2 w0 d1 t1 d2 t2 nd Hex H1 H2.
    unfold _show_cond_diff, bind at 1, get_fs, lexists. rewrite Hex.
    unfold show_diff, bind, os_stat.
    now rewrite (stat_regular _ _ _ _ H1), (stat_regular _ _ _ _ H2). }
  set (w1 := add_out (Pager conf (conf +++ ".rpmnew") dc dn) w).
  set (w2 := add_out (Pager (conf +++ ".rpmsave") conf ds dc) w1).
  rewrite (bind_ok _ _ _ _ _ (Hshow _ _ _ w _ _ _ _ _ Hn Hc Hn)).
  rewrite (bind_ok _ _ _ _ _ (Hshow _ _ _ w1 _ _ _ _ _ Hs Hs Hc)).
  rewrite (bind_ok _ _ _ _ _ (Hshow _ _ _ w2 _ _ _ _ _ Ho Ho Hc)).
  unfold ret. now rewrite !add_outs_cons, add_outs_nil.
Qed.

(** X9.  A variant that is a dangling symbolic link (the only variant
    of a regular base file) is passed over by the interactive path,
    whose existence check follows links, and stops diff mode, whose
    check does not, with [FileNotFoundError]. *)
Theorem dangling_variant self conf target inp w dc tc :
  fs w !! conf = Some (Reg dc tc) ->
  fs w !! (conf +++ ".rpmnew") = Some (Lnk target) ->
  fs w !! target = None ->
  fs w !! (conf +++ ".rpmsave") = None ->
  fs w !! (conf +++ ".rpmorig") = None ->
  (diff self = false ->
   handle_conf_file run_tool environ_MERGE self conf inp w = Ok inp w) /\
  (diff self = true ->
   handle_conf_file run_tool environ_MERGE self conf inp w
   = Raise FileNotFoundError w).
Proof.
  intros Hc Hn Ht Hs Ho. split; intros Hdiff.
  - apply handle_conf_file_no_variant; try done.
    + unfold os_access, stat, MAXSYMLINKS. cbn [follow]. now rewrite Hn, Ht.
    + now apply os_access_absent.
    + now apply os_access_absent.
  - unfold handle_conf_file. rewrite Hdiff. cbv zeta.
    apply bind_raise.
    unfold _show_cond_diff, bind at 1, get_fs, lexists. rewrite Hn.
    unfold show_diff, bind, os_stat.
    rewrite (stat_regular _ _ _ _ Hc).
    unfold stat, MAXSYMLINKS. cbn [follow]. now rewrite Hn, Ht.
Qed.

(** ** Further properties of the prompt loop *)

(** One round of the loop on a line, the two files being there. *)
Lemma choice_loop_cons prompt dflt differ self conf other l inp w :
  is_Some (fs w !! conf) -> is_Some (fs w !! other) ->
  choice_loop prompt dflt differ self conf other (l :: inp) w
  = (let o := if String.eqb (upper l) EmptyString then dflt else upper l in
     when (String.eqb o "D") differ >>
     when (String.eqb o "Z") (print "Run command 'fg' to continue" >> sigstop) >>
     when (String.eqb o "M")
          (_merge_conf_files run_tool environ_MERGE self conf other) >>
     if in_list o ["Y"; "I"; "N"; "O"; "S"] then ret (o, inp)
     else choice_loop prompt dflt differ self conf other inp)
      (shown self prompt conf other w).
Proof.
  intros Hc Ho. cbn [choice_loop].
  rewrite (bind_ok _ _ _ _ _ (ls_conf_file_present self _ _ _ Hc Ho)).
  unfold bind at 1. unfold print at 1, emit at 1.
  rewrite (bind_ok _ _ _ _ _ (read_choice_cons l inp _)).
  reflexivity.
Qed.

Lemma in_list_cons_false x y l :
  in_list x (y :: l) = false -> String.eqb x y = false /\ in_list x l = false.
Proof. unfold in_list. cbn [existsb]. apply orb_false_iff. Qed.

(** X10.  An ASCII line that is neither empty nor one of the nine
    letters, in either case, is no answer: the listing, the menu and the
    question are shown, nothing else happens, and the loop goes on with
    the next line. *)
Theorem unknown_choice_asks_again self conf other line inp w :
  is_Some (fs w !! conf) -> is_Some (fs w !! other) ->
  is_ascii line = true ->
  in_list (upper line)
    [EmptyString; "Y"; "I"; "N"; "O"; "S"; "D"; "Z"; "M"] = false ->
  rpmnew_loop run_tool environ_MERGE self conf other (line :: inp) w
  = rpmnew_loop run_tool environ_MERGE self conf other inp
      (shown self rpmnew_prompt conf other w) /\
  rpmsave_loop run_tool environ_MERGE self conf other (line :: inp) w
  = rpmsave_loop run_tool environ_MERGE self conf other inp
      (shown self rpmsave_prompt conf other w).
Proof.
  intros Hc Ho _ Hno.
  apply in_list_cons_false in Hno as [He Hno].
  assert (Hfin : in_list (upper line) ["Y"; "I"; "N"; "O"; "S"] = false).
  { unfold in_list in *. cbn [existsb] in *.
    repeat (apply orb_false_iff in Hno as [? Hno]).
    repeat (apply orb_false_iff; split); assumption. }
  do 5 (apply in_list_cons_false in Hno as [_ Hno]).
  apply in_list_cons_false in Hno as [Hd Hno].
  apply in_list_cons_false in Hno as [Hz Hno].
  apply in_list_cons_false in Hno as [Hm _].
  rewrite !rpmnew_loop_choice, !rpmsave_loop_choice.
  rewrite !choice_loop_cons by assumption. cbv zeta.
  rewrite He, Hd, Hz, Hm, Hfin. split; reflexivity.
Qed.

(** X11.  [D] shows the differences and returns to the prompt, the
    filesystem as it was.  The two templates diff in opposite
    directions: base against variant for a new variant, variant against
    base for a saved one. *)
Theorem diff_choice_direction self conf other line inp w dc tc dv tv :
  fs w !! conf = Some (Reg dc tc) ->
  fs w !! other = Some (Reg dv tv) ->
  upper line = "D" ->
  rpmnew_loop run_tool environ_MERGE self conf other (line :: inp) w
  = rpmnew_loop run_tool environ_MERGE self conf other inp
      (add_out (Pager conf other dc dv) (shown self rpmnew_prompt conf other w)) /\
  rpmsave_loop run_tool environ_MERGE self conf other (line :: inp) w
  = rpmsave_loop run_tool environ_MERGE self conf other inp
      (add_out (Pager other conf dv dc) (shown self rpmsave_prompt conf other w)).
Proof.
  intros Hc Ho Hline.
  assert (Hic : is_Some (fs w !! conf)) by eauto.
  assert (Hio : is_Some (fs w !! other)) by eauto.
  assert (Hshow : forall f1 f2 d1 t1 d2 t2 w0,
             fs w0 !! f1 = Some (Reg d1 t1) -> fs w0 !! f2 = Some (Reg d2 t2) ->
             show_diff f1 f2 w0 = Ok tt (add_out (Pager f1 f2 d1 d2) w0)).
  { intros f1 f2 d1 t1 d2 t2 w0 H1 H2. unfold show_diff, bind, os_stat.
    now rewrite (stat_regular _ _ _ _ H1), (stat_regular _ _ _ _ H2). }
  rewrite !rpmnew_loop_choice, !rpmsave_loop_choice.
  rewrite !choice_loop_cons by assumption. cbv zeta. rewrite Hline.
  cbn [String.eqb Ascii.eqb Bool.eqb in_list existsb orb andb when].
  split.
  - rewrite (bind_ok _ _ _ _ _
               (Hshow conf other dc tc dv tv (shown self rpmnew_prompt conf other w) Hc Ho)).
    reflexivity.
  - rewrite (bind_ok _ _ _ _ _
               (Hshow other conf dv tv dc tc (shown self rpmsave_prompt conf other w) Ho Hc)).
    reflexivity.
Qed.

(** X12.  [Z] prints the hint, stops the process and, once it is
    resumed, returns to the prompt with the files looked up anew: the
    loop goes on with the next line, the filesystem as it was. *)
Theorem stop_choice_asks_again self conf other line inp w :
  is_Some (fs w !! conf) -> is_Some (fs w !! other) ->
  upper line = "Z" ->
  let resumed prompt :=
    add_out Stopped
      (add_out (Print "Run command 'fg' to continue")
         (shown self prompt conf other w)) in
  rpmnew_loop run_tool environ_MERGE self conf other (line :: inp) w
  = rpmnew_loop run_tool environ_MERGE self conf other inp (resumed rpmnew_prompt) /\
  rpmsave_loop run_tool environ_MERGE self conf other (line :: inp) w
  = rpmsave_loop run_tool environ_MERGE self conf other inp (resumed rpmsave_prompt).
Proof.
  intros Hc Ho Hline resumed. subst resumed.
  rewrite !rpmnew_loop_choice, !rpmsave_loop_choice.
  rewrite !choice_loop_cons by assumption. cbv zeta. rewrite Hline.
  split; reflexivity.
Qed.

Lemma upper_ascii_idem c : upper_ascii (upper_ascii c) = upper_ascii c.
Proof. destruct c as [[] [] [] [] [] [] [] []]; reflexivity. Qed.

Lemma upper_idem s : upper (upper s) = upper s.
Proof.
  induction s as [|c s IH]; [reflexivity|].
  cbn [upper]. now rewrite upper_ascii_idem, IH.
Qed.

(** X13.  The answers are read without regard to case: at the two
    prompts and at the confirmation of the scanner a line stands for its
    upper-case form. *)
Theorem answers_ignore_case self conf other line inp w :
  rpmnew_loop run_tool environ_MERGE self conf other (line :: inp) w
  = rpmnew_loop run_tool environ_MERGE self conf other (upper line :: inp) w /\
  rpmsave_loop run_tool environ_MERGE self conf other (line :: inp) w
  = rpmsave_loop run_tool environ_MERGE self conf other (upper line :: inp) w /\
  ask_delete (line :: inp) w = ask_delete (upper line :: inp) w.
Proof.
  assert (Hloop : forall prompt dflt differ,
             choice_loop prompt dflt differ self conf other (line :: inp) w
             = choice_loop prompt dflt differ self conf other (upper line :: inp) w).
  { intros prompt dflt differ. cbn [choice_loop].
    apply bind_congr; [reflexivity|intros [] w1].
    apply bind_congr; [reflexivity|intros [] w2].
    rewrite (bind_ok _ _ _ _ _ (read_choice_cons line inp w2)).
    rewrite (bind_ok _ _ _ _ _ (read_choice_cons (upper line) inp w2)).
    now rewrite upper_idem. }
  rewrite !rpmnew_loop_choice, !rpmsave_loop_choice.
  split; [apply Hloop|]. split; [apply Hloop|].
  assert (Hf : forall l, flush_input "Delete these files (Y/n): " (l :: inp) w
                         = Ok l (add_out (Ask "Delete these files (Y/n): ") w))
    by reflexivity.
  cbn [ask_delete]. rewrite !(bind_ok _ _ _ _ _ (Hf _)).
  now rewrite upper_idem.
Qed.

(** ** Further properties of the merge dispatcher *)

Lemma check_call_missing argv w :
  run_tool argv (fs w) = ToolMissing ->
  check_call run_tool argv w = Raise FileNotFoundError w.
Proof. intros H. unfold check_call. now rewrite H. Qed.

Lemma check_call_exit argv w status m' :
  run_tool argv (fs w) = ToolExit status m' ->
  check_call run_tool argv w
  = (if (status =? 0)%Z then Ok tt else Raise CalledProcessError)
      (add_out (Spawned argv) (set_fs m' w)).
Proof. intros H. unfold check_call. rewrite H. now destruct (status =? 0)%Z. Qed.

(** X14.  Without a usable frontend [_merge_conf_files] ends the
    program with exit status 2 before anything is run: when the frontend
    named is none of the six the dispatcher knows (the [MERGE] variable
    is not looked at then), and when it is [env] or not given while
    [MERGE] is not set. *)
Theorem merge_without_frontend self conf other w :
  (exists f, frontend self = Some f /\
             ~ In f ["vimdiff"; "gvimdiff"; "meld"; "diffuse"; "kdiff3"; "env"]) \/
  ((frontend self = None \/ frontend self = Some "env") /\ environ_MERGE = None) ->
  _merge_conf_files run_tool environ_MERGE self conf other w
  = Raise (SystemExit 2)
      (add_out (LogError "You did not selected any frontend for merge") w).
Proof.
  intros H. unfold _merge_conf_files, is_frontend.
  destruct H as [(f & Hf & Hno)|[Hf Henv]].
  - rewrite Hf. cbn [In] in Hno.
    assert (Hneq : forall s, f <> s -> String.eqb f s = false)
      by (intros s; apply String.eqb_neq).
    rewrite !Hneq by (intros ->; tauto).
    replace (bool_decide (Some f = None)) with false
      by (symmetry; now apply bool_decide_eq_false).
    reflexivity.
  - rewrite Henv.
    replace (bool_decide (@None string <> None)) with false
      by (symmetry; apply bool_decide_eq_false; tauto).
    destruct Hf as [-> | ->]; cbn; rewrite ?andb_false_r; reflexivity.
Qed.

Lemma check_call_denied argv w :
  run_tool argv (fs w) = ToolDenied ->
  check_call run_tool argv w = Raise PermissionError w.
Proof. intros H. unfold check_call. now rewrite H. Qed.

(** X15.  When the command of the selected frontend does not exist,
    asking for a merge ends the program with exit status 4, the error
    text on standard error and nothing else done; this holds for each of
    the five named frontends and for the tool named by [MERGE].  When
    the command is there but cannot be executed, [PermissionError]
    leaves [_merge_conf_files]: only [FileNotFoundError] is caught. *)
Theorem merge_tool_missing self conf other w :
  (forall f,
     frontend self = Some f ->
     In f ["vimdiff"; "gvimdiff"; "meld"; "diffuse"; "kdiff3"] ->
     let argv := if String.eqb f "kdiff3"
                 then ["/usr/bin/kdiff3"; conf; other; "-o"; conf]
                 else ["/usr/bin/" +++ f; conf; other] in
     (run_tool argv (fs w) = ToolMissing ->
      _merge_conf_files run_tool environ_MERGE self conf other w
      = Raise (SystemExit 4)
          (add_out (Stderr ("No such file or directory" +++ nl)) w)) /\
     (run_tool argv (fs w) = ToolDenied ->
      _merge_conf_files run_tool environ_MERGE self conf other w
      = Raise PermissionError w)) /\
  (forall tool,
     frontend self = None \/ frontend self = Some "env" ->
     environ_MERGE = Some tool ->
     let shown_tool := add_out (Print ("'" +++ tool +++ "'")) w in
     (run_tool [tool; conf; other] (fs w) = ToolMissing ->
      _merge_conf_files run_tool environ_MERGE self conf other w
      = Raise (SystemExit 4)
          (add_out (Stderr ("No such file or directory" +++ nl)) shown_tool)) /\
     (run_tool [tool; conf; other] (fs w) = ToolDenied ->
      _merge_conf_files run_tool environ_MERGE self conf other w
      = Raise PermissionError shown_tool)).
Proof.
  split.
  - intros f Hf Hin argv. subst argv.
    unfold _merge_conf_files, is_frontend. rewrite Hf.
    destruct Hin as [<-|[<-|[<-|[<-|[<-|[]]]]]];
      cbn [String.eqb Ascii.eqb Bool.eqb orb andb default];
      (split; intros Hrun;
       [unfold catch, bind; erewrite check_call_missing by exact Hrun; reflexivity
       |unfold catch, bind; erewrite check_call_denied by exact Hrun; reflexivity]).
  - intros tool Hf Henv shown_tool. subst shown_tool.
    unfold _merge_conf_files, is_frontend. rewrite Henv.
    replace (bool_decide (Some tool <> None)) with true
      by (symmetry; now apply bool_decide_eq_true).
    destruct Hf as [-> | ->];
      rewrite ?(bool_decide_eq_true_2 (@None string = None)) by reflexivity;
      cbn [String.eqb Ascii.eqb Bool.eqb orb andb default];
      (split; intros Hrun; unfold catch at 1;
       rewrite (bind_ok _ _ _ _ _ (print_ok _ _));
       [erewrite check_call_missing by exact Hrun
       |erewrite check_call_denied by exact Hrun]; reflexivity).
Qed.

(** X16.  A merge tool that ends with a non-zero status: for [diffuse]
    and [kdiff3] the status is caught, [Files not merged.] is printed
    and the call returns, nothing removed; for [vimdiff], [gvimdiff],
    [meld] and the tool named by [MERGE] it is not caught, and
    [CalledProcessError] leaves [_merge_conf_files]. *)
Theorem merge_failure_by_frontend self conf other w status m' :
  status <> 0%Z ->
  (forall argv, run_tool argv (fs w) = ToolExit status m') ->
  let ran argv w0 := add_out (Spawned argv) (set_fs m' w0) in
  (frontend self = Some "diffuse" ->
   _merge_conf_files run_tool environ_MERGE self conf other w
   = Ok tt (add_out (Print "Files not merged.")
              (ran ["/usr/bin/diffuse"; conf; other] w))) /\
  (frontend self = Some "kdiff3" ->
   _merge_conf_files run_tool environ_MERGE self conf other w
   = Ok tt (add_out (Print "Files not merged.")
              (ran ["/usr/bin/kdiff3"; conf; other; "-o"; conf] w))) /\
  (forall f, frontend self = Some f -> In f ["vimdiff"; "gvimdiff"; "meld"] ->
   _merge_conf_files run_tool environ_MERGE self conf other w
   = Raise CalledProcessError (ran ["/usr/bin/" +++ f; conf; other] w)) /\
  (forall tool, frontend self = None \/ frontend self = Some "env" ->
   environ_MERGE = Some tool ->
   _merge_conf_files run_tool environ_MERGE self conf other w
   = Raise CalledProcessError
       (ran [tool; conf; other] (add_out (Print ("'" +++ tool +++ "'")) w))).
Proof.
  intros Hst Hrun ran. subst ran.
  assert (Hz : (status =? 0)%Z = false) by now apply Z.eqb_neq.
  assert (Hcc : forall argv w0, fs w0 = fs w ->
             check_call run_tool argv w0
             = Raise CalledProcessError (add_out (Spawned argv) (set_fs m' w0))).
  { intros argv w0 E. rewrite (check_call_exit argv w0 status m'); [now rewrite Hz|].
    rewrite E. apply Hrun. }
  unfold _merge_conf_files, is_frontend.
  split; [|split; [|split]].
  - intros ->. cbn [String.eqb Ascii.eqb Bool.eqb orb andb].
    unfold catch at 1. unfold catch at 1. rewrite Hcc by reflexivity. reflexivity.
  - intros ->. cbn [String.eqb Ascii.eqb Bool.eqb orb andb].
    unfold catch at 1. unfold catch at 1. unfold bind at 1.
    rewrite Hcc by reflexivity. reflexivity.
  - intros f -> Hf.
    replace (String.eqb f "vimdiff" || String.eqb f "gvimdiff" || String.eqb f "meld")
      with true
      by (destruct Hf as [<-|[<-|[<-|[]]]]; reflexivity).
    unfold catch at 1. cbn [default]. rewrite Hcc by reflexivity. reflexivity.
  - intros tool Hf ->.
    replace (bool_decide (Some tool <> None)) with true
      by (symmetry; now apply bool_decide_eq_true).
    destruct Hf as [-> | ->];
      rewrite ?(bool_decide_eq_true_2 (@None string = None)) by reflexivity;
      cbn [String.eqb Ascii.eqb Bool.eqb orb andb default];
      unfold catch at 1; rewrite (bind_ok _ _ _ _ _ (print_ok _ _));
      rewrite Hcc by reflexivity; reflexivity.
Qed.

Lemma choice_loop_variant_gone prompt dflt differ self conf other inp w :
  fs w !! other = None ->
  choice_loop prompt dflt differ self conf other inp w
  = Raise CalledProcessError
      (add_out (Print ("Configuration file '" +++ conf +++ "'")) w).
Proof.
  intros Ho.
  assert (Hls : _ls_conf_file self conf other w
                = Raise CalledProcessError
                    (add_out (Print ("Configuration file '" +++ conf +++ "'")) w)).
  { unfold _ls_conf_file, bind, print, emit, get_fs, lexists. cbn [fs add_out].
    rewrite Ho, andb_false_r. reflexivity. }
  destruct inp; cbn [choice_loop]; now apply bind_raise.
Qed.

Lemma merge_kdiff3_success self conf other w m' nd1 nd2 :
  debug self = false ->
  frontend self = Some "kdiff3" ->
  run_tool ["/usr/bin/kdiff3"; conf; other; "-o"; conf] (fs w) = ToolExit 0 m' ->
  m' !! other = Some nd1 -> nd1 <> Dir ->
  delete other m' !! (conf +++ ".orig") = Some nd2 -> nd2 <> Dir ->
  _merge_conf_files run_tool environ_MERGE self conf other w
  = Ok tt (set_fs (delete (conf +++ ".orig") (delete other m'))
             (add_out (Spawned ["/usr/bin/kdiff3"; conf; other; "-o"; conf]) w)).
Proof.
  intros Hdbg Hf Hrun Ho Hd1 Horig Hd2. unfold _merge_conf_files, is_frontend.
  rewrite Hf. cbn [String.eqb Ascii.eqb Bool.eqb orb andb].
  unfold catch at 1. unfold catch at 1.
  rewrite (bind_ok _ _ _ _ _ (check_call_exit _ _ _ _ Hrun)).
  cbn [Z.eqb].
  set (w1 := add_out _ (set_fs m' w)).
  assert (H1 : _remove self other w1 = Ok tt (set_fs (delete other m') w1)).
  { rewrite remove_plain by done. now apply (os_unlink_present other w1 nd1). }
  rewrite (bind_ok _ _ _ _ _ H1).
  rewrite remove_plain by done.
  rewrite (os_unlink_present _ _ nd2); [reflexivity|exact Horig|exact Hd2].
Qed.

(** X17.  After a merge with [kdiff3] that succeeds outside dry-run
    mode the variant and the backup [conf.orig] of the tool are
    unlinked; [M] does not end the loop, and its next round lists a
    variant that is gone: the prompt is not reached again, and
    [CalledProcessError] leaves both loops whatever the rest of the
    input is. *)
Theorem kdiff3_merge_then_listing_fails self conf other line inp w m' nd1 nd2 :
  debug self = false ->
  frontend self = Some "kdiff3" ->
  is_Some (fs w !! conf) -> is_Some (fs w !! other) ->
  upper line = "M" ->
  run_tool ["/usr/bin/kdiff3"; conf; other; "-o"; conf] (fs w) = ToolExit 0 m' ->
  m' !! other = Some nd1 -> nd1 <> Dir ->
  other <> conf +++ ".orig" ->
  m' !! (conf +++ ".orig") = Some nd2 -> nd2 <> Dir ->
  let merged prompt :=
    add_out (Print ("Configuration file '" +++ conf +++ "'"))
      (set_fs (delete (conf +++ ".orig") (delete other m'))
         (add_out (Spawned ["/usr/bin/kdiff3"; conf; other; "-o"; conf])
            (shown self prompt conf other w))) in
  rpmnew_loop run_tool environ_MERGE self conf other (line :: inp) w
  = Raise CalledProcessError (merged rpmnew_prompt) /\
  rpmsave_loop run_tool environ_MERGE self conf other (line :: inp) w
  = Raise CalledProcessError (merged rpmsave_prompt).
Proof.
  intros Hdbg Hf Hc Ho Hline Hrun Hv Hd1 Hne Horig Hd2 merged. subst merged.
  assert (Horig' : delete other m' !! (conf +++ ".orig") = Some nd2)
    by (rewrite lookup_delete_ne; [exact Horig|exact Hne]).
  assert (Hloop : forall prompt dflt differ,
             dflt <> "M" -> dflt <> "D" -> dflt <> "Z" ->
             choice_loop prompt dflt differ self conf other (line :: inp) w
             = Raise CalledProcessError
                 (add_out (Print ("Configuration file '" +++ conf +++ "'"))
                    (set_fs (delete (conf +++ ".orig") (delete other m'))
                       (add_out (Spawned ["/usr/bin/kdiff3"; conf; other; "-o"; conf])
                          (shown self prompt conf other w))))).
  { intros prompt dflt differ _ _ _.
    rewrite choice_loop_cons by assumption. cbv zeta. rewrite Hline.
    cbn [String.eqb Ascii.eqb Bool.eqb in_list existsb orb andb when].
    unfold bind at 1. cbn [ret]. unfold bind at 1. cbn [ret].
    rewrite (bind_ok _ _ _ _ _
               (merge_kdiff3_success self conf other (shown self prompt conf other w)
                  m' nd1 nd2 Hdbg Hf Hrun Hv Hd1 Horig' Hd2)).
    apply choice_loop_variant_gone. cbn [fs set_fs].
    rewrite lookup_delete_ne by congruence. apply lookup_delete_eq. }
  rewrite rpmnew_loop_choice, rpmsave_loop_choice.
  split; apply Hloop; discriminate.
Qed.

(** X18.  When [kdiff3] succeeds outside dry-run mode without leaving a
    backup [conf.orig], the variant is unlinked first, the missing
    backup then raises [FileNotFoundError] inside the dispatcher, and
    the program ends with exit status 4, the variant gone. *)
Theorem kdiff3_without_backup_exits self conf other w m' nd :
  debug self = false ->
  frontend self = Some "kdiff3" ->
  run_tool ["/usr/bin/kdiff3"; conf; other; "-o"; conf] (fs w) = ToolExit 0 m' ->
  m' !! other = Some nd -> nd <> Dir ->
  other <> conf +++ ".orig" ->
  m' !! (conf +++ ".orig") = None ->
  _merge_conf_files run_tool environ_MERGE self conf other w
  = Raise (SystemExit 4)
      (add_out (Stderr ("No such file or directory" +++ nl))
         (set_fs (delete other m')
            (add_out (Spawned ["/usr/bin/kdiff3"; conf; other; "-o"; conf]) w))).
Proof.
  intros Hdbg Hf Hrun Hv Hd Hne Horig. unfold _merge_conf_files, is_frontend.
  rewrite Hf. cbn [String.eqb Ascii.eqb Bool.eqb orb andb].
  unfold catch at 1. unfold catch at 1.
  rewrite (bind_ok _ _ _ _ _ (check_call_exit _ _ _ _ Hrun)).
  cbn [Z.eqb].
  set (w1 := add_out _ (set_fs m' w)).
  assert (H1 : _remove self other w1 = Ok tt (set_fs (delete other m') w1)).
  { rewrite remove_plain by done. now apply (os_unlink_present other w1 nd). }
  rewrite (bind_ok _ _ _ _ _ H1).
  rewrite remove_plain by done. unfold os_unlink. cbn [fs set_fs].
  rewrite lookup_delete_ne by congruence. rewrite Horig. reflexivity.
Qed.

(** ** Further properties of the orphan scanner *)

Lemma for_each_app {A} (body : A -> M unit) l1 l2 : forall w,
  for_each (l1 ++ l2) body w = (for_each l1 body >> for_each l2 body) w.
Proof.
  induction l1 as [|x l1 IH]; intros w; [reflexivity|].
  cbn [for_each app]. unfold bind.
  destruct (body x w) as [[] w1|e w1]; [|reflexivity].
  rewrite IH. reflexivity.
Qed.



Lemma substring_split n : forall p,
  String.substring 0 n p +++ String.substring n (String.length p - n) p = p.
Proof.
  induction n as [|n IH]; intros p.
  - rewrite Nat.sub_0_r, substring_all. now destruct p.
  - destruct p as [|c p]; [reflexivity|].
    cbn [String.substring String.length Nat.sub].
    change (String c ?a +++ ?b) with (String c (a +++ b)).
    now rewrite IH.
Qed.

Lemma splitext_parts l : fst (splitext l) +++ snd (splitext l) = l.
Proof.
  unfold splitext.
  destruct ((rfind "." l >? rfind "/" l) && has_non_dot _ _ l); cbn [fst snd].
  - unfold slice_to, slice_from. apply substring_split.
  - induction l as [|c l IH]; [reflexivity|].
    change (String c l +++ EmptyString) with (String c (l +++ EmptyString)).
    now rewrite IH.
Qed.

(** X21.  [os.path.splitext] cuts a path in two parts that give the
    path back.  So for a path that passes the test of the scan, the path
    [_clean_orphan_file] asks the owner of is that path without its
    final [.rpmnew] or [.rpmsave]: whatever the lookup is, its answer
    for that shorter path alone decides what [_clean_orphan_file]
    returns. *)
Theorem orphan_query_strips_suffix m l :
  fst (splitext l) +++ snd (splitext l) = l /\
  (in_list (snd (splitext l)) [".rpmnew"; ".rpmsave"] = true ->
   exists orig,
     (l = orig +++ ".rpmnew" \/ l = orig +++ ".rpmsave") /\
     forall qf : gmap string node -> string -> option string,
       _clean_orphan_file qf m l
       = match qf m orig with
         | Some package_merge => ((Some package_merge, orig, l), None)
         | None => ((None, orig, l), Some l)
         end).
Proof.
  split; [apply splitext_parts|]. intros Ht.
  exists (fst (splitext l)). split; [|reflexivity].
  pose proof (splitext_parts l) as Hrt.
  unfold in_list in Ht. cbn [existsb] in Ht.
  rewrite !orb_true_iff, !String.eqb_eq in Ht.
  destruct Ht as [E|[E|E]]; [| |discriminate].
  - left. now rewrite <- E.
  - right. now rewrite <- E.
Qed.

(** X22.  Adopting a variant over a base that is a symbolic link to a
    regular file writes through the link: the file the link points to
    takes the bytes and the modification time of the variant, the link
    stays, and the variant is unlinked. *)
Theorem overwrite_through_symlink self conf other target w d t d' t' :
  debug self = false ->
  other <> conf -> other <> target ->
  fs w !! other = Some (Reg d t) ->
  fs w !! conf = Some (Lnk target) ->
  fs w !! target = Some (Reg d' t') ->
  _overwrite self other conf w
  = Ok tt (set_fs (delete other (<[target := Reg d t]> (fs w))) w).
Proof.
  intros Hdbg Hne1 Hne2 Ho Hc Ht. unfold _overwrite. rewrite Hdbg.
  assert (Hst : stat (fs w) conf = inr (target, Reg d' t')).
  { unfold stat, MAXSYMLINKS. cbn [follow]. rewrite Hc, Ht. reflexivity. }
  assert (Hcp : _copy other conf w = Ok tt (set_fs (<[target := Reg d t]> (fs w)) w)).
  { unfold _copy, bind, get_fs, islink. rewrite Ho.
    unfold shutil_copy2, isdir. cbv zeta. rewrite Hst. cbv iota beta.
    rewrite Hst, (stat_regular _ _ _ _ Ho).
    apply String.eqb_neq in Hne2. rewrite Hne2.
    unfold MAXSYMLINKS. cbn [write_target]. now rewrite Hc, Ht. }
  rewrite (bind_ok _ _ _ _ _ Hcp). rewrite remove_plain by done.
  rewrite (os_unlink_present other _ (Reg d t)); [reflexivity| |discriminate].
  cbn [fs set_fs]. rewrite lookup_insert_ne by congruence. exact Ho.
Qed.

(** ** The directories the scanner walks *)

Lemma append_cons c a b : String c a +++ b = String c (a +++ b).
Proof. reflexivity. Qed.

Lemma append_nil b : EmptyString +++ b = b.
Proof. reflexivity. Qed.

Lemma has_sep_app a b : has_sep (a +++ b) = has_sep a || has_sep b.
Proof.
  induction a as [|c a IH]; [reflexivity|].
  change (String c a +++ b) with (String c (a +++ b)).
  cbn [has_sep]. now rewrite IH, orb_assoc.
Qed.

(** Two ways of cutting a path at a separator, the second one at its
    last separator. *)
Lemma sep_split a x : forall b r,
  a +++ "/" +++ x = b +++ "/" +++ r -> has_sep x = false ->
  a = b \/ exists r', a = b +++ "/" +++ r'.
Proof.
  induction a as [|c a IH]; intros [|c' b] r E Hx.
  - now left.
  - exfalso. injection E as _ E. change (EmptyString +++ x) with x in E.
    rewrite E, has_sep_app in Hx.
    cbn in Hx. now rewrite orb_true_r in Hx.
  - right. injection E as -> _. now exists a.
  - injection E as -> E. destruct (IH b r E Hx) as [->|[r' ->]]; [now left|].
    right. now exists r'.
Qed.

Lemma endswith_sep_app a b :
  b <> EmptyString -> endswith_sep (a +++ b) = endswith_sep b.
Proof.
  intros Hb. induction a as [|c a IH]; [reflexivity|].
  change (String c a +++ b) with (String c (a +++ b)).
  cbn [endswith_sep]. destruct (a +++ b) eqn:E; [|exact IH].
  destruct a; [change (b = EmptyString) in E; contradiction|discriminate].
Qed.

Lemma endswith_sep_plain n : has_sep n = false -> endswith_sep n = false.
Proof.
  induction n as [|c n IH]; [reflexivity|]. cbn [has_sep endswith_sep].
  intros H. apply orb_false_iff in H as [Hc Hn]. destruct n; auto.
Qed.

Lemma startswith_sep_plain n : has_sep n = false -> startswith_sep n = false.
Proof.
  destruct n as [|c n]; [reflexivity|]. cbn [has_sep]. intros H.
  apply orb_false_iff in H as [Hc _]. revert Hc.
  destruct c as [[] [] [] [] [] [] [] []]; try reflexivity; discriminate.
Qed.

Lemma plain_name_inv n :
  plain_name n = true -> n <> EmptyString /\ has_sep n = false.
Proof.
  unfold plain_name. intros H. apply andb_true_iff in H as [H1 H2].
  apply negb_true_iff in H1, H2. split; [now apply String.eqb_neq|exact H2].
Qed.

Lemma path_join_plain top n :
  top <> EmptyString -> endswith_sep top = false -> plain_name n = true ->
  path_join top n = top +++ "/" +++ n.
Proof.
  intros Ht He Hn. apply plain_name_inv in Hn as [_ Hn]. unfold path_join.
  rewrite (startswith_sep_plain _ Hn), He.
  apply String.eqb_neq in Ht. now rewrite Ht.
Qed.

Lemma outside_mock_step top n :
  outside_mock top -> plain_name n = true -> keep_dir top n = true ->
  outside_mock (path_join top n).
Proof.
  intros (Hne & Hend & Hout) Hn Hk.
  rewrite (path_join_plain _ _ Hne Hend Hn).
  apply plain_name_inv in Hn as [Hn0 Hn].
  split; [destruct top; [done|discriminate]|]. split.
  - rewrite endswith_sep_app by (destruct n; discriminate).
    destruct n as [|c n']; [done|].
    change (endswith_sep (String c n') = false). now apply endswith_sep_plain.
  - intros [E|[rest E]].
    + change "/var/lib/mock" with ("/var/lib" +++ "/" +++ "mock") in E.
      destruct (sep_split _ _ _ _ E Hn) as [->|[r' ->]].
      * rewrite !append_cons, !append_nil in E. injection E as ->.
        discriminate Hk.
      * rewrite !append_cons, !append_nil in E. injection E as E.
        assert (H : has_sep "mock" = true)
          by (rewrite <- E, has_sep_app; cbn; apply orb_true_r).
        discriminate H.
    + destruct (sep_split _ _ _ _ E Hn) as [->|[r' ->]]; apply Hout.
      * now left.
      * right. now exists r'.
Qed.

Lemma walk_outside_mock : forall t top,
  plain_tree t = true -> outside_mock top ->
  forall triple, In triple (os_walk keep_dir top t) -> outside_mock (fst (fst triple)).
Proof.
  fix IH 1. intros [dirs files] top Hpl Hinv triple Hin.
  cbn [os_walk] in Hin. destruct Hin as [<-|Hin]; [exact Hinv|].
  cbn [plain_tree] in Hpl. revert Hpl Hin.
  induction dirs as [|[n t'] ds IHds]; intros Hpl Hin; [destruct Hin|].
  apply andb_true_iff in Hpl as [Hpl Hds].
  apply andb_true_iff in Hpl as [Hn Ht'].
  apply in_app_or in Hin as [Hin|Hin].
  - destruct (keep_dir top n) eqn:Hk; [|destruct Hin].
    apply (IH t' (path_join top n)); [exact Ht'| |exact Hin].
    now apply outside_mock_step.
  - now apply IHds.
Qed.

Lemma not_var_step top n :
  not_var top -> plain_name n = true -> not_var (path_join top n).
Proof.
  intros (c & s & -> & Hc) Hn. apply plain_name_inv in Hn as [_ Hn].
  unfold path_join. rewrite (startswith_sep_plain _ Hn).
  destruct (String.eqb _ EmptyString || endswith_sep _);
    eexists c, _; split; try exact Hc; reflexivity.
Qed.

Lemma not_var_keep top n : not_var top -> keep_dir top n = true.
Proof.
  intros (c & s & -> & Hc). unfold keep_dir.
  destruct (String.eqb _ "/var/lib") eqn:E; [|reflexivity].
  apply String.eqb_eq in E. injection E as E _. now destruct Hc.
Qed.

Lemma walk_not_var : forall t top,
  plain_tree t = true -> not_var top ->
  os_walk keep_dir top t = os_walk (fun _ _ => true) top t.
Proof.
  fix IH 1. intros [dirs files] top Hpl Hinv.
  cbn [os_walk]. f_equal. cbn [plain_tree] in Hpl. revert Hpl.
  induction dirs as [|[n t'] ds IHds]; intros Hpl; [reflexivity|].
  apply andb_true_iff in Hpl as [Hpl Hds].
  apply andb_true_iff in Hpl as [Hn Ht'].
  rewrite (not_var_keep _ n Hinv), IHds by exact Hds.
  f_equal. apply IH; [exact Ht'|]. now apply not_var_step.
Qed.

(** X23.  The walk skips [/var/lib/mock] and nothing else.  Directory
    names being what a listing gives (not empty, without separator), no
    directory the walk yields from [/var] is [/var/lib/mock] or lies
    below it, and from [/etc] and from [/usr] the walk yields every
    directory of the tree, a [mock] among them. *)
Theorem walk_skips_only_var_lib_mock t :
  plain_tree t = true ->
  (forall root dirs files,
     In (root, dirs, files) (os_walk keep_dir "/var" t) ->
     ~ below "/var/lib/mock" root) /\
  os_walk keep_dir "/etc" t = os_walk (fun _ _ => true) "/etc" t /\
  os_walk keep_dir "/usr" t = os_walk (fun _ _ => true) "/usr" t.
Proof.
  intros Hpl. split; [|split].
  - intros root dirs files Hin.
    assert (H0 : outside_mock "/var").
    { split; [discriminate|]. split; [reflexivity|].
      intros [E|[rest E]]; discriminate E. }
    apply (walk_outside_mock t "/var" Hpl H0 (root, dirs, files) Hin).
  - apply walk_not_var; [exact Hpl|].
    exists "e"%char, "tc". split; [reflexivity|discriminate].
  - apply walk_not_var; [exact Hpl|].
    exists "u"%char, "sr". split; [reflexivity|discriminate].
Qed.

(** ** A variant whose base file is gone *)

Lemma handler_without_base self conf other inp w :
  fs w !! conf = None ->
  handle_rpmnew self conf other inp w = Raise FileNotFoundError w /\
  handle_rpmsave self conf other inp w = Raise FileNotFoundError w.
Proof.
  intros Hc.
  assert (Hcmp : filecmp_cmp conf other w = Raise FileNotFoundError w).
  { unfold filecmp_cmp. apply bind_raise. unfold os_stat, stat, MAXSYMLINKS.
    cbn [follow]. now rewrite Hc. }
  unfold _handle_rpmnew, _handle_rpmsave. split; now apply bind_raise.
Qed.

(** X24.  Outside diff mode, a configuration file that has no entry
    any more while one of its variants is found stops the run: the
    comparison of the pair raises [FileNotFoundError] before anything is
    shown or asked, and nothing is changed. *)
Theorem variant_without_base_raises self conf inp w :
  diff self = false ->
  fs w !! conf = None ->
  os_access (fs w) (conf +++ ".rpmnew") = true \/
  os_access (fs w) (conf +++ ".rpmsave") = true \/
  os_access (fs w) (conf +++ ".rpmorig") = true ->
  conf_file_step self conf inp w = Raise FileNotFoundError w.
Proof.
  intros Hdiff Hc Hany. unfold handle_conf_file. rewrite Hdiff.
  pose proof (fun other => proj1 (handler_without_base self conf other inp w Hc)) as Hnew.
  pose proof (fun other => proj2 (handler_without_base self conf other inp w Hc)) as Hsave.
  unfold bind at 1. cbn [get_fs].
  change (conf +++ "." +++ "rpmnew") with (conf +++ ".rpmnew").
  destruct (os_access (fs w) (conf +++ ".rpmnew")).
  { apply bind_raise. apply bind_raise. apply Hnew. }
  unfold bind at 1. cbn [ret]. unfold bind at 1. cbn [get_fs].
  change (conf +++ "." +++ "rpmsave") with (conf +++ ".rpmsave").
  destruct (os_access (fs w) (conf +++ ".rpmsave")).
  { apply bind_raise. apply bind_raise. apply Hsave. }
  unfold bind at 1. cbn [ret]. unfold bind at 1. cbn [get_fs].
  change (conf +++ "." +++ "rpmorig") with (conf +++ ".rpmorig").
  destruct (os_access (fs w) (conf +++ ".rpmorig")).
  { apply bind_raise. apply Hsave. }
  destruct Hany as [?|[?|?]]; discriminate.
Qed.

(** ** A failing file ends the run *)

Lemma handler_stat_error self conf other inp w e :
  stat (fs w) conf = inl e ->
  handle_rpmnew self conf other inp w = Raise e w /\
  handle_rpmsave self conf other inp w = Raise e w.
Proof.
  intros Hc.
  assert (Hcmp : filecmp_cmp conf other w = Raise e w).
  { unfold filecmp_cmp. apply bind_raise. unfold os_stat. now rewrite Hc. }
  unfold _handle_rpmnew, _handle_rpmsave. split; now apply bind_raise.
Qed.

Lemma conf_file_step_stat_error self conf inp w e :
  diff self = false ->
  stat (fs w) conf = inl e ->
  os_access (fs w) (conf +++ ".rpmnew") = true \/
  os_access (fs w) (conf +++ ".rpmsave") = true \/
  os_access (fs w) (conf +++ ".rpmorig") = true ->
  conf_file_step self conf inp w = Raise e w.
Proof.
  intros Hdiff Hc Hany. unfold handle_conf_file. rewrite Hdiff.
  pose proof (fun other => proj1 (handler_stat_error self conf other inp w e Hc)) as Hnew.
  pose proof (fun other => proj2 (handler_stat_error self conf other inp w e Hc)) as Hsave.
  unfold bind at 1. cbn [get_fs].
  change (conf +++ "." +++ "rpmnew") with (conf +++ ".rpmnew").
  destruct (os_access (fs w) (conf +++ ".rpmnew")).
  { apply bind_raise. apply bind_raise. apply Hnew. }
  unfold bind at 1. cbn [ret]. unfold bind at 1. cbn [get_fs].
  change (conf +++ "." +++ "rpmsave") with (conf +++ ".rpmsave").
  destruct (os_access (fs w) (conf +++ ".rpmsave")).
  { apply bind_raise. apply bind_raise. apply Hsave. }
  unfold bind at 1. cbn [ret]. unfold bind at 1. cbn [get_fs].
  change (conf +++ "." +++ "rpmorig") with (conf +++ ".rpmorig").
  destruct (os_access (fs w) (conf +++ ".rpmorig")).
  { apply bind_raise. apply Hsave. }
  destruct Hany as [?|[?|?]]; discriminate.
Qed.

(** The new variant is the first one [_handle_package] looks for. *)
Lemma conf_file_step_rpmnew_raises self conf inp w e w' :
  diff self = false ->
  os_access (fs w) (conf +++ ".rpmnew") = true ->
  handle_rpmnew self conf (conf +++ ".rpmnew") inp w = Raise e w' ->
  conf_file_step self conf inp w = Raise e w'.
Proof.
  intros Hdiff Hacc Hh. unfold handle_conf_file. rewrite Hdiff.
  unfold bind at 1. cbn [get_fs].
  change (conf +++ "." +++ "rpmnew") with (conf +++ ".rpmnew").
  rewrite Hacc. apply bind_raise. now apply bind_raise.
Qed.

Lemma handler_directory_variant self conf other line rest w r :
  debug self = false ->
  stat (fs w) conf = inr r ->
  fs w !! other = Some Dir ->
  in_list (upper line) ["N"; "O"; EmptyString] = true ->
  handle_rpmnew self conf other (line :: rest) w
  = Raise IsADirectoryError (shown self rpmnew_prompt conf other w).
Proof.
  intros Hdbg Hc Ho Hline.
  assert (Hso : stat (fs w) other = inr (other, Dir))
    by (unfold stat, MAXSYMLINKS; cbn [follow]; now rewrite Ho).
  assert (Hcmp : filecmp_cmp conf other w = Ok false w).
  { unfold filecmp_cmp, bind, os_stat. destruct r as [q nd].
    rewrite Hc, Hso. destruct nd; reflexivity. }
  assert (Hic : is_Some (fs w !! conf)) by (eapply stat_lookup; eauto).
  assert (Hio : is_Some (fs w !! other)) by eauto.
  unfold _handle_rpmnew. rewrite (bind_ok _ _ _ _ _ Hcmp). cbn iota.
  rewrite rpmnew_loop_choice.
  assert (Hl := choice_loop_first rpmnew_prompt "N" (show_diff conf other)
                  self conf other line rest w Hic Hio).
  cbn zeta in Hl.
  set (o := if String.eqb (upper line) EmptyString then "N" else upper line) in *.
  assert (Ho' : o = "N" \/ o = "O").
  { unfold o, in_list in *. cbn [existsb] in Hline.
    rewrite !orb_true_iff, !String.eqb_eq in Hline.
    destruct Hline as [E|[E|[E|E]]]; try discriminate;
      rewrite E; cbn; auto. }
  rewrite (bind_ok _ _ _ _ _ (Hl ltac:(destruct Ho' as [-> | ->]; reflexivity))).
  replace (in_list o ["N"; "O"]) with true
    by (destruct Ho' as [-> | ->]; reflexivity).
  cbn [when]. apply bind_raise.
  rewrite remove_plain by done. unfold os_unlink.
  change (fs (shown self rpmnew_prompt conf other w)) with (fs w).
  now rewrite Ho.
Qed.

Lemma merge_viewer_exit self conf other w f m' :
  frontend self = Some f ->
  In f ["vimdiff"; "gvimdiff"; "meld"] ->
  run_tool ["/usr/bin/" +++ f; conf; other] (fs w) = ToolExit 0 m' ->
  _merge_conf_files run_tool environ_MERGE self conf other w
  = Ok tt (add_out (Spawned ["/usr/bin/" +++ f; conf; other]) (set_fs m' w)).
Proof.
  intros Hf Hin Hrun. unfold _merge_conf_files, is_frontend. rewrite Hf.
  replace (String.eqb f "vimdiff" || String.eqb f "gvimdiff" || String.eqb f "meld")
    with true
    by (destruct Hin as [<-|[<-|[<-|[]]]]; reflexivity).
  unfold catch at 1.
  now rewrite (check_call_exit
                 ["/usr/bin/" +++ default EmptyString (Some f); conf; other]
                 w 0 m' Hrun).
Qed.

Lemma filecmp_cmp_access f1 f2 w b w' :
  filecmp_cmp f1 f2 w = Ok b w' -> os_access (fs w) f2 = true.
Proof.
  unfold filecmp_cmp, bind, os_stat, os_access.
  destruct (stat (fs w) f1) as [e|[q n]]; [discriminate|].
  destruct (stat (fs w) f2) as [e|[q' n']]; [discriminate|reflexivity].
Qed.

Lemma handler_variant_vanishes self conf other line rest w f m' :
  frontend self = Some f ->
  In f ["vimdiff"; "gvimdiff"; "meld"] ->
  filecmp_cmp conf other w = Ok false w ->
  upper line = "M" ->
  run_tool ["/usr/bin/" +++ f; conf; other] (fs w) = ToolExit 0 m' ->
  m' !! other = None ->
  handle_rpmnew self conf other (line :: rest) w
  = Raise CalledProcessError
      (add_out (Print ("Configuration file '" +++ conf +++ "'"))
         (add_out (Spawned ["/usr/bin/" +++ f; conf; other])
            (set_fs m' (shown self rpmnew_prompt conf other w)))).
Proof.
  intros Hf Hin Hcmp Hline Hrun Hgone.
  destruct (filecmp_cmp_ok _ _ _ _ _ Hcmp) as (_ & Hic & Hio).
  unfold _handle_rpmnew. rewrite (bind_ok _ _ _ _ _ Hcmp). cbn iota.
  apply bind_raise. rewrite rpmnew_loop_choice.
  rewrite choice_loop_cons by assumption. cbv zeta. rewrite Hline.
  cbn [String.eqb Ascii.eqb Bool.eqb in_list existsb orb andb when].
  unfold bind at 1. cbn [ret]. unfold bind at 1. cbn [ret].
  rewrite (bind_ok _ _ _ _ _
             (merge_viewer_exit self conf other (shown self rpmnew_prompt conf other w)
                f m' Hf Hin Hrun)).
  apply choice_loop_variant_gone. exact Hgone.
Qed.

(** C5, as amended.  The failure of a filesystem call made for one
    configuration file is not kept to that file.  Let the files before
    [c] be handled, outside diff mode.  When the base [c] cannot be
    stat'ed while a variant of it is found (it is gone, or it is a loop
    of symbolic links), when the new variant is a directory and the
    answer keeps the base (outside dry-run mode), and when the new
    variant is gone after the merge tool has run, the exception of the
    failing call ([os.stat], [os.unlink], the listing) leaves the
    handler, [_handle_package] and [run]: the run ends there, in the
    world the failing call left, whatever files come after [c] and
    whether or not orphans were to be looked for. *)
Theorem io_failure_aborts_run self pre c post inp w inp1 w1 :
  diff self = false ->
  all_confs self = (pre ++ c :: post)%list ->
  for_each_reading pre (handle_conf_file run_tool environ_MERGE self) inp w
  = Ok inp1 w1 ->
  (forall e,
     stat (fs w1) c = inl e ->
     os_access (fs w1) (c +++ ".rpmnew") = true \/
     os_access (fs w1) (c +++ ".rpmsave") = true \/
     os_access (fs w1) (c +++ ".rpmorig") = true ->
     run_it self inp w = Raise e w1) /\
  (forall line rest r,
     debug self = false ->
     stat (fs w1) c = inr r ->
     fs w1 !! (c +++ ".rpmnew") = Some Dir ->
     inp1 = line :: rest ->
     in_list (upper line) ["N"; "O"; EmptyString] = true ->
     run_it self inp w
     = Raise IsADirectoryError (shown self rpmnew_prompt c (c +++ ".rpmnew") w1)) /\
  (forall line rest f m',
     frontend self = Some f ->
     In f ["vimdiff"; "gvimdiff"; "meld"] ->
     filecmp_cmp c (c +++ ".rpmnew") w1 = Ok false w1 ->
     inp1 = line :: rest ->
     upper line = "M" ->
     run_tool ["/usr/bin/" +++ f; c; c +++ ".rpmnew"] (fs w1) = ToolExit 0 m' ->
     m' !! (c +++ ".rpmnew") = None ->
     run_it self inp w
     = Raise CalledProcessError
         (add_out (Print ("Configuration file '" +++ c +++ "'"))
            (add_out (Spawned ["/usr/bin/" +++ f; c; c +++ ".rpmnew"])
               (set_fs m' (shown self rpmnew_prompt c (c +++ ".rpmnew") w1))))).
Proof.
  intros Hdiff Hall Hpre. split; [|split].
  - intros e Hst Hany.
    apply (run_aborts_at self pre c post inp w inp1 w1 e w1 Hall Hpre).
    now apply conf_file_step_stat_error.
  - intros line rest r Hdbg Hst Hdir -> Hline.
    apply (run_aborts_at self pre c post inp w (line :: rest) w1 _ _ Hall Hpre).
    apply conf_file_step_rpmnew_raises; [exact Hdiff| |].
    + unfold os_access, stat, MAXSYMLINKS. cbn [follow]. now rewrite Hdir.
    + now apply (handler_directory_variant self c _ line rest w1 r).
  - intros line rest f m' Hf Hin Hcmp -> Hline Hrun Hgone.
    apply (run_aborts_at self pre c post inp w (line :: rest) w1 _ _ Hall Hpre).
    apply conf_file_step_rpmnew_raises; [exact Hdiff| |].
    + eapply filecmp_cmp_access; eauto.
    + now apply handler_variant_vanishes.
Qed.

(** ** The scanner, from its loops to what it shows *)

Lemma scan_topdirs_ok w :
  scan_topdirs rpm_qf os_tree w = Ok (scan_all (fs w)) (logged w).
Proof. exact (scan_topdirs_scan_all (fun acc => ret acc) w). Qed.

Lemma walk_found m top root dirs files name :
  In top ["/etc"; "/var"; "/usr"] ->
  In (root, dirs, files) (os_walk keep_dir top (os_tree m top)) ->
  In name files ->
  In (path_join root name) (found m).
Proof.
  intros Htop Htriple Hname.
  assert (Hw : In (path_join root name) (walked m top)).
  { unfold walked. apply in_flat_map. exists (root, dirs, files).
    split; [exact Htriple|]. cbn [fst snd]. now apply in_map. }
  unfold found. cbn [In] in Htop.
  destruct Htop as [<-|[<-|[<-|[]]]]; rewrite !in_app_iff; auto.
Qed.


(** *** What the scanner shows, exactly *)

Lemma remove_all_dry_lines self ps : forall w,
  debug self = true ->
  for_each ps (_remove self) w
  = Ok tt (add_outs (map (fun p => Print ("rm " +++ p)) ps) w).
Proof.
  induction ps as [|p ps IH]; intros w Hd; cbn [for_each map].
  - now rewrite add_outs_nil.
  - rewrite (bind_ok _ _ _ _ _ (remove_dry self p w Hd)), IH by done.
    now rewrite add_outs_cons.
Qed.

Lemma remove_all_plain_out self ps : forall w,
  debug self = false ->
  out (world_of (for_each ps (_remove self) w)) = out w.
Proof.
  induction ps as [|p ps IH]; intros w Hd; cbn [for_each]; [reflexivity|].
  unfold bind. rewrite remove_plain by done. unfold os_unlink.
  destruct (fs w !! p) as [[| |]|]; try reflexivity; now rewrite IH.
Qed.

Lemma clean_orphan_output self inp w :
  out (world_of (_clean_orphan rpm_qf os_tree self inp w))
  = (out (logged w) ++ report_lines (scan_all (fs w))
     ++ confirmation self inp (snd (scan_all (fs w))))%list.
Proof.
  rewrite clean_orphan_report. unfold scan_all.
  rewrite orphan_report_answer. cbn zeta. unfold confirmation.
  set (acc := classify (fs w) (found (fs w))).
  destruct (snd acc) as [|q del].
  { cbn [world_of out add_outs]. now rewrite app_nil_r. }
  destruct (first_answer inp) as [[a rest]|].
  - destruct (in_list a ["Y"; EmptyString]); cbn [when andb].
    + destruct (debug self) eqn:Hd.
      * rewrite (bind_ok _ _ _ _ _ (remove_all_dry_lines self (q :: del) _ Hd)).
        cbn [world_of ret out add_outs]. now rewrite <- !app_assoc.
      * match goal with |- context [bind (for_each ?ps _) _ ?w1] =>
          pose proof (remove_all_plain_out self ps w1 Hd) as Ho;
          unfold bind; destruct (for_each ps (_remove self) w1) end;
          cbn [world_of ret] in *; rewrite Ho; cbn [out add_outs];
          now rewrite app_nil_r, <- !app_assoc.
    + cbn [world_of bind ret out add_outs]. now rewrite app_nil_r, <- !app_assoc.
  - cbn [world_of out add_outs]. now rewrite app_nil_r, <- !app_assoc.
Qed.

Lemma append_assoc a b c : (a +++ b) +++ c = a +++ b +++ c.
Proof.
  induction a as [|x a IH]; [reflexivity|].
  rewrite !append_cons. now rewrite IH.
Qed.

Lemma endswith_append a suffix suffix' :
  String.length suffix = String.length suffix' ->
  endswith (a +++ suffix) suffix' = String.eqb suffix suffix'.
Proof.
  intros Hlen. unfold endswith. rewrite length_append, <- Hlen.
  replace (String.length a + String.length suffix - String.length suffix)%nat
    with (String.length a) by lia.
  now rewrite slice_from_append.
Qed.

Lemma endswith_inv s suffix :
  endswith s suffix = true -> exists x, s = x +++ suffix.
Proof.
  unfold endswith, slice_from. intros H. apply String.eqb_eq in H.
  pose proof (substring_split (String.length s - String.length suffix) s) as E.
  rewrite H in E. eexists. symmetry. exact E.
Qed.

(** A line that ends with a path of the scan does not end in
    [.rpmorig]. *)
Lemma tagged_line_not_rpmorig pre l :
  tagged l = true -> endswith (pre +++ l) ".rpmorig" = false.
Proof.
  intros Ht. destruct (endswith (pre +++ l) ".rpmorig") eqn:E; [exfalso|reflexivity].
  apply endswith_inv in E as [x Hx].
  assert (Hg : endswith (pre +++ l) "g" = true).
  { rewrite Hx. change ".rpmorig" with (".rpmori" +++ "g").
    rewrite <- append_assoc. now rewrite endswith_append. }
  assert (Hw : endswith (pre +++ l) "g" = false).
  { pose proof (splitext_parts l) as Hl.
    unfold tagged, in_list in Ht. cbn [existsb] in Ht.
    rewrite !orb_true_iff, !String.eqb_eq in Ht.
    destruct Ht as [E|[E|E]]; [| |discriminate]; rewrite E in Hl; rewrite <- Hl.
    - change ".rpmnew" with (".rpmne" +++ "w").
      rewrite <- !append_assoc. now rewrite endswith_append.
    - change ".rpmsave" with (".rpmsav" +++ "e").
      rewrite <- !append_assoc. now rewrite endswith_append. }
  congruence.
Qed.

Lemma not_in_replicate_ask s n q : ~ In (Print s) (replicate n (Ask q)).
Proof. induction n as [|n IH]; cbn; [tauto|]. intros [?|?]; [discriminate|tauto]. Qed.


End EngineProperties.

(** ** The theorems on the example data *)

(** C1 at work: the identical pair, outside dry-run mode. *)
Lemma identical_pair_auto_resolved_witness :
  exists w',
    _handle_rpmnew no_tool None cfg_plain "/etc/foo.conf" "/etc/foo.conf.rpmnew"
      ["y"] w_same = Ok (None, ["y"]) w' /\
    fs w' !! "/etc/foo.conf.rpmnew" = None /\ out w' = [].
Proof.
  destruct (identical_pair_auto_resolved no_tool None cfg_plain
              "/etc/foo.conf" "/etc/foo.conf.rpmnew" "a=1" ["y"] w_same)
    as (w' & H1 & _ & _ & _ & H2 & _).
  - discriminate.
  - reflexivity.
  - reflexivity.
  - exists w'. destruct (H2 eq_refl). auto.
Defined.

(** C1, as first stated, fails in dry-run mode: the pair is identical,
    the handler returns, and the variant is still there. *)
Lemma identical_pair_dry_run_keeps_variant :
  read_file (fs w_same) "/etc/foo.conf" = Some "a=1" /\
  read_file (fs w_same) "/etc/foo.conf.rpmnew" = Some "a=1" /\
  _handle_rpmnew no_tool None cfg_dry "/etc/foo.conf" "/etc/foo.conf.rpmnew"
    [] w_same
  = Ok (None, []) (add_out (Print "rm /etc/foo.conf.rpmnew") w_same) /\
  fs (add_out (Print "rm /etc/foo.conf.rpmnew") w_same) !! "/etc/foo.conf.rpmnew"
  = Some (Reg "a=1" 20).
Proof. repeat split; vm_compute; reflexivity. Qed.

(** C2 at work: an empty line at the prompt for a new variant, outside
    dry-run mode. *)
Lemma empty_input_selects_default_witness :
  let w' := after_remove cfg_plain "/etc/foo.conf.rpmnew"
              (shown cfg_plain rpmnew_prompt "/etc/foo.conf" "/etc/foo.conf.rpmnew"
                 w_diff) in
  _handle_rpmnew no_tool None cfg_plain "/etc/foo.conf" "/etc/foo.conf.rpmnew"
    [EmptyString; "y"] w_diff = Ok (Some "N", ["y"]) w' /\
  fs w' !! "/etc/foo.conf" = Some (Reg "a=1" 10) /\
  fs w' !! "/etc/foo.conf.rpmnew" = None.
Proof.
  intros w'.
  destruct (empty_input_selects_default no_tool None cfg_plain
              "/etc/foo.conf" "/etc/foo.conf.rpmnew") as (_ & _ & H).
  destruct (H ["y"] w_diff) as (Hnew & _ & Hfs).
  - discriminate.
  - vm_compute. reflexivity.
  - vm_compute. discriminate.
  - destruct (Hfs rpmnew_prompt) as (Hc & Hplain & _).
    destruct (Hplain eq_refl) as [_ Ho].
    split; [exact Hnew|]. split; [|exact Ho].
    etransitivity; [exact Hc|]. vm_compute. reflexivity.
Defined.

(** C2, as first stated, fails in dry-run mode: the empty line is read
    as [N], and the variant is still there. *)
Lemma empty_input_dry_run_keeps_variant :
  let w' := add_out (Print "rm /etc/foo.conf.rpmnew")
              (shown cfg_dry rpmnew_prompt "/etc/foo.conf" "/etc/foo.conf.rpmnew"
                 w_diff) in
  _handle_rpmnew no_tool None cfg_dry "/etc/foo.conf" "/etc/foo.conf.rpmnew"
    [EmptyString] w_diff = Ok (Some "N", []) w' /\
  fs w' !! "/etc/foo.conf.rpmnew" = Some (Reg "a=2" 20).
Proof. split; vm_compute; reflexivity. Qed.

(** C3 at work: [y] at the prompt for a new variant. *)
Lemma resolved_variant_absent_witness :
  let r := _handle_rpmnew no_tool None cfg_plain "/etc/foo.conf"
             "/etc/foo.conf.rpmnew" ["y"] w_diff in
  r = Ok (Some "Y", []) (world_of r) /\
  fs (world_of r) !! "/etc/foo.conf" = Some (Reg "a=2" 20) /\
  fs (world_of r) !! "/etc/foo.conf.rpmnew" = None /\
  os_access (fs (world_of r)) "/etc/foo.conf.rpmnew" = false.
Proof.
  intros r.
  assert (E : r = Ok (Some "Y", []) (world_of r)) by (vm_compute; reflexivity).
  split; [exact E|]. split; [vm_compute; reflexivity|].
  apply (resolved_variant_absent no_tool None cfg_plain "/etc/foo.conf"
           "/etc/foo.conf.rpmnew" ["y"] w_diff (Some "Y") [] (world_of r)).
  - reflexivity.
  - left. exact E.
  - discriminate.
Defined.

(** The defect behind C4.  At the end of the input the resolution
    prompts take [S] and return; the confirmation prompt of the orphan
    scanner raises [EOFError], which nothing catches. *)
Theorem eof_skips_only_at_resolution_prompts :
  (exists w',
     _handle_rpmnew no_tool None cfg_plain "/etc/foo.conf" "/etc/foo.conf.rpmnew"
       [] w_diff = Ok (Some "S", []) w') /\
  (exists w',
     _handle_rpmsave no_tool None cfg_plain "/etc/foo.conf" "/etc/foo.conf.rpmnew"
       [] w_diff = Ok (Some "S", []) w') /\
  (exists w',
     run no_tool None bar_owner orphan_tree cfg_clean [] w_orphans
     = Raise EOFError w' /\ fs w' = fs w_orphans).
Proof.
  split; [|split].
  - exists (world_of (_handle_rpmnew no_tool None cfg_plain "/etc/foo.conf"
                        "/etc/foo.conf.rpmnew" [] w_diff)).
    vm_compute. reflexivity.
  - exists (world_of (_handle_rpmsave no_tool None cfg_plain "/etc/foo.conf"
                        "/etc/foo.conf.rpmnew" [] w_diff)).
    vm_compute. reflexivity.
  - exists (world_of (run no_tool None bar_owner orphan_tree cfg_clean [] w_orphans)).
    split; vm_compute; reflexivity.
Qed.

(** C5 at work: the base of the first file has vanished; the new
    variant is a directory and the answer is [n]; the merge tool removes
    the variant. *)
Lemma io_failure_aborts_run_witness :
  run no_tool None no_owner empty_tree cfg_two [] w_vanished
  = Raise FileNotFoundError w_vanished /\
  run no_tool None no_owner empty_tree cfg_vimdiff ["n"] w_dir_variant
  = Raise IsADirectoryError
      (shown cfg_vimdiff rpmnew_prompt "/etc/foo.conf" "/etc/foo.conf.rpmnew"
         w_dir_variant) /\
  exists w',
    run removing_tool None no_owner empty_tree cfg_vimdiff ["m"; "n"] w_diff
    = Raise CalledProcessError w' /\
    fs w' !! "/etc/foo.conf.rpmnew" = None.
Proof.
  split; [|split].
  - destruct (io_failure_aborts_run no_tool None no_owner empty_tree cfg_two
                [] "/etc/a.conf" ["/etc/b.conf"] [] w_vanished [] w_vanished)
      as (H & _ & _); [reflexivity|reflexivity|reflexivity|].
    apply H; [vm_compute; reflexivity|]. left. vm_compute. reflexivity.
  - destruct (io_failure_aborts_run no_tool None no_owner empty_tree cfg_vimdiff
                [] "/etc/foo.conf" [] ["n"] w_dir_variant ["n"] w_dir_variant)
      as (_ & H & _); [reflexivity|reflexivity|reflexivity|].
    apply (H "n" [] ("/etc/foo.conf", Reg "a=1" 10)); vm_compute; reflexivity.
  - destruct (io_failure_aborts_run removing_tool None no_owner empty_tree cfg_vimdiff
                [] "/etc/foo.conf" [] ["m"; "n"] w_diff ["m"; "n"] w_diff)
      as (_ & _ & H); [reflexivity|reflexivity|reflexivity|].
    eexists. split.
    + apply (H "m" ["n"] "vimdiff" (delete "/etc/foo.conf.rpmnew" (fs w_diff)));
        try (vm_compute; reflexivity). now left.
    + vm_compute. reflexivity.
Defined.

(** C5, as first stated, fails: the failure on [/etc/a.conf] ends the
    run, and [/etc/b.conf], which alone is handled without trouble, is
    never looked at: its variant is still there. *)
Lemma io_failure_leaves_next_file_unhandled :
  (exists w',
     handle_conf_file no_tool None cfg_two "/etc/b.conf" [] w_vanished = Ok [] w' /\
     fs w' !! "/etc/b.conf.rpmnew" = None) /\
  (exists w',
     run no_tool None no_owner empty_tree cfg_two [] w_vanished
     = Raise FileNotFoundError w' /\
     fs w' !! "/etc/b.conf.rpmnew" = Some (Reg "b" 3)).
Proof.
  split.
  - exists (world_of (handle_conf_file no_tool None cfg_two "/etc/b.conf" [] w_vanished)).
    split; vm_compute; reflexivity.
  - exists w_vanished. split; vm_compute; reflexivity.
Qed.

(** C6 at work: a dry run with a tool that only shows the files. *)
Lemma dry_run_keeps_filesystem_witness :
  fs (world_of (run viewer_tool None bar_owner orphan_tree
                  {| packages := [[foo_hdr]]; clean := true; debug := true;
                     selinux := false; diff := false; frontend := Some "meld" |}
                  ["m"; "y"; "y"]
                  {| fs := fs w_diff ∪ fs w_orphans; out := [] |}))
  = fs w_diff ∪ fs w_orphans.
Proof.
  apply (dry_run_keeps_filesystem viewer_tool None bar_owner orphan_tree).
  - reflexivity.
  - intros argv m status m' H. now injection H.
Defined.

(** C6, as first stated, fails: in a dry run [M] still starts the merge
    tool, and what the tool writes stays. *)
Lemma dry_run_merge_changes_base :
  debug cfg_dry_kdiff3 = true /\
  fs w_diff !! "/etc/foo.conf" = Some (Reg "a=1" 10) /\
  exists w',
    run merging_tool None no_owner empty_tree cfg_dry_kdiff3 ["m"; "s"] w_diff
    = Ok [] w' /\
    fs w' !! "/etc/foo.conf" = Some (Reg "merged" 30).
Proof.
  split; [reflexivity|]. split; [vm_compute; reflexivity|].
  exists (world_of (run merging_tool None no_owner empty_tree cfg_dry_kdiff3
                      ["m"; "s"] w_diff)).
  split; vm_compute; reflexivity.
Qed.

(** C7 at work: one candidate, an invalid line, then [y]: two
    questions, one line left unread, the candidate gone. *)
Lemma orphan_deletion_confirmed_witness :
  exists w',
    _clean_orphan bar_owner orphan_tree cfg_clean ["x"; "y"; "z"] w_orphans
    = Ok ["z"] w' /\
    asked (out w') = 2%nat /\
    fs w' !! "/etc/foo.conf.rpmnew" = None /\
    fs w' !! "/etc/bar.conf.rpmsave" = Some (Reg "old bar" 3).
Proof.
  assert (Hr : _clean_orphan bar_owner orphan_tree cfg_clean ["x"; "y"; "z"] w_orphans
               = Ok ["z"] (world_of (_clean_orphan bar_owner orphan_tree cfg_clean
                                       ["x"; "y"; "z"] w_orphans)))
    by (vm_compute; reflexivity).
  destruct (orphan_deletion_confirmed bar_owner orphan_tree cfg_clean
              ["x"; "y"; "z"] w_orphans) as (_ & _ & Hq & _ & _ & H).
  destruct (H "Y" ["z"]) as (_ & _ & Hplain).
  - reflexivity.
  - now left.
  - vm_compute. discriminate.
  - destruct (Hplain eq_refl _ _ Hr) as [_ Hin].
    eexists. split; [exact Hr|]. split; [|split].
    + etransitivity; [apply Hq; vm_compute; discriminate|]. vm_compute. reflexivity.
    + apply Hin. vm_compute. now left.
    + vm_compute. reflexivity.
Defined.

(** C7, as first stated, fails in dry-run mode: the answer is [Y], and
    the candidate is still there. *)
Lemma orphan_dry_run_keeps_candidates :
  snd (scan_all bar_owner orphan_tree (fs w_orphans)) = ["/etc/foo.conf.rpmnew"] /\
  exists w',
    _clean_orphan bar_owner orphan_tree cfg_clean_dry ["Y"] w_orphans = Ok [] w' /\
    fs w' !! "/etc/foo.conf.rpmnew" = Some (Reg "foo" 1).
Proof.
  split; [vm_compute; reflexivity|].
  exists (world_of (_clean_orphan bar_owner orphan_tree cfg_clean_dry ["Y"] w_orphans)).
  split; vm_compute; reflexivity.
Qed.





(** ** The further properties on the example data *)

(** X1 at work: same size, same time, other bytes. *)
Lemma same_size_and_time_auto_resolved_witness :
  _handle_rpmnew no_tool None cfg_plain "/etc/foo.conf" "/etc/foo.conf.rpmnew"
    ["n"] w_same_stamp
  = Ok (None, ["n"]) (after_remove cfg_plain "/etc/foo.conf.rpmnew" w_same_stamp) /\
  read_file (fs w_same_stamp) "/etc/foo.conf"
  <> read_file (fs w_same_stamp) "/etc/foo.conf.rpmnew".
Proof.
  split; [|vm_compute; discriminate].
  refine (proj1 (same_size_and_time_auto_resolved no_tool None cfg_plain
                   "/etc/foo.conf" "/etc/foo.conf.rpmnew" "a=1" "a=2" 10 ["n"]
                   w_same_stamp _ _ _)); vm_compute; reflexivity.
Defined.

(** X2 at work: [y] at the prompt for a new variant. *)
Lemma adopt_variant_regular_witness :
  _handle_rpmnew no_tool None cfg_plain "/etc/foo.conf" "/etc/foo.conf.rpmnew"
    ["y"; "n"] w_diff
  = Ok (Some "Y", ["n"])
      (set_fs (delete "/etc/foo.conf.rpmnew"
                 (<["/etc/foo.conf" := Reg "a=2" 20]> (fs w_diff)))
         (shown cfg_plain rpmnew_prompt "/etc/foo.conf" "/etc/foo.conf.rpmnew" w_diff)).
Proof.
  refine (proj1 (adopt_variant_regular no_tool None cfg_plain
                   "/etc/foo.conf" "/etc/foo.conf.rpmnew" "y" ["n"] w_diff
                   "a=1" 10 "a=2" 20 _ _ _ _ _) _);
    try discriminate; try (vm_compute; reflexivity).
  now left.
Defined.

(** X3 at work: the link is copied over a regular file, not over a
    directory. *)
Lemma copy_symlink_replaces_witness :
  _copy "/etc/foo.conf.rpmnew" "/etc/foo.conf" w_link
  = Ok tt (set_fs (<["/etc/foo.conf" := Lnk "/usr/share/foo/foo.conf"]> (fs w_link))
             w_link) /\
  _copy "/etc/foo.conf.rpmnew" "/etc/foo.d" w_link = Raise IsADirectoryError w_link.
Proof.
  split.
  - refine (proj1 (copy_symlink_replaces "/etc/foo.conf.rpmnew" "/etc/foo.conf"
                     "/usr/share/foo/foo.conf" w_link _) _);
      [vm_compute; reflexivity|vm_compute; discriminate].
  - refine (proj2 (copy_symlink_replaces "/etc/foo.conf.rpmnew" "/etc/foo.d"
                     "/usr/share/foo/foo.conf" w_link _) _);
      vm_compute; reflexivity.
Defined.


(** X5 at work: one package, its file without variants. *)
Lemma run_without_variants_witness :
  run no_tool None no_owner empty_tree cfg_vimdiff ["y"] w_settled
  = Ok ["y"] w_settled.
Proof.
  apply (run_without_variants no_tool None no_owner empty_tree cfg_vimdiff
           ["y"] w_settled); [reflexivity|reflexivity|].
  intros conf Hin. vm_compute in Hin. destruct Hin as [<-|[]].
  repeat split; vm_compute; reflexivity.
Defined.

(** X6 at work: flags 1 and 17 have the bit, flags 0 do not. *)
Lemma get_list_of_config_bit0_witness :
  get_list_of_config
    [ {| fi_name := "/etc/a.conf"; fi_flags := 1 |};
      {| fi_name := "/etc/b.conf"; fi_flags := 17 |};
      {| fi_name := "/usr/bin/b"; fi_flags := 0 |} ]
  = ["/etc/a.conf"; "/etc/b.conf"].
Proof.
  rewrite (proj1 (get_list_of_config_bit0 _)). reflexivity.
Defined.

(** X7 at work: diff mode on a pair that differs. *)
Lemma diff_mode_read_only_witness :
  let r := run no_tool None no_owner empty_tree cfg_diff ["y"] w_diff in
  fs (world_of r) = fs w_diff /\
  (exists evs, Forall is_pager evs /\ out (world_of r) = (out w_diff ++ evs)%list) /\
  asked (out (world_of r)) = asked (out w_diff) /\
  (forall inp' w', r = Ok inp' w' -> inp' = ["y"]).
Proof.
  apply (diff_mode_read_only no_tool None no_owner empty_tree cfg_diff ["y"] w_diff);
    reflexivity.
Defined.

(** X8 at work: the three variants of [/etc/foo.conf]. *)
Lemma diff_mode_shows_three_witness :
  handle_conf_file no_tool None cfg_diff "/etc/foo.conf" [] w_three
  = Ok []
      (add_outs [Pager "/etc/foo.conf" "/etc/foo.conf.rpmnew" "a=1" "a=2";
                 Pager "/etc/foo.conf.rpmsave" "/etc/foo.conf" "a=0" "a=1";
                 Pager "/etc/foo.conf.rpmorig" "/etc/foo.conf" "a=" "a=1"] w_three).
Proof.
  apply (diff_mode_shows_three no_tool None cfg_diff "/etc/foo.conf" [] w_three
           "a=1" 10 "a=2" 20 "a=0" 5 "a=" 1); vm_compute; reflexivity.
Defined.

(** X9 at work: the new variant of [/etc/foo.conf] is a dangling link. *)
Lemma dangling_variant_witness :
  handle_conf_file no_tool None cfg_plain "/etc/foo.conf" [] w_link = Ok [] w_link /\
  handle_conf_file no_tool None cfg_diff "/etc/foo.conf" [] w_link
  = Raise FileNotFoundError w_link.
Proof.
  split.
  - refine (proj1 (dangling_variant no_tool None cfg_plain "/etc/foo.conf"
                     "/usr/share/foo/foo.conf" [] w_link "a=1" 10 _ _ _ _ _) _);
      vm_compute; reflexivity.
  - refine (proj2 (dangling_variant no_tool None cfg_diff "/etc/foo.conf"
                     "/usr/share/foo/foo.conf" [] w_link "a=1" 10 _ _ _ _ _) _);
      vm_compute; reflexivity.
Defined.

(** X10 at work: [x] is no answer. *)
Lemma unknown_choice_asks_again_witness :
  rpmnew_loop no_tool None cfg_plain "/etc/foo.conf" "/etc/foo.conf.rpmnew"
    ["x"; "n"] w_diff
  = rpmnew_loop no_tool None cfg_plain "/etc/foo.conf" "/etc/foo.conf.rpmnew"
      ["n"]
      (shown cfg_plain rpmnew_prompt "/etc/foo.conf" "/etc/foo.conf.rpmnew" w_diff).
Proof.
  refine (proj1 (unknown_choice_asks_again no_tool None cfg_plain
                   "/etc/foo.conf" "/etc/foo.conf.rpmnew" "x" ["n"] w_diff _ _ _ _));
    try (vm_compute; reflexivity); eexists; vm_compute; reflexivity.
Defined.

(** X11 at work: [d] at the prompt for a saved variant. *)
Lemma diff_choice_direction_witness :
  rpmsave_loop no_tool None cfg_plain "/etc/foo.conf" "/etc/foo.conf.rpmnew"
    ["d"; "s"] w_diff
  = rpmsave_loop no_tool None cfg_plain "/etc/foo.conf" "/etc/foo.conf.rpmnew"
      ["s"]
      (add_out (Pager "/etc/foo.conf.rpmnew" "/etc/foo.conf" "a=2" "a=1")
         (shown cfg_plain rpmsave_prompt "/etc/foo.conf" "/etc/foo.conf.rpmnew"
            w_diff)).
Proof.
  refine (proj2 (diff_choice_direction no_tool None cfg_plain
                   "/etc/foo.conf" "/etc/foo.conf.rpmnew" "d" ["s"] w_diff
                   "a=1" 10 "a=2" 20 _ _ _)); vm_compute; reflexivity.
Defined.

(** X12 at work: [z] at the prompt for a new variant. *)
Lemma stop_choice_asks_again_witness :
  rpmnew_loop no_tool None cfg_plain "/etc/foo.conf" "/etc/foo.conf.rpmnew"
    ["z"; "s"] w_diff
  = rpmnew_loop no_tool None cfg_plain "/etc/foo.conf" "/etc/foo.conf.rpmnew"
      ["s"]
      (add_out Stopped
         (add_out (Print "Run command 'fg' to continue")
            (shown cfg_plain rpmnew_prompt "/etc/foo.conf" "/etc/foo.conf.rpmnew"
               w_diff))).
Proof.
  refine (proj1 (stop_choice_asks_again no_tool None cfg_plain
                   "/etc/foo.conf" "/etc/foo.conf.rpmnew" "z" ["s"] w_diff _ _ _));
    try (vm_compute; reflexivity); eexists; vm_compute; reflexivity.
Defined.

(** X14 at work: [emacs] is no frontend, whatever [MERGE] says. *)
Lemma merge_without_frontend_witness :
  _merge_conf_files viewer_tool (Some "/usr/bin/meld") cfg_emacs
    "/etc/foo.conf" "/etc/foo.conf.rpmnew" w_diff
  = Raise (SystemExit 2)
      (add_out (LogError "You did not selected any frontend for merge") w_diff).
Proof.
  apply (merge_without_frontend viewer_tool (Some "/usr/bin/meld") cfg_emacs
           "/etc/foo.conf" "/etc/foo.conf.rpmnew" w_diff).
  left. exists "emacs". split; [reflexivity|].
  cbn [In]. intros H.
  repeat (destruct H as [H|H]; [discriminate H|]). exact H.
Defined.

(** X15 at work: [vimdiff] is not installed; [vimdiff] cannot be
    executed. *)
Lemma merge_tool_missing_witness :
  _merge_conf_files no_tool None cfg_vimdiff "/etc/foo.conf" "/etc/foo.conf.rpmnew"
    w_diff
  = Raise (SystemExit 4) (add_out (Stderr ("No such file or directory" +++ nl)) w_diff) /\
  _merge_conf_files denied_tool None cfg_vimdiff "/etc/foo.conf" "/etc/foo.conf.rpmnew"
    w_diff
  = Raise PermissionError w_diff.
Proof.
  split.
  - refine (proj1 (proj1 (merge_tool_missing no_tool None cfg_vimdiff
                            "/etc/foo.conf" "/etc/foo.conf.rpmnew" w_diff)
                     "vimdiff" _ _) _); [reflexivity|now left|reflexivity].
  - refine (proj2 (proj1 (merge_tool_missing denied_tool None cfg_vimdiff
                            "/etc/foo.conf" "/etc/foo.conf.rpmnew" w_diff)
                     "vimdiff" _ _) _); [reflexivity|now left|reflexivity].
Defined.

(** X16 at work: [kdiff3] gives up. *)
Lemma merge_failure_by_frontend_witness :
  _merge_conf_files failing_tool None cfg_kdiff3 "/etc/foo.conf" "/etc/foo.conf.rpmnew"
    w_diff
  = Ok tt
      (add_out (Print "Files not merged.")
         (add_out (Spawned ["/usr/bin/kdiff3"; "/etc/foo.conf"; "/etc/foo.conf.rpmnew";
                            "-o"; "/etc/foo.conf"])
            (set_fs (fs w_diff) w_diff))) /\
  _merge_conf_files failing_tool None cfg_vimdiff "/etc/foo.conf" "/etc/foo.conf.rpmnew"
    w_diff
  = Raise CalledProcessError
      (add_out (Spawned ["/usr/bin/vimdiff"; "/etc/foo.conf"; "/etc/foo.conf.rpmnew"])
         (set_fs (fs w_diff) w_diff)).
Proof.
  split.
  - refine (proj1 (proj2 (merge_failure_by_frontend failing_tool None cfg_kdiff3
                            "/etc/foo.conf" "/etc/foo.conf.rpmnew" w_diff 1
                            (fs w_diff) _ _)) _);
      [discriminate|reflexivity|reflexivity].
  - refine (proj1 (proj2 (proj2 (merge_failure_by_frontend failing_tool None cfg_vimdiff
                                   "/etc/foo.conf" "/etc/foo.conf.rpmnew" w_diff 1
                                   (fs w_diff) _ _))) "vimdiff" _ _);
      [discriminate|reflexivity|reflexivity|now left].
Defined.

(** X17 at work: [m] with [kdiff3], then the listing of the next round. *)
Lemma kdiff3_merge_then_listing_fails_witness :
  exists w',
    rpmnew_loop kdiff3_tool None cfg_kdiff3 "/etc/foo.conf" "/etc/foo.conf.rpmnew"
      ["m"; "n"] w_diff = Raise CalledProcessError w' /\
    fs w' !! "/etc/foo.conf" = Some (Reg "merged" 30) /\
    fs w' !! "/etc/foo.conf.rpmnew" = None /\
    fs w' !! "/etc/foo.conf.orig" = None.
Proof.
  eexists. split.
  - refine (proj1 (kdiff3_merge_then_listing_fails kdiff3_tool None cfg_kdiff3
                     "/etc/foo.conf" "/etc/foo.conf.rpmnew" "m" ["n"] w_diff
                     (<["/etc/foo.conf.orig" := Reg "a=1" 10]>
                        (<["/etc/foo.conf" := Reg "merged" 30]> (fs w_diff)))
                     (Reg "a=2" 20) (Reg "a=1" 10) _ _ _ _ _ _ _ _ _ _ _));
      try discriminate; try (vm_compute; reflexivity);
      eexists; vm_compute; reflexivity.
  - repeat split; vm_compute; reflexivity.
Defined.

(** X18 at work: a tool that leaves no backup. *)
Lemma kdiff3_without_backup_exits_witness :
  exists w',
    _merge_conf_files merging_tool None cfg_kdiff3 "/etc/foo.conf"
      "/etc/foo.conf.rpmnew" w_diff = Raise (SystemExit 4) w' /\
    fs w' !! "/etc/foo.conf" = Some (Reg "merged" 30) /\
    fs w' !! "/etc/foo.conf.rpmnew" = None.
Proof.
  eexists. split.
  - refine (kdiff3_without_backup_exits merging_tool None cfg_kdiff3
              "/etc/foo.conf" "/etc/foo.conf.rpmnew" w_diff
              (<["/etc/foo.conf" := Reg "merged" 30]> (fs w_diff))
              (Reg "a=2" 20) _ _ _ _ _ _ _);
      try discriminate; vm_compute; reflexivity.
  - split; vm_compute; reflexivity.
Defined.



(** X21 at work: [/etc/foo.conf.rpmnew]. *)
Lemma orphan_query_strips_suffix_witness :
  exists orig,
    ("/etc/foo.conf.rpmnew" = orig +++ ".rpmnew" \/
     "/etc/foo.conf.rpmnew" = orig +++ ".rpmsave") /\
    forall qf : gmap string node -> string -> option string,
      _clean_orphan_file qf ∅ "/etc/foo.conf.rpmnew"
      = match qf ∅ orig with
        | Some package_merge => ((Some package_merge, orig, "/etc/foo.conf.rpmnew"), None)
        | None => ((None, orig, "/etc/foo.conf.rpmnew"), Some "/etc/foo.conf.rpmnew")
        end.
Proof.
  apply (proj2 (orphan_query_strips_suffix ∅ "/etc/foo.conf.rpmnew")).
  vm_compute. reflexivity.
Defined.

(** X22 at work: the base is a link into [/usr/share]. *)
Lemma overwrite_through_symlink_witness :
  _overwrite cfg_plain "/etc/foo.conf.rpmnew" "/etc/foo.conf" w_linked_base
  = Ok tt (set_fs (delete "/etc/foo.conf.rpmnew"
                     (<["/usr/share/foo/foo.conf" := Reg "a=2" 20]> (fs w_linked_base)))
             w_linked_base).
Proof.
  apply (overwrite_through_symlink cfg_plain "/etc/foo.conf" "/etc/foo.conf.rpmnew"
           "/usr/share/foo/foo.conf" w_linked_base "a=2" 20 "a=1" 10);
    try discriminate; vm_compute; reflexivity.
Defined.

(** X23 at work: [lib/mock] is left out below [/var], not below [/etc]. *)
Lemma walk_skips_only_var_lib_mock_witness :
  map (fun triple => fst (fst triple)) (os_walk keep_dir "/var" mock_tree)
  = ["/var"; "/var/lib"; "/var/lib/rpm"] /\
  (forall root dirs files,
     In (root, dirs, files) (os_walk keep_dir "/var" mock_tree) ->
     ~ below "/var/lib/mock" root) /\
  map (fun triple => fst (fst triple)) (os_walk keep_dir "/etc" mock_tree)
  = ["/etc"; "/etc/lib"; "/etc/lib/mock"; "/etc/lib/rpm"].
Proof.
  split; [vm_compute; reflexivity|].
  destruct (walk_skips_only_var_lib_mock mock_tree) as (H1 & H2 & _).
  - vm_compute. reflexivity.
  - split; [exact H1|]. rewrite H2. vm_compute. reflexivity.
Defined.

(** X24 at work: [/etc/a.conf] is gone, its new variant is there. *)
Lemma variant_without_base_raises_witness :
  handle_conf_file no_tool None cfg_two "/etc/a.conf" ["y"] w_vanished
  = Raise FileNotFoundError w_vanished.
Proof.
  apply (variant_without_base_raises no_tool None cfg_two "/etc/a.conf" ["y"]
           w_vanished); [reflexivity|vm_compute; reflexivity|].
  left. vm_compute. reflexivity.
Defined.
